(** * AI-Researcher: a shallow embedding of the pipeline core

  The Python sources are embedded as Rocq functions, one module per source
  file.  Exceptions are values of [result]; dictionaries are [gmap]s or
  association lists where the iteration order matters; the task table is a
  finite map from the Celery task id to the row. *)

From Stdlib Require Import ZArith Bool List Ascii String Lia Floats Uint63 Sorted.
From stdpp Require Import base option list gmap strings pretty list_numbers sorting.

Set Warnings "-register-all,-inexact-float".

Local Open Scope Z_scope.
Local Open Scope string_scope.

(** ** Python values shared by all modules *)

Module py.

(** The exception classes the embedded code raises or catches. *)
Inductive exn_class :=
| Exception | ValueError | TypeError | AttributeError | KeyError
| JSONDecodeError | APIError.

(** [type(exc).__name__] *)
Definition class_name (c : exn_class) : string :=
  match c with
  | Exception => "Exception" | ValueError => "ValueError"
  | TypeError => "TypeError" | AttributeError => "AttributeError"
  | KeyError => "KeyError" | JSONDecodeError => "JSONDecodeError"
  | APIError => "APIError"
  end.

(** An exception object: its class and [str(exc)]. *)
Record exn := mk_exn { exn_type : exn_class; exn_str : string }.

(** The outcome of a call that may raise. *)
Inductive result (A : Type) :=
| Ok (a : A)
| Raise (e : exn).
Arguments Ok {A} a.
Arguments Raise {A} e.

Definition bind {A B} (r : result A) (k : A -> result B) : result B :=
  match r with Ok a => k a | Raise e => Raise e end.

Definition is_ok {A} (r : result A) : bool :=
  match r with Ok _ => true | Raise _ => false end.

(** Python values where the code is dynamically typed: what [json.loads]
    returns, what a JSON column or a [**kwargs] holds, and instances of the
    dataclasses of models.py, which carry their class name and attributes. *)
Inductive pyval :=
| PNone
| PBool (b : bool)
| PInt (n : Z)
| PFloat (x : float)
| PStr (s : string)
| PList (items : list pyval)
| PDict (members : list (string * pyval))
| PInstance (cls : string) (attrs : list (string * pyval)).

(** Truthiness of an [Optional[str]] and of an [Optional[int]]. *)
Definition truthy_str (s : option string) : bool :=
  match s with Some (String _ _) => true | _ => false end.

Definition truthy_int (n : option Z) : bool :=
  match n with Some k => negb (Z.eqb k 0) | None => false end.

End py.
Import py.

Notation "'let*' x ':=' r 'in' k" := (py.bind r (fun x => k))
(at level 10, x name, r at level 200, k at level 200).

(** ** Dynamic operations on Python values *)

Module dyn.

(** [dict(l).get(k)] on an association list: the last binding wins in a
    dict literal, and the lists used here have distinct keys. *)
Fixpoint assoc (k : string) (l : list (string * pyval)) : option pyval :=
  match l with
  | [] => None
  | (k', v) :: l' => if String.eqb k k' then Some v else assoc k l'
  end.

(** The class name of a value, for error messages. *)
Definition type_name (v : pyval) : string :=
  match v with
  | PNone => "NoneType" | PBool _ => "bool" | PInt _ => "int"
  | PFloat _ => "float" | PStr _ => "str" | PList _ => "list"
  | PDict _ => "dict" | PInstance cls _ => cls
  end.

(** [o.name] on an instance of a dataclass. *)
Definition getattr (o : pyval) (name : string) : py.result pyval :=
  match o with
  | PInstance cls attrs =>
      match assoc name attrs with
      | Some v => Ok v
      | None => Raise (mk_exn AttributeError
                         ("'" ++ cls ++ "' object has no attribute '" ++ name ++ "'"))
      end
  | _ => Raise (mk_exn AttributeError
                  ("'" ++ type_name o ++ "' object has no attribute '" ++ name ++ "'"))
  end.

(** [bool(v)] *)
Definition truthy (v : pyval) : bool :=
  match v with
  | PNone => false
  | PBool b => b
  | PInt n => negb (Z.eqb n 0)
  | PFloat x => negb (PrimFloat.eqb x 0)
  | PStr s => truthy_str (Some s)
  | PList l => match l with [] => false | _ => true end
  | PDict d => match d with [] => false | _ => true end
  | PInstance _ _ => true
  end.

(** [d.get(k, default)]; only a dict has [get]. *)
Definition dict_get (d : pyval) (k : string) (default : pyval) : py.result pyval :=
  match d with
  | PDict members => Ok (from_option id default (assoc k members))
  | _ => getattr d "get"
  end.

(** [len(v)] *)
Definition len (v : pyval) : py.result Z :=
  match v with
  | PStr s => Ok (Z.of_nat (String.length s))
  | PList l => Ok (Z.of_nat (length l))
  | PDict d => Ok (Z.of_nat (length d))
  | _ => Raise (mk_exn TypeError
                  ("object of type '" ++ type_name v ++ "' has no len()"))
  end.

(** [for x in v]: the items a loop over [v] visits. *)
Definition iter (v : pyval) : py.result (list pyval) :=
  match v with
  | PList l => Ok l
  | PDict d => Ok (map (fun kv => PStr (fst kv)) d)
  | PStr s => Ok (map (fun c => PStr (String c EmptyString)) (list_ascii_of_string s))
  | _ => Raise (mk_exn TypeError
                  ("'" ++ type_name v ++ "' object is not iterable"))
  end.

(** [sep.join(v)]: [v] must be an iterable of strings. *)
Fixpoint join_strs (sep : string) (l : list pyval) : py.result string :=
  match l with
  | [] => Ok ""
  | PStr s :: l' =>
      match l' with
      | [] => Ok s
      | _ => let* rest := join_strs sep l' in Ok (s ++ sep ++ rest)
      end
  | v :: _ => Raise (mk_exn TypeError
                       ("sequence item: expected str instance, "
                        ++ type_name v ++ " found"))
  end.

Definition join (sep : string) (v : pyval) : py.result pyval :=
  let* items := iter v in
  let* s := join_strs sep items in
  Ok (PStr s).

(** The keyword call of the [__init__] that [@dataclass] generates for a
    class with the given fields (name, has a default): an unknown keyword
    or a missing field without default raises [TypeError]; otherwise the
    instance has one attribute per field. *)
Definition dataclass_new (cls : string) (fields : list (string * bool))
    (defaults kwargs : list (string * pyval)) : py.result pyval :=
  match List.find (fun kv => negb (existsb (fun f => String.eqb (fst f) (fst kv)) fields))
          kwargs with
  | Some (k, _) =>
      Raise (mk_exn TypeError
               (cls ++ ".__init__() got an unexpected keyword argument '" ++ k ++ "'"))
  | None =>
      match List.find (fun f => negb (snd f) && negb (bool_decide (is_Some (assoc (fst f) kwargs))))
              fields with
      | Some (f, _) =>
          Raise (mk_exn TypeError
                   (cls ++ ".__init__() missing 1 required positional argument: '"
                    ++ f ++ "'"))
      | None =>
          Ok (PInstance cls
                (map (fun f =>
                        (fst f,
                         from_option id (from_option id PNone (assoc (fst f) defaults))
                           (assoc (fst f) kwargs)))
                   fields))
      end
  end.

End dyn.

(** ** backend/db/models.py: the task table *)

Module db_models.

Inductive TaskStatus := PENDING | RUNNING | COMPLETED | FAILED | CANCELLED.

(** [TaskStatus(value)]: lookup of an enum member by value; a value that
    names no member raises [ValueError]. *)
Definition TaskStatus_of_value (v : string) : result TaskStatus :=
  if String.eqb v "pending" then Ok PENDING
  else if String.eqb v "running" then Ok RUNNING
  else if String.eqb v "completed" then Ok COMPLETED
  else if String.eqb v "failed" then Ok FAILED
  else if String.eqb v "cancelled" then Ok CANCELLED
  else Raise (mk_exn ValueError ("'" ++ v ++ "' is not a valid TaskStatus")).

(** A row of [async_tasks].  Timestamps are seconds on the worker's clock. *)
Record AsyncTask := mk_task {
  id : Z;
  project_id : option Z;
  user_id : option Z;
  task_id : string;
  task_name : string;
  task_type : option string;
  status : TaskStatus;
  progress : Z;
  result : option (gmap string pyval);
  error_message : option string;
  started_at : option Z;
  completed_at : option Z;
  created_at : option Z
}.

Definition set_status (v : TaskStatus) (t : AsyncTask) : AsyncTask :=
  mk_task (id t) (project_id t) (user_id t) (task_id t) (task_name t)
    (task_type t) v (progress t) (result t) (error_message t)
    (started_at t) (completed_at t) (created_at t).

Definition set_progress (v : Z) (t : AsyncTask) : AsyncTask :=
  mk_task (id t) (project_id t) (user_id t) (task_id t) (task_name t)
    (task_type t) (status t) v (result t) (error_message t)
    (started_at t) (completed_at t) (created_at t).

Definition set_result (v : option (gmap string pyval)) (t : AsyncTask) : AsyncTask :=
  mk_task (id t) (project_id t) (user_id t) (task_id t) (task_name t)
    (task_type t) (status t) (progress t) v (error_message t)
    (started_at t) (completed_at t) (created_at t).

Definition set_error_message (v : option string) (t : AsyncTask) : AsyncTask :=
  mk_task (id t) (project_id t) (user_id t) (task_id t) (task_name t)
    (task_type t) (status t) (progress t) (result t) v
    (started_at t) (completed_at t) (created_at t).

Definition set_started_at (v : option Z) (t : AsyncTask) : AsyncTask :=
  mk_task (id t) (project_id t) (user_id t) (task_id t) (task_name t)
    (task_type t) (status t) (progress t) (result t) (error_message t)
    v (completed_at t) (created_at t).

Definition set_completed_at (v : option Z) (t : AsyncTask) : AsyncTask :=
  mk_task (id t) (project_id t) (user_id t) (task_id t) (task_name t)
    (task_type t) (status t) (progress t) (result t) (error_message t)
    (started_at t) v (created_at t).

End db_models.

(** ** backend/tasks/base.py: DatabaseTask *)

Module tasks_base.
Import db_models.

(** The table, keyed by the unique column [task_id]. *)
Abbreviation table := (gmap string AsyncTask).

(** [if status: task.status = models.TaskStatus(status)] *)
Definition apply_status (status : option string) (task : AsyncTask)
  : py.result AsyncTask :=
  match status with
  | Some s => if truthy_str status
              then let* st := TaskStatus_of_value s in Ok (set_status st task)
              else Ok task
  | None => Ok task
  end.

(** The body of the [with SessionLocal() as db] block of
    [update_task_status], on the row that the query returned.  It raises
    when [models.TaskStatus(status)] does. *)
Definition apply_update (now : Z) (task : AsyncTask)
    (status : option string) (progress : option Z) (message : option string)
    (result : option (gmap string pyval)) (error : option string)
  : py.result AsyncTask :=
  let* task := apply_status status task in
  let task := match progress with
              | Some p => set_progress (Z.min 100 (Z.max 0 p)) task
              | None => task
              end in
  let task := match message with
              | Some m =>
                  if truthy_str message
                  then set_result
                         (Some (<["current_message" := PStr m]>
                                  (default ∅ (db_models.result task)))) task
                  else task
              | None => task
              end in
  let task := match result with
              | Some r =>
                  if Nat.eqb (size r) 0 then task
                  else set_result (Some (r ∪ default ∅ (db_models.result task))) task
              | None => task
              end in
  let task := if truthy_str error then set_error_message error task else task in
  let task := if bool_decide (status = Some "running")
                 && bool_decide (started_at task = None)
              then set_started_at (Some now) task else task in
  let task := if bool_decide (status = Some "completed")
                 || bool_decide (status = Some "failed")
              then set_completed_at (Some now) task else task in
  Ok task.

(** [DatabaseTask.update_task_status].  A missing row is logged and
    skipped; an exception inside the block is logged and swallowed, and
    the session is closed without a commit, so the table is unchanged. *)
Definition update_task_status (db : table) (now : Z) (task_id : string)
    (status : option string) (progress : option Z) (message : option string)
    (result : option (gmap string pyval)) (error : option string) : table :=
  match db !! task_id with
  | None => db
  | Some task =>
      match apply_update now task status progress message result error with
      | Ok task' => <[task_id := task']> db
      | Raise _ => db
      end
  end.

(** [DatabaseTask.on_failure] *)
Definition on_failure (db : table) (now : Z) (exc : exn) (task_id : string) : table :=
  let error_msg := class_name (exn_type exc) ++ ": " ++ exn_str exc in
  update_task_status db now task_id (Some "failed") (Some 0) None None (Some error_msg).

(** [DatabaseTask.on_success]: a dict returned by the stage is the result
    payload, any other value is wrapped as [{"result": retval}]. *)
Definition on_success (db : table) (now : Z) (retval : pyval) (task_id : string)
  : table :=
  let payload : gmap string pyval :=
    match retval with
    | PDict members => list_to_map members
    | _ => {[ "result" := retval ]}
    end in
  update_task_status db now task_id (Some "completed") (Some 100) None (Some payload) None.

End tasks_base.

(** ** Python [str] operations, on strings of code points below 256 *)

Module pystr.

(** A character is its code point; [string] holds code points 0..255, the
    range on which the tables below are those of CPython's [str]. *)
Definition code (c : ascii) : N := N_of_ascii c.

Definition between (lo hi n : N) : bool := (N.leb lo n && N.leb n hi)%bool.

(** [c.isspace()], which is also what [\s] matches and what [strip] removes:
    TAB..CR, FS..US, SPACE, NEL and NBSP. *)
Definition is_space (c : ascii) : bool :=
  let n := code c in
  (between 9 13 n || between 28 32 n || N.eqb n 133 || N.eqb n 160)%bool.

(** What [\w] matches: [c.isalnum()] or the underscore. *)
Definition is_word (c : ascii) : bool :=
  let n := code c in
  (between 48 57 n || between 65 90 n || N.eqb n 95 || between 97 122 n
   || N.eqb n 170 || between 178 179 n || N.eqb n 181 || between 185 186 n
   || between 188 190 n || between 192 214 n || between 216 246 n
   || between 248 255 n)%bool.

(** [c.lower()]: A..Z and the Latin-1 capitals (all of 192..222 but the
    multiplication sign) move up by 32. *)
Definition lower_char (c : ascii) : ascii :=
  let n := code c in
  if (between 65 90 n || (between 192 222 n && negb (N.eqb n 215)))%bool
  then ascii_of_N (n + 32) else c.

(** [s.lower()] *)
Fixpoint lower (s : string) : string :=
  match s with
  | EmptyString => EmptyString
  | String c s' => String (lower_char c) (lower s')
  end.

(** [s.lstrip()] *)
Fixpoint lstrip (s : string) : string :=
  match s with
  | EmptyString => EmptyString
  | String c s' => if is_space c then lstrip s' else s
  end.

(** [s.rstrip()] *)
Fixpoint rstrip (s : string) : string :=
  match s with
  | EmptyString => EmptyString
  | String c s' =>
      match rstrip s' with
      | EmptyString => if is_space c then EmptyString else String c EmptyString
      | r => String c r
      end
  end.

(** [s.strip()] *)
Definition strip (s : string) : string := rstrip (lstrip s).

(** [s.startswith(p)] *)
Fixpoint startswith (p s : string) : bool :=
  match p, s with
  | EmptyString, _ => true
  | String a p', String b s' => (Ascii.eqb a b && startswith p' s')%bool
  | String _ _, EmptyString => false
  end.

(** [p in s] for strings: [p] occurs in [s] as a substring. *)
Fixpoint contains (p s : string) : bool :=
  (startswith p s ||
   match s with
   | EmptyString => false
   | String _ s' => contains p s'
   end)%bool.

(** [re.sub(r'[^\w\s]', '', s)] *)
Fixpoint remove_non_word (s : string) : string :=
  match s with
  | EmptyString => EmptyString
  | String c s' =>
      if (is_word c || is_space c)%bool then String c (remove_non_word s')
      else remove_non_word s'
  end.

(** [re.sub(r'\s+', ' ', s)]: every maximal run of white space becomes one
    SPACE.  [in_run] says that the previous character was white space. *)
Fixpoint collapse_from (in_run : bool) (s : string) : string :=
  match s with
  | EmptyString => EmptyString
  | String c s' =>
      if is_space c
      then if in_run then collapse_from true s'
           else String " " (collapse_from true s')
      else String c (collapse_from false s')
  end.

Definition collapse_spaces (s : string) : string := collapse_from false s.

End pystr.

(** ** llm/base.py *)

Module llm_base.

Inductive LLMProvider := OPENAI | DEEPSEEK | CLAUDE | GEMINI | QWEN | KIMI.

Record LLMMessage := mk_message { role : string; content : string }.

Record LLMResponse := mk_response {
  resp_content : string;
  resp_model : string;
  resp_provider : LLMProvider;
  tokens_used : option Z;
  cost : option float;
  finish_reason : option string
}.

Record LLMConfig := mk_config {
  provider : LLMProvider;
  api_key : string;
  model : string;
  base_url : option string;
  temperature : float;
  max_tokens : option Z;
  timeout : Z;
  max_retries : Z;
  max_cost_per_request : option float;
  daily_budget : option float
}.

(** Truthiness of an [Optional[float]]: set and not zero. *)
Definition truthy_float (x : option float) : bool :=
  match x with Some f => negb (PrimFloat.eqb f 0) | None => false end.

(** [BaseLLM._validate_budget] *)
Definition _validate_budget (config : LLMConfig) (estimated_cost : float) : bool :=
  match max_cost_per_request config with
  | Some ceiling =>
      if truthy_float (Some ceiling)
      then if PrimFloat.ltb ceiling estimated_cost then false else true
      else true
  | None => true
  end.

(** [BaseLLM._prepare_messages] *)
Definition _prepare_messages (messages : list LLMMessage) : list (string * string) :=
  map (fun msg => (role msg, content msg)) messages.

End llm_base.

(** ** llm/openai_llm.py *)

Module openai_llm.
Import llm_base.

(** The keyword arguments of [chat.completions.create]. *)
Record params := mk_params {
  p_model : string;
  p_messages : list (string * string);
  p_temperature : float;
  p_max_tokens : option Z;
  p_json_object : bool;
  p_extra : list (string * pyval)
}.

(** What [chat] reads of the completion the client returns. *)
Record completion := mk_completion {
  message_content : string;
  usage_total_tokens : option Z;
  choice_finish_reason : string
}.

(** What the call does to the outside world, in order. *)
Inductive event :=
| Request (attempt : Z) (p : params)
| Sleep (seconds : Z).

(** [float(n)] for a token count. *)
Definition float_of_int (n : Z) : float := PrimFloat.of_uint63 (Uint63.of_Z n).

(** The pricing table of [_calculate_cost], in the order of the dict. *)
Definition pricing : list (string * float) :=
  [ ("gpt-4o", PrimFloat.div 0.005 1000);
    ("gpt-4o-mini", PrimFloat.div 0.00015 1000);
    ("gpt-4-turbo", PrimFloat.div 0.01 1000);
    ("gpt-3.5-turbo", PrimFloat.div 0.0005 1000) ]%float.

(** [OpenAILLM._calculate_cost] *)
Definition _calculate_cost (config : LLMConfig) (tokens_used : Z) : float :=
  let name := pystr.lower (model config) in
  match List.find (fun kv => pystr.contains (fst kv) name) pricing with
  | Some (_, price) => PrimFloat.mul (float_of_int tokens_used) price
  | None => PrimFloat.mul (float_of_int tokens_used) (PrimFloat.div 0.005 1000)
  end.

(** The parameters [chat] builds before the retry loop. *)
Definition build_params (config : LLMConfig) (messages : list LLMMessage)
    (temperature : option float) (max_tokens : option Z) (json_mode : bool)
    (kwargs : list (string * pyval)) : params :=
  let temp := match temperature with Some t => t | None => llm_base.temperature config end in
  let tokens := match max_tokens with Some n => Some n | None => llm_base.max_tokens config end in
  mk_params (model config) (_prepare_messages messages) temp
    (if truthy_int tokens then tokens else None) json_mode kwargs.

(** The body of the [try] once the client has answered. *)
Definition response_of (config : LLMConfig) (r : completion) : LLMResponse :=
  let tokens_used := usage_total_tokens r in
  let cost := match tokens_used with
              | Some n => if truthy_int tokens_used
                          then Some (_calculate_cost config n) else None
              | None => None
              end in
  mk_response (message_content r) (model config) OPENAI tokens_used cost
    (Some (choice_finish_reason r)).

(** The [for attempt in range(max_retries)] loop.  [create attempt] is what
    the client does at that attempt.  The loop ends with the response, or
    with [last_error] when it breaks or the range is exhausted. *)
Fixpoint retry_loop (config : LLMConfig) (create : Z -> params -> py.result completion)
    (p : params) (attempts : list Z) (last_error : option exn) (log : list event)
  : (LLMResponse + option exn) * list event :=
  match attempts with
  | [] => (inr last_error, log)
  | attempt :: rest =>
      let log := (log ++ [Request attempt p])%list in
      match create attempt p with
      | Ok r => (inl (response_of config r), log)
      | Raise e =>
          if (attempt <? max_retries config - 1)%Z
          then retry_loop config create p rest (Some e)
                 (log ++ [Sleep (2 ^ attempt)])%list
          else (inr (Some e), log)
      end
  end.

(** [str(last_error)] in the final message. *)
Definition str_of_error (e : option exn) : string :=
  match e with Some x => exn_str x | None => "None" end.

(** [OpenAILLM.chat]: the outcome and the requests and sleeps it made. *)
Definition chat (config : LLMConfig) (create : Z -> params -> py.result completion)
    (messages : list LLMMessage) (temperature : option float)
    (max_tokens : option Z) (json_mode : bool) (kwargs : list (string * pyval))
  : py.result LLMResponse * list event :=
  let p := build_params config messages temperature max_tokens json_mode kwargs in
  match retry_loop config create p (seqZ 0 (max_retries config)) None [] with
  | (inl response, log) => (Ok response, log)
  | (inr last_error, log) =>
      (Raise (mk_exn Exception
                ("OpenAI API call failed after " ++ pretty (max_retries config)
                 ++ " retries: " ++ str_of_error last_error)), log)
  end.

End openai_llm.

(** ** models.py *)

Module models.

Inductive JournalLevel := JL_TOP | JL_Q1 | JL_Q2 | JL_ANY.
Inductive PaperType := PT_SURVEY | PT_RESEARCH | PT_ANY.
Inductive ResearchField :=
| RF_CV | RF_NLP | RF_SYSTEMS | RF_ML | RF_BIO | RF_CROSS | RF_ANY.

#[export] Instance PaperType_eq_dec : EqDecision PaperType.
Proof. solve_decision. Defined.

Definition not_a_valid (v cls : string) : exn :=
  mk_exn ValueError ("'" ++ v ++ "' is not a valid " ++ cls).

(** [JournalLevel(value)], [PaperType(value)], [ResearchField(value)] *)
Definition JournalLevel_of_value (v : string) : py.result JournalLevel :=
  if String.eqb v "top" then Ok JL_TOP
  else if String.eqb v "q1" then Ok JL_Q1
  else if String.eqb v "q2" then Ok JL_Q2
  else if String.eqb v "any" then Ok JL_ANY
  else Raise (not_a_valid v "JournalLevel").

Definition PaperType_of_value (v : string) : py.result PaperType :=
  if String.eqb v "survey" then Ok PT_SURVEY
  else if String.eqb v "research" then Ok PT_RESEARCH
  else if String.eqb v "any" then Ok PT_ANY
  else Raise (not_a_valid v "PaperType").

Definition ResearchField_of_value (v : string) : py.result ResearchField :=
  if String.eqb v "cv" then Ok RF_CV
  else if String.eqb v "nlp" then Ok RF_NLP
  else if String.eqb v "systems" then Ok RF_SYSTEMS
  else if String.eqb v "ml" then Ok RF_ML
  else if String.eqb v "bio" then Ok RF_BIO
  else if String.eqb v "cross" then Ok RF_CROSS
  else if String.eqb v "any" then Ok RF_ANY
  else Raise (not_a_valid v "ResearchField").

(** The dataclass [ResearchIntent]; its generated constructor checks
    nothing. *)
Record ResearchIntent := mk_intent {
  keywords : string;
  year_start : option Z;
  year_end : option Z;
  journal_level : JournalLevel;
  paper_type : PaperType;
  field : ResearchField
}.

Record PaperMetadata := mk_paper {
  title : string;
  authors : list string;
  abstract : string;
  url : string;
  published : string;
  pm_paper_type : option PaperType;
  journal : option string;
  relevance_score : float;
  arxiv_id : option string;
  partition : option string
}.

(** The [__eq__] a dataclass generates: the tuples of fields are compared,
    the float by [==]. *)
Definition PaperMetadata_eq (p q : PaperMetadata) : bool :=
  bool_decide (title p = title q) && bool_decide (authors p = authors q)
  && bool_decide (abstract p = abstract q) && bool_decide (url p = url q)
  && bool_decide (published p = published q)
  && bool_decide (pm_paper_type p = pm_paper_type q)
  && bool_decide (journal p = journal q)
  && PrimFloat.eqb (relevance_score p) (relevance_score q)
  && bool_decide (arxiv_id p = arxiv_id q)
  && bool_decide (partition p = partition q).

Record PaperAnalysis := mk_analysis {
  paper_id : string;
  core_problem : string;
  key_method : string;
  technical_approach : string;
  experiment_conclusions : list string;
  limitations : list string;
  contributions : list string
}.

Record ResearchIdea := mk_idea {
  idea_id : string;
  idea_title : string;
  motivation : string;
  core_hypothesis : string;
  expected_contribution : string;
  difference_from_existing : string;
  feasibility_score : float;
  novelty_score : float
}.

Record MethodDesign := mk_method {
  md_idea_id : string;
  overview : string;
  model_framework : string;
  modules : list (list (string * string));
  baseline_differences : list string;
  theoretical_justification : string
}.

(** The fields of the dataclasses that the refactored stage processors
    construct by keyword: the name and whether the field has a default. *)
Definition ResearchLandscape_fields : list (string * bool) :=
  [("clusters", false); ("solved_problems", false); ("partially_solved", false);
   ("unsolved_problems", false); ("technical_evolution", false)].

Definition PaperSection_fields : list (string * bool) :=
  [("section_name", false); ("content", false); ("source_type", false);
   ("citations", true)].

Definition PaperDraft_fields : list (string * bool) :=
  [("title", false); ("abstract", false); ("introduction", false);
   ("related_work", false); ("method", false); ("experiments", false);
   ("discussion", false); ("conclusion", false); ("generated_at", true)].

(** Instances as the generated [__init__] fills them. *)
Definition ResearchIdea_instance (i : ResearchIdea) : pyval :=
  PInstance "ResearchIdea"
    [("idea_id", PStr (idea_id i)); ("title", PStr (idea_title i));
     ("motivation", PStr (motivation i));
     ("core_hypothesis", PStr (core_hypothesis i));
     ("expected_contribution", PStr (expected_contribution i));
     ("difference_from_existing", PStr (difference_from_existing i));
     ("feasibility_score", PFloat (feasibility_score i));
     ("novelty_score", PFloat (novelty_score i))].

Definition MethodDesign_instance (m : MethodDesign) : pyval :=
  PInstance "MethodDesign"
    [("idea_id", PStr (md_idea_id m)); ("overview", PStr (overview m));
     ("model_framework", PStr (model_framework m));
     ("modules",
      PList (map (fun d => PDict (map (fun kv => (fst kv, PStr (snd kv))) d))
               (modules m)));
     ("baseline_differences", PList (map PStr (baseline_differences m)));
     ("theoretical_justification", PStr (theoretical_justification m))].

End models.

(** ** modules/research_intent.py *)

Module research_intent.
Import models.

(** The three enum conversions of the [try] block. *)
Definition convert_enums (journal_level paper_type field : string)
  : py.result (JournalLevel * PaperType * ResearchField) :=
  let* j := JournalLevel_of_value (pystr.lower journal_level) in
  let* p := PaperType_of_value (pystr.lower paper_type) in
  let* f := ResearchField_of_value (pystr.lower field) in
  Ok (j, p, f).

(** [create_research_intent].  The messages are the source's, in English. *)
Definition create_research_intent (keywords : string)
    (year_start year_end : option Z) (journal_level paper_type field : string)
  : py.result ResearchIntent :=
  if (negb (truthy_str (Some keywords))
      || negb (truthy_str (Some (pystr.strip keywords))))%bool
  then Raise (mk_exn ValueError "the research topic keywords must not be empty")
  else
    let* enums :=
      match convert_enums journal_level paper_type field with
      | Ok e => Ok e
      | Raise e => Raise (mk_exn ValueError ("invalid parameter value: " ++ exn_str e))
      end in
    let '(journal_level_enum, paper_type_enum, field_enum) := enums in
    if (truthy_int year_start && truthy_int year_end
        && match year_start, year_end with
           | Some s, Some e => (e <? s)%Z
           | _, _ => false
           end)%bool
    then Raise (mk_exn ValueError "the start year must not be greater than the end year")
    else Ok (mk_intent (pystr.strip keywords) year_start year_end
               journal_level_enum paper_type_enum field_enum).

End research_intent.

(** ** Python's [sorted] with a float key *)

Module builtins.

(** One step of a stable descending sort: [x], which comes before all of
    [l] in the input, goes in front of the first element whose key is not
    greater than its own.  Only [<] is asked of the keys, as [sorted] does. *)
Fixpoint insert_desc {A} (key : A -> float) (x : A) (l : list A) : list A :=
  match l with
  | [] => [x]
  | y :: l' =>
      if PrimFloat.ltb (key x) (key y) then y :: insert_desc key x l'
      else x :: y :: l'
  end.

(** [sorted(l, key=key, reverse=True)]: descending by key, elements whose
    keys compare equal in their input order. *)
Definition sorted_reverse {A} (key : A -> float) (l : list A) : list A :=
  foldr (insert_desc key) [] l.

End builtins.

(** ** modules/idea_generation.py *)

Module idea_generation.
Import models.

(** The local function [score] of [rank_ideas]. *)
Definition score (idea : ResearchIdea) : float :=
  (0.6 * novelty_score idea + 0.4 * feasibility_score idea)%float.

(** [rank_ideas] *)
Definition rank_ideas (ideas : list ResearchIdea) : list ResearchIdea :=
  builtins.sorted_reverse score ideas.

End idea_generation.

(** ** modules/multi_source_search.py *)

Module multi_source_search.
Import models.

(** [normalize_title] *)
Definition normalize_title (title : string) : string :=
  let title := pystr.lower title in
  let title := pystr.remove_non_word title in
  let title := pystr.collapse_spaces title in
  pystr.strip title.

(** [source_priority.get(source, 1)] *)
Definition source_priority (source : string) : Z :=
  if String.eqb source "arxiv" then 3
  else if String.eqb source "semantic_scholar" then 2
  else 1.

(** The three variables the deduplication loop updates. *)
Record dedup_state := mk_state {
  seen_arxiv_ids : gset string;
  seen_titles : gmap string (string * PaperMetadata);
  unique_papers : list PaperMetadata
}.

(** The part of the loop body after the arXiv id check. *)
Definition check_title (seen : gset string) (st : dedup_state)
    (source : string) (paper : PaperMetadata) : dedup_state :=
  let title_norm := normalize_title (title paper) in
  match seen_titles st !! title_norm with
  | Some (existing_source, existing_paper) =>
      if (source_priority existing_source <? source_priority source)%Z
      then mk_state seen
             (<[title_norm := (source, paper)]> (seen_titles st))
             (List.filter (fun p => negb (PaperMetadata_eq p existing_paper))
                (unique_papers st) ++ [paper])%list
      else mk_state seen (seen_titles st) (unique_papers st)
  | None =>
      mk_state seen (<[title_norm := (source, paper)]> (seen_titles st))
        (unique_papers st ++ [paper])%list
  end.

(** One iteration of [for source, paper in all_papers]. *)
Definition dedup_step (st : dedup_state) (sp : string * PaperMetadata) : dedup_state :=
  let '(source, paper) := sp in
  match arxiv_id paper with
  | Some aid =>
      if truthy_str (Some aid)
      then if bool_decide (aid ∈ seen_arxiv_ids st) then st
           else check_title ({[aid]} ∪ seen_arxiv_ids st) st source paper
      else check_title (seen_arxiv_ids st) st source paper
  | None => check_title (seen_arxiv_ids st) st source paper
  end.

(** [all_papers]: the pairs (source, paper) in the order of the dict's items. *)
Definition all_papers (multi_source_results : list (string * list PaperMetadata))
  : list (string * PaperMetadata) :=
  flat_map (fun sr => map (fun paper => (fst sr, paper)) (snd sr)) multi_source_results.

(** [merge_and_deduplicate]; the dict is the list of its items in insertion
    order. *)
Definition merge_and_deduplicate
    (multi_source_results : list (string * list PaperMetadata)) : list PaperMetadata :=
  unique_papers
    (fold_left dedup_step (all_papers multi_source_results) (mk_state ∅ ∅ [])).

End multi_source_search.

(** ** The provider registry and [json.loads], as the stage processors
    see them *)

Module stage_env.

(** One call of [llm_manager.chat] or of the OpenAI client.  The prompt is
    the name of the template and the values put into its holes. *)
Record chat_request := mk_request {
  system_prompt : string;
  prompt_template : string;
  prompt_values : list pyval;
  llm_name : option string;
  req_temperature : float;
  req_json_mode : bool
}.

(** What a processor is handed: the provider (the content of the response,
    or the exception of the call) and the JSON parser. *)
Record env := mk_env {
  chat : chat_request -> py.result string;
  json_loads : string -> py.result pyval
}.

(** A [try] block with [except json.JSONDecodeError] first and
    [except Exception: raise] second. *)
Definition on_decode_error {A} (body : py.result A) (handler : py.result A)
  : py.result A :=
  match body with
  | Ok a => Ok a
  | Raise e =>
      match exn_type e with
      | JSONDecodeError => handler
      | _ => Raise e
      end
  end.

End stage_env.

(** ** modules/landscape_analyzer.py *)

Module landscape_analyzer.
Import models dyn stage_env.

(** The entries of [analyses_summary], numbered from [first]. *)
Fixpoint analyses_summary (first : Z) (analyses : list PaperAnalysis) : list pyval :=
  match analyses with
  | [] => []
  | analysis :: rest =>
      PDict [("index", PInt first);
             ("core_problem", PStr (core_problem analysis));
             ("key_method", PStr (key_method analysis));
             ("limitations", PList (map PStr (limitations analysis)))]
      :: analyses_summary (first + 1) rest
  end.

Definition landscape_request (analyses : list PaperAnalysis)
    (llm_name : option string) : chat_request :=
  mk_request "senior research expert; answer strictly in JSON"
    "landscape_analysis" [PList (analyses_summary 1 (take 20 analyses))]
    llm_name 0.5%float true.

(** [a or b], where [b] is evaluated only when [a] is falsy. *)
Definition or_else (a : pyval) (b : py.result pyval) : py.result pyval :=
  if truthy a then Ok a else b.

(** The body of the [try] of [analyze_landscape]. *)
Definition parse_landscape (e : env) (req : chat_request) : py.result pyval :=
  let* response := chat e req in
  let* result_json := json_loads e response in
  let* clusters := dict_get result_json "clusters" (PList []) in
  let* solved := dict_get result_json "solved_problems" (PList []) in
  let* partially0 := dict_get result_json "partially_solved" (PList []) in
  let* partially :=
    or_else partially0 (dict_get result_json "partially_solved_problems" (PList [])) in
  let* unsolved := dict_get result_json "unsolved_problems" (PList []) in
  let* evolution0 := dict_get result_json "technical_evolution" (PDict []) in
  let* evolution :=
    or_else evolution0 (dict_get result_json "tech_evolution" (PDict [])) in
  let* landscape :=
    dataclass_new "ResearchLandscape" ResearchLandscape_fields []
      [("clusters", clusters); ("solved_problems", solved);
       ("partially_solved", partially); ("unsolved_problems", unsolved);
       ("technical_evolution", evolution)] in
  let* _ := len clusters in
  let* _ := len unsolved in
  Ok landscape.

(** [ResearchLandscapeAnalyzer.analyze_landscape]: the outcome and the
    provider requests made. *)
Definition analyze_landscape (e : env) (analyses : list PaperAnalysis)
    (llm_name : option string) : py.result pyval * list chat_request :=
  match analyses with
  | [] => (Raise (mk_exn ValueError "No paper analyses provided"), [])
  | _ :: _ =>
      let req := landscape_request analyses llm_name in
      (on_decode_error (parse_landscape e req)
         (dataclass_new "ResearchLandscape" ResearchLandscape_fields []
            [("clusters", PList []); ("solved_problems", PList []);
             ("partially_solved_problems", PList []);
             ("unsolved_problems", PList [PStr "Failed to analyze landscape"]);
             ("tech_evolution", PList [])]),
       [req])
  end.

End landscape_analyzer.

(** ** modules/landscape_analysis.py *)

Module landscape_analysis.
Import models dyn stage_env.

(** [prepare_analysis_summary]: one block per paper, in the dict's order. *)
Definition prepare_analysis_summary (papers_analysis : list (string * PaperAnalysis))
  : list pyval :=
  map (fun kv =>
         PList [PStr (fst kv); PStr (core_problem (snd kv));
                PStr (key_method (snd kv)); PStr (technical_approach (snd kv));
                PStr (String.concat ", " (contributions (snd kv)));
                PStr (String.concat ", " (limitations (snd kv)))])
    papers_analysis.

Definition landscape_request (papers_analysis : list (string * PaperAnalysis))
  : chat_request :=
  mk_request "academic survey expert; answer strictly in JSON"
    "landscape_analysis" (prepare_analysis_summary papers_analysis)
    (Some "gpt-4o") 0.5%float true.

(** [ResearchCluster(...)] for one element of [clusters]. *)
Definition cluster_of (cluster_data : pyval) : py.result pyval :=
  let* name := dict_get cluster_data "cluster_name" (PStr "") in
  let* papers := dict_get cluster_data "papers" (PList []) in
  let* themes := dict_get cluster_data "key_themes" (PList []) in
  let* evolution := dict_get cluster_data "technical_evolution" (PStr "") in
  Ok (PInstance "ResearchCluster"
        [("cluster_name", name); ("papers", papers); ("key_themes", themes);
         ("technical_evolution", evolution)]).

Fixpoint clusters_of (items : list pyval) : py.result (list pyval) :=
  match items with
  | [] => Ok []
  | cluster_data :: rest =>
      let* c := cluster_of cluster_data in
      let* cs := clusters_of rest in
      Ok (c :: cs)
  end.

(** The body of the [try] of [analyze_research_landscape]. *)
Definition parse_landscape (e : env) (req : chat_request) : py.result pyval :=
  let* result_text := chat e req in
  let* result_json := json_loads e result_text in
  let* clusters_json := dict_get result_json "clusters" (PList []) in
  let* items := iter clusters_json in
  let* clusters := clusters_of items in
  let* solved := dict_get result_json "solved_problems" (PList []) in
  let* partially := dict_get result_json "partially_solved" (PList []) in
  let* unsolved := dict_get result_json "unsolved_problems" (PList []) in
  let* evolution := dict_get result_json "technical_evolution" (PDict []) in
  let* landscape :=
    dataclass_new "ResearchLandscape" ResearchLandscape_fields []
      [("clusters", PList clusters); ("solved_problems", solved);
       ("partially_solved", partially); ("unsolved_problems", unsolved);
       ("technical_evolution", evolution)] in
  let* _ := len unsolved in
  Ok landscape.

(** [analyze_research_landscape]: the outcome and the requests made. *)
Definition analyze_research_landscape (e : env)
    (papers_analysis : list (string * PaperAnalysis)) (api_key : string)
  : py.result pyval * list chat_request :=
  match papers_analysis with
  | [] => (Raise (mk_exn ValueError "not enough paper analyses"), [])
  | _ :: _ =>
      let req := landscape_request papers_analysis in
      (on_decode_error (parse_landscape e req)
         (Raise (mk_exn ValueError "the API did not return valid JSON")),
       [req])
  end.

End landscape_analysis.

(** ** modules/paper_draft_generator.py *)

Module paper_draft_generator.
Import models dyn stage_env.

(** [section_order]: the key and the display name (translated). *)
Definition section_order : list (string * string) :=
  [("abstract", "Abstract"); ("introduction", "Introduction");
   ("related_work", "Related Work"); ("method", "Method");
   ("experiment", "Experiment Design"); ("conclusion", "Conclusion")].

(** The holes of a template, evaluated left to right. *)
Fixpoint holes (l : list (py.result pyval)) : py.result (list pyval) :=
  match l with
  | [] => Ok []
  | h :: l' => let* v := h in let* vs := holes l' in Ok (v :: vs)
  end.

(** [json.dumps(v, ensure_ascii=False)]: an instance of a class is not
    serialisable; the text itself is left as the value. *)
Definition json_dumps (v : pyval) : py.result pyval :=
  match v with
  | PInstance cls _ =>
      Raise (mk_exn TypeError
               ("Object of type " ++ cls ++ " is not JSON serializable"))
  | _ => Ok v
  end.

(** The dict [prompts] of [_generate_section]: all six f-strings are
    evaluated, in this order, whichever section is asked for. *)
Definition build_prompts (idea method : pyval)
  : py.result (list (string * list pyval)) :=
  let* abstract :=
    holes [getattr idea "title"; getattr idea "motivation";
           getattr idea "hypothesis"; getattr method "algorithm_framework";
           let* v := getattr method "innovation_points" in join ", " v] in
  let* introduction :=
    holes [getattr idea "title"; getattr idea "motivation";
           getattr idea "hypothesis"; getattr idea "contributions"] in
  let* related_work :=
    holes [getattr idea "title"; getattr idea "motivation"] in
  let* method_ :=
    holes [getattr method "algorithm_framework";
           let* v := getattr method "key_modules" in json_dumps v;
           getattr method "data_requirements"] in
  let* experiment :=
    holes [let* v := getattr method "evaluation_metrics" in join ", " v;
           let* v := getattr method "expected_challenges" in join ", " v] in
  let* conclusion :=
    holes [getattr idea "title"; getattr idea "contributions";
           let* v := getattr method "innovation_points" in join ", " v] in
  Ok [("abstract", abstract); ("introduction", introduction);
      ("related_work", related_work); ("method", method_);
      ("experiment", experiment); ("conclusion", conclusion)].

Fixpoint prompt_for (section_key : string) (prompts : list (string * list pyval))
  : option (list pyval) :=
  match prompts with
  | [] => None
  | (k, v) :: rest => if String.eqb section_key k then Some v else prompt_for section_key rest
  end.

Definition section_request (section_key : string) (prompt : option (list pyval))
    (llm_name : option string) : chat_request :=
  mk_request "academic writing expert; output the paper text only"
    (match prompt with Some _ => section_key | None => "generic" end)
    (from_option id [] prompt) llm_name 0.7%float false.

(** [_generate_section]: the text of the section (the provider's, or the
    placeholder when the call raised) and the request made.  The source
    also takes [paper_analyses] and [existing_sections] and reads neither. *)
Definition _generate_section (e : env) (section_key : string) (idea method : pyval)
    (llm_name : option string) : py.result string * list chat_request :=
  match build_prompts idea method with
  | Raise ex => (Raise ex, [])
  | Ok prompts =>
      let req := section_request section_key (prompt_for section_key prompts) llm_name in
      match chat e req with
      | Ok content => (Ok content, [req])
      | Raise ex =>
          (Ok ("[Section generation failed: " ++ exn_str ex ++ "]"), [req])
      end
  end.

(** [PaperSection(section_name=..., content=..., source_type="ai_generated")] *)
Definition new_section (section_name content : string) : py.result pyval :=
  dataclass_new "PaperSection" PaperSection_fields [("citations", PList [])]
    [("section_name", PStr section_name); ("content", PStr content);
     ("source_type", PStr "ai_generated")].

(** The [for] loop of [generate_draft] from index [i] on: the dict
    [sections] and the requests made.  [progress_callback], when given, is
    called with the index, the number of sections and a message. *)
Fixpoint generate_sections (e : env) (idea method : pyval)
    (progress_callback : option (Z -> Z -> string -> py.result unit))
    (llm_name : option string) (i : Z) (order : list (string * string))
    (sections : list (string * pyval)) (log : list chat_request)
  : py.result (list (string * pyval)) * list chat_request :=
  match order with
  | [] => (Ok sections, log)
  | (section_key, section_name) :: rest =>
      match (match progress_callback with
             | Some callback =>
                 callback i (Z.of_nat (length section_order))
                   ("Generating " ++ section_name ++ "...")
             | None => Ok tt
             end) with
      | Raise ex => (Raise ex, log)
      | Ok _ =>
          match _generate_section e section_key idea method llm_name with
          | (Raise ex, reqs) => (Raise ex, (log ++ reqs)%list)
          | (Ok content, reqs) =>
              match new_section section_name content with
              | Raise ex => (Raise ex, (log ++ reqs)%list)
              | Ok section =>
                  generate_sections e idea method progress_callback llm_name
                    (i + 1) rest (sections ++ [(section_key, section)])%list
                    (log ++ reqs)%list
              end
          end
      end
  end.

(** [PaperDraftGenerator.generate_draft]; [uuid] is what [uuid.uuid4()]
    returns. *)
Definition generate_draft (e : env) (uuid : string) (idea method : pyval)
    (progress_callback : option (Z -> Z -> string -> py.result unit))
    (llm_name : option string) : py.result pyval * list chat_request :=
  match generate_sections e idea method progress_callback llm_name 0
          section_order [] [] with
  | (Raise ex, log) => (Raise ex, log)
  | (Ok sections, log) =>
      (let* idea_id := getattr idea "id" in
       let* title := getattr idea "title" in
       dataclass_new "PaperDraft" PaperDraft_fields []
         [("id", PStr uuid); ("idea_id", idea_id); ("title", title);
          ("sections", PDict sections)],
       log)
  end.

End paper_draft_generator.

(** ** backend/api/tasks.py *)

Module api_tasks.
Import db_models tasks_base.

(** What a route gives back: the response body, or the [HTTPException] it
    raised. *)
Inductive response (A : Type) :=
| Respond (body : A)
| HTTPException (status_code : Z) (detail : string).
Arguments Respond {A} body.
Arguments HTTPException {A} status_code detail.

(** The query of both routes: the row with this Celery id that belongs to
    the current user.  A row without a user matches nobody. *)
Definition query_task (db : table) (task_id : string) (current_user : Z)
  : option AsyncTask :=
  match db !! task_id with
  | Some task =>
      if bool_decide (user_id task = Some current_user) then Some task else None
  | None => None
  end.

(** [get_task_status] *)
Definition get_task_status (db : table) (task_id : string) (current_user : Z)
  : response AsyncTask :=
  match query_task db task_id current_user with
  | None => HTTPException 404 "Task not found"
  | Some task => Respond task
  end.

(** [cancel_task]: the response and the table after the request.  The
    Celery task itself is not revoked. *)
Definition cancel_task (db : table) (task_id : string) (current_user : Z)
  : response string * table :=
  match query_task db task_id current_user with
  | None => (HTTPException 404 "Task not found", db)
  | Some task =>
      match status task with
      | COMPLETED | FAILED =>
          (HTTPException 400 "Cannot cancel completed or failed task", db)
      | _ =>
          (Respond "Task cancelled successfully",
           <[task_id := set_status CANCELLED task]> db)
      end
  end.

End api_tasks.

(** ** More of Python's [str], [int] and [float], on code points below 256 *)

Module pytext.
Import pystr.

(** [l[:n]] on a list: a negative [n] counts from the end. *)
Definition list_slice_to {A} (n : Z) (l : list A) : list A :=
  if (n <? 0)%Z then take (length l - Z.to_nat (- n)) l
  else take (Z.to_nat n) l.

(** [s[:n]] *)
Definition slice_to (n : Z) (s : string) : string :=
  string_of_list_ascii (list_slice_to n (list_ascii_of_string s)).

(** [s.split()]: the maximal runs of characters that are not white space.
    [word] is the run being read. *)
Fixpoint split_from (word : option string) (s : string) : list string :=
  match s with
  | EmptyString => match word with Some w => [w] | None => [] end
  | String c s' =>
      if is_space c
      then match word with
           | Some w => w :: split_from None s'
           | None => split_from None s'
           end
      else split_from (Some (from_option id "" word ++ String c "")) s'
  end.

Definition split (s : string) : list string := split_from None s.

(** [s.split(sep)[0]] for a separator of one character: the text before
    its first occurrence. *)
Fixpoint before (sep : ascii) (s : string) : string :=
  match s with
  | EmptyString => EmptyString
  | String c s' => if Ascii.eqb c sep then EmptyString else String c (before sep s')
  end.

(** The white space [int] skips at both ends: TAB..CR and SPACE, and NEL
    and NBSP above 127 (the separators FS..US are not skipped). *)
Definition int_space (c : ascii) : bool :=
  let n := code c in
  (between 9 13 n || N.eqb n 32 || N.eqb n 133 || N.eqb n 160)%bool.

Fixpoint lstrip_by (P : ascii -> bool) (s : string) : string :=
  match s with
  | EmptyString => EmptyString
  | String c s' => if P c then lstrip_by P s' else s
  end.

Fixpoint rstrip_by (P : ascii -> bool) (s : string) : string :=
  match s with
  | EmptyString => EmptyString
  | String c s' =>
      match rstrip_by P s' with
      | EmptyString => if P c then EmptyString else String c EmptyString
      | r => String c r
      end
  end.

Definition is_digit (c : ascii) : bool := between 48 57 (code c).

(** The digits of a decimal literal, single underscores allowed between
    two digits: the value and the number of digits read. *)
Fixpoint digits_from (acc count : Z) (after_digit : bool) (s : string)
  : option (Z * Z) :=
  match s with
  | EmptyString => if after_digit then Some (acc, count) else None
  | String c s' =>
      if is_digit c
      then digits_from (10 * acc + (Z.of_N (code c) - 48)) (count + 1) true s'
      else if (Ascii.eqb c "_" && after_digit)%bool
           then digits_from acc count false s'
           else None
  end.

(** [int(s)], [None] standing for [ValueError]: white space, an optional
    sign, digits.  More than 4300 digits are refused (CPython 3.11). *)
Definition int (s : string) : option Z :=
  let s := rstrip_by int_space (lstrip_by int_space s) in
  let '(negative, digits) :=
    match s with
    | String "+" r => (false, r)
    | String "-" r => (true, r)
    | _ => (false, s)
    end in
  match digits_from 0 0 false digits with
  | Some (n, count) =>
      if (4300 <? count)%Z then None else Some (if negative then - n else n)
  | None => None
  end.

(** [float(n)] for an int, rounded to the nearest binary64 number, ties to
    even; [None] stands for the [OverflowError] of an int that is too
    large. *)
Definition float_of_Z (n : Z) : option float :=
  let x := SF2Prim (binary_normalize prec emax n 0 false) in
  if is_infinity x then None else Some x.

End pytext.

(** ** models.py: the fields of the dataclasses that the processors below
    construct by keyword (the name, and whether the field has a default) *)

Module model_fields.

Definition PaperAnalysis_fields : list (string * bool) :=
  [("paper_id", false); ("core_problem", false); ("key_method", false);
   ("technical_approach", false); ("experiment_conclusions", false);
   ("limitations", false); ("contributions", false)].

Definition ResearchIdea_fields : list (string * bool) :=
  [("idea_id", false); ("title", false); ("motivation", false);
   ("core_hypothesis", false); ("expected_contribution", false);
   ("difference_from_existing", false); ("feasibility_score", true);
   ("novelty_score", true)].

Definition ResearchIdea_defaults : list (string * pyval) :=
  [("feasibility_score", PFloat 0); ("novelty_score", PFloat 0)].

Definition MethodDesign_fields : list (string * bool) :=
  [("idea_id", false); ("overview", false); ("model_framework", false);
   ("modules", false); ("baseline_differences", false);
   ("theoretical_justification", false)].

End model_fields.

(** ** modules/paper_reading_engine.py *)

Module paper_reading_engine.
Import models model_fields dyn stage_env.

(** The request of [analyze_paper]: the template is filled with the title,
    an empty author list and the abstract; a non-empty full text adds its
    first 2000 characters. *)
Definition analysis_request (title abstract full_text : string)
    (llm_name : option string) : chat_request :=
  mk_request "academic analysis expert; answer strictly in JSON"
    "paper_analysis"
    ([PStr title; PStr ""; PStr abstract]
     ++ (if truthy_str (Some full_text)
         then [PStr (String.substring 0 2000 full_text)] else []))%list
    llm_name 0.3%float true.

(** [isinstance(v, str)] *)
Definition is_str (v : pyval) : bool :=
  match v with PStr _ => true | _ => false end.

(** The body of the [try] of [analyze_paper]. *)
Definition parse_analysis (e : env) (req : chat_request) : py.result pyval :=
  let* response := chat e req in
  let* result_json := json_loads e response in
  let* exp_result := dict_get result_json "experiment_conclusions" (PList []) in
  let* use_single :=
    if truthy exp_result then Ok false
    else let* single := dict_get result_json "experiment_result" PNone in
         Ok (truthy single) in
  let* exp_result :=
    if use_single
    then let* single := dict_get result_json "experiment_result" PNone in
         Ok (PList [single])
    else if is_str exp_result then Ok (PList [exp_result])
         else Ok exp_result in
  let* core_problem := dict_get result_json "core_problem" (PStr "") in
  let* key_method := dict_get result_json "key_method" (PStr "") in
  let* route := dict_get result_json "technical_route" (PStr "") in
  let* approach :=
    landscape_analyzer.or_else route
      (dict_get result_json "technical_approach" (PStr "")) in
  let* limitations := dict_get result_json "limitations" (PList []) in
  let* contributions := dict_get result_json "contributions" (PList []) in
  dataclass_new "PaperAnalysis" PaperAnalysis_fields []
    [("paper_id", PStr ""); ("core_problem", core_problem);
     ("key_method", key_method); ("technical_approach", approach);
     ("experiment_conclusions", exp_result); ("limitations", limitations);
     ("contributions", contributions)].

(** [PaperReadingEngine.analyze_paper]: the outcome and the requests made. *)
Definition analyze_paper (e : env) (title abstract full_text : string)
    (llm_name : option string) : py.result pyval * list chat_request :=
  let req := analysis_request title abstract full_text llm_name in
  (on_decode_error (parse_analysis e req)
     (dataclass_new "PaperAnalysis" PaperAnalysis_fields []
        [("paper_id", PStr "");
         ("core_problem", PStr "Failed to analyze (JSON parse error)");
         ("key_method", PStr ""); ("technical_route", PStr "");
         ("experiment_result", PStr ""); ("limitations", PStr "Analysis failed");
         ("contributions", PStr "")]),
   [req]).

End paper_reading_engine.

(** ** modules/method_designer.py *)

Module method_designer.
Import models model_fields dyn stage_env.

(** The holes of the prompt, which is built before the [try]. *)
Definition design_prompt (idea : pyval) : py.result (list pyval) :=
  paper_draft_generator.holes
    [getattr idea "title"; getattr idea "motivation";
     getattr idea "hypothesis"; getattr idea "contributions"].

Definition design_request (values : list pyval) (llm_name : option string)
  : chat_request :=
  mk_request "senior AI researcher; answer strictly in JSON"
    "method_design" values llm_name 0.6%float true.

(** The body of the [try] of [design_method]; [uuid] is what
    [uuid.uuid4()] returns. *)
Definition parse_method (e : env) (uuid : string) (idea : pyval)
    (req : chat_request) : py.result pyval :=
  let* response := chat e req in
  let* result_json := json_loads e response in
  let* idea_id := getattr idea "id" in
  let* algorithm_framework := dict_get result_json "algorithm_framework" (PStr "") in
  let* key_modules := dict_get result_json "key_modules" (PList []) in
  let* data_requirements := dict_get result_json "data_requirements" (PStr "") in
  let* evaluation_metrics := dict_get result_json "evaluation_metrics" (PList []) in
  let* expected_challenges := dict_get result_json "expected_challenges" (PList []) in
  let* innovation_points := dict_get result_json "innovation_points" (PList []) in
  let* method :=
    dataclass_new "MethodDesign" MethodDesign_fields []
      [("id", PStr uuid); ("idea_id", idea_id);
       ("algorithm_framework", algorithm_framework);
       ("key_modules", key_modules); ("data_requirements", data_requirements);
       ("evaluation_metrics", evaluation_metrics);
       ("expected_challenges", expected_challenges);
       ("innovation_points", innovation_points)] in
  let* _ := getattr idea "title" in
  Ok method.

(** The handler of [json.JSONDecodeError]. *)
Definition fallback_method (uuid : string) (idea : pyval) : py.result pyval :=
  let* idea_id := getattr idea "id" in
  dataclass_new "MethodDesign" MethodDesign_fields []
    [("id", PStr uuid); ("idea_id", idea_id);
     ("algorithm_framework", PStr "Failed to generate (JSON parse error)");
     ("key_modules", PList []); ("data_requirements", PStr "");
     ("evaluation_metrics", PList []);
     ("expected_challenges", PList [PStr "Generation failed"]);
     ("innovation_points", PList [])].

(** [MethodDesigner.design_method]: the outcome and the requests made. *)
Definition design_method (e : env) (uuid : string) (idea : pyval)
    (llm_name : option string) : py.result pyval * list chat_request :=
  match design_prompt idea with
  | Raise ex => (Raise ex, [])
  | Ok values =>
      let req := design_request values llm_name in
      (on_decode_error (parse_method e uuid idea req) (fallback_method uuid idea),
       [req])
  end.

End method_designer.

(** ** modules/idea_generator.py *)

Module idea_generator.
Import models model_fields dyn stage_env pytext.

(** [v[:n]]: lists and strings can be sliced; a dict takes the slice for a
    key, which is not hashable (CPython 3.11); other values are not
    subscriptable. *)
Definition slice_to (n : Z) (v : pyval) : py.result pyval :=
  match v with
  | PList l => Ok (PList (list_slice_to n l))
  | PStr s =>
      Ok (PStr (pytext.slice_to n s))
  | PDict _ => Raise (mk_exn TypeError "unhashable type: 'slice'")
  | _ => Raise (mk_exn TypeError
                  ("'" ++ type_name v ++ "' object is not subscriptable"))
  end.

(** The class of the first value that [json.dumps] cannot serialise, in
    the order of its traversal. *)
Fixpoint unserializable (v : pyval) : option string :=
  match v with
  | PInstance cls _ => Some cls
  | PList items =>
      (fix go (l : list pyval) : option string :=
         match l with
         | [] => None
         | x :: rest =>
             match unserializable x with Some c => Some c | None => go rest end
         end) items
  | PDict members =>
      (fix go (l : list (string * pyval)) : option string :=
         match l with
         | [] => None
         | (_, x) :: rest =>
             match unserializable x with Some c => Some c | None => go rest end
         end) members
  | _ => None
  end.

(** [json.dumps(v, ensure_ascii=False, indent=2)]; the text itself is left
    as the value. *)
Definition json_dumps (v : pyval) : py.result pyval :=
  match unserializable v with
  | Some cls =>
      Raise (mk_exn TypeError
               ("Object of type " ++ cls ++ " is not JSON serializable"))
  | None => Ok v
  end.

(** The prompt, which is built before the [try]. *)
Definition idea_prompt (landscape : pyval) (num_ideas : Z)
  : py.result (list pyval) :=
  let* unsolved := getattr landscape "unsolved_problems" in
  let* clusters := getattr landscape "clusters" in
  let* clusters := slice_to 5 clusters in
  let* summary :=
    json_dumps (PDict [("unsolved_problems", unsolved); ("clusters", clusters)]) in
  Ok [summary; PInt num_ideas].

Definition idea_request (values : list pyval) (llm_name : option string)
  : chat_request :=
  mk_request "creative research expert; answer strictly in JSON"
    "idea_generation" values llm_name 0.7%float true.

(** [isinstance(v, list)] *)
Definition is_list (v : pyval) : bool :=
  match v with PList _ => true | _ => false end.

Section Ideas.

(** The builtin [float], and [str(uuid.uuid4())] at its n-th call. *)
Variable to_float : pyval -> py.result float.
Variable uuid : Z -> string.

(** The [for] loop of [generate_ideas], from index [i] on. *)
Fixpoint ideas_from (i : Z) (items : list pyval) : py.result (list pyval) :=
  match items with
  | [] => Ok []
  | idea_data :: rest =>
      let* title :=
        dict_get idea_data "title" (PStr ("Research Idea " ++ pretty (i + 1))) in
      let* motivation := dict_get idea_data "motivation" (PStr "") in
      let* hypothesis := dict_get idea_data "hypothesis" (PStr "") in
      let* contributions := dict_get idea_data "contributions" (PStr "") in
      let* difference := dict_get idea_data "difference_from_existing" (PStr "") in
      let* novelty := dict_get idea_data "novelty_score" (PFloat 0.5) in
      let* novelty := to_float novelty in
      let* feasibility := dict_get idea_data "feasibility_score" (PFloat 0.5) in
      let* feasibility := to_float feasibility in
      let* idea :=
        dataclass_new "ResearchIdea" ResearchIdea_fields ResearchIdea_defaults
          [("idea_id", PStr (uuid i)); ("title", title);
           ("motivation", motivation); ("core_hypothesis", hypothesis);
           ("expected_contribution", contributions);
           ("difference_from_existing", difference);
           ("novelty_score", PFloat novelty);
           ("feasibility_score", PFloat feasibility)] in
      let* ideas := ideas_from (i + 1) rest in
      Ok (idea :: ideas)
  end.

(** The body of the [try] of [generate_ideas]. *)
Definition parse_ideas (e : env) (num_ideas : Z) (req : chat_request)
  : py.result (list pyval) :=
  let* response := chat e req in
  let* result_json := json_loads e response in
  let* ideas_data :=
    if is_list result_json then Ok result_json
    else dict_get result_json "ideas" (PList []) in
  let* first := slice_to num_ideas ideas_data in
  let* items := iter first in
  ideas_from 0 items.

(** The handler of [json.JSONDecodeError]: one placeholder idea. *)
Definition fallback_ideas : py.result (list pyval) :=
  let* idea :=
    dataclass_new "ResearchIdea" ResearchIdea_fields ResearchIdea_defaults
      [("idea_id", PStr (uuid 0)); ("title", PStr "Failed to generate ideas");
       ("motivation", PStr "JSON parse error"); ("core_hypothesis", PStr "");
       ("expected_contribution", PStr "");
       ("difference_from_existing", PStr "");
       ("novelty_score", PFloat 0); ("feasibility_score", PFloat 0)] in
  Ok [idea].

(** [ResearchIdeaGenerator.generate_ideas]: the outcome and the requests
    made. *)
Definition generate_ideas (e : env) (landscape : pyval) (num_ideas : Z)
    (llm_name : option string) : py.result (list pyval) * list chat_request :=
  match idea_prompt landscape num_ideas with
  | Raise ex => (Raise ex, [])
  | Ok values =>
      let req := idea_request values llm_name in
      (on_decode_error (parse_ideas e num_ideas req) fallback_ideas, [req])
  end.

End Ideas.

End idea_generator.

(** ** modules/literature_discovery.py *)

Module literature_discovery.
Import models pystr pytext.

(** The [value] of the enum members. *)
Definition PaperType_value (t : PaperType) : string :=
  match t with PT_SURVEY => "survey" | PT_RESEARCH => "research" | PT_ANY => "any" end.

Definition ResearchField_value (f : ResearchField) : string :=
  match f with
  | RF_CV => "cv" | RF_NLP => "nlp" | RF_SYSTEMS => "systems" | RF_ML => "ml"
  | RF_BIO => "bio" | RF_CROSS => "cross" | RF_ANY => "any"
  end.

Definition set_paper_type (v : option PaperType) (p : PaperMetadata) : PaperMetadata :=
  mk_paper (title p) (authors p) (abstract p) (url p) (published p) v (journal p)
    (relevance_score p) (arxiv_id p) (partition p).

Definition set_relevance_score (v : float) (p : PaperMetadata) : PaperMetadata :=
  mk_paper (title p) (authors p) (abstract p) (url p) (published p)
    (pm_paper_type p) (journal p) v (arxiv_id p) (partition p).

(** [field_mapping] of [build_arxiv_query]. *)
Definition field_mapping (field_value : string) : option string :=
  if String.eqb field_value "cv" then Some "cs.CV"
  else if String.eqb field_value "nlp" then Some "cs.CL"
  else if String.eqb field_value "ml" then Some "cs.LG"
  else if String.eqb field_value "systems" then Some "cs.DC OR cs.OS"
  else None.

(** [build_arxiv_query] *)
Definition build_arxiv_query (intent : ResearchIntent) : string :=
  let value := ResearchField_value (field intent) in
  let category_part :=
    match field_mapping value with
    | Some category =>
        if negb (String.eqb value "any") then ["cat:" ++ category] else []
    | None => []
    end in
  let query_parts := (keywords intent :: category_part) in
  String.concat " AND " query_parts.

(** [search_arxiv]: the query goes to the arXiv client, whose results are
    taken as they are turned into [PaperMetadata]; its exception is raised
    again. *)
Definition search_arxiv (client : string -> Z -> py.result (list PaperMetadata))
    (intent : ResearchIntent) (max_results : Z) : py.result (list PaperMetadata) :=
  client (build_arxiv_query intent) max_results.

(** The survey keywords that a string of code points below 256 can
    contain; the list of the source ends with a fifth, Chinese, word. *)
Definition survey_keywords : list string :=
  ["survey"; "review"; "overview"; "tutorial"].

(** [detect_paper_type] *)
Definition detect_paper_type (paper : PaperMetadata) : PaperType :=
  let title_lower := lower (title paper) in
  let abstract_lower := lower (abstract paper) in
  if existsb (fun keyword => contains keyword title_lower) survey_keywords
  then PT_SURVEY
  else
    let survey_count :=
      length (List.filter (fun kw => contains kw abstract_lower) survey_keywords) in
    if (2 <=? survey_count)%nat then PT_SURVEY else PT_RESEARCH.

(** [int(paper.published.split('-')[0])] *)
Definition year_of (published : string) : option Z := int (before "-" published).

(** The year filter of [filter_papers]: [true] when the paper is skipped.
    A date whose year cannot be read skips nothing. *)
Definition outside_years (intent : ResearchIntent) (paper : PaperMetadata) : bool :=
  if (truthy_int (year_start intent) || truthy_int (year_end intent))%bool
  then match year_of (published paper) with
       | Some year =>
           match year_start intent with
           | Some first => (truthy_int (year_start intent) && (year <? first)%Z)%bool
           | None => false
           end
           || match year_end intent with
              | Some last => (truthy_int (year_end intent) && (last <? year)%Z)%bool
              | None => false
              end
       | None => false
       end
  else false.

(** One iteration of the loop of [filter_papers]: the paper appended to
    [filtered], if any.  The detected type is stored in the paper. *)
Definition filter_paper (intent : ResearchIntent) (paper : PaperMetadata)
  : option PaperMetadata :=
  if outside_years intent paper then None
  else if bool_decide (paper_type intent <> PT_ANY)
       then let paper_type := detect_paper_type paper in
            let paper := set_paper_type (Some paper_type) paper in
            if (bool_decide (paper_type <> models.paper_type intent)
                && bool_decide (models.paper_type intent <> PT_ANY))%bool
            then None
            else Some paper
       else Some paper.

(** [filter_papers] *)
Definition filter_papers (papers : list PaperMetadata) (intent : ResearchIntent)
  : list PaperMetadata :=
  omap (filter_paper intent) papers.

(** [for keyword in keywords: if keyword in text: score += weight] *)
Definition keyword_hits (weight : float) (keywords : list string) (text : string)
    (score : float) : float :=
  fold_left (fun score keyword =>
               if contains keyword text then (score + weight)%float else score)
    keywords score.

(** The recency bonus, [weight] being 0.1 here and 0.15 in the cross-source
    score.  The body of a [try] whose handler passes: a date that cannot be
    read and an int too large for a float leave the score as it is. *)
Definition recency_bonus (weight : float) (current_year : Z) (published : string)
    (score : float) : float :=
  match year_of published with
  | Some year =>
      match float_of_Z (current_year - year) with
      | Some age =>
          let recency := (1.0 - age / 10.0)%float in
          let bonus := (recency * weight)%float in
          if PrimFloat.ltb 0 bonus then (score + bonus)%float else (score + 0)%float
      | None => score
      end
  | None => score
  end.

(** [min(1.0, score)] *)
Definition at_most_one (score : float) : float :=
  if PrimFloat.ltb score 1.0 then score else 1.0%float.

(** The body of the loop of [score_relevance]: the score given to [paper]. *)
Definition relevance (current_year : Z) (intent : ResearchIntent)
    (keywords : list string) (paper : PaperMetadata) : float :=
  let score := 0.0%float in
  let title_lower := lower (title paper) in
  let abstract_lower := lower (abstract paper) in
  let score := keyword_hits 0.3 keywords title_lower score in
  let score := keyword_hits 0.1 keywords abstract_lower score in
  let score :=
    if (bool_decide (paper_type intent <> PT_ANY)
        && bool_decide (pm_paper_type paper = Some (paper_type intent)))%bool
    then (score + 0.2)%float else score in
  let score := recency_bonus 0.1 current_year (published paper) score in
  at_most_one score.

(** [score_relevance]; [current_year] is [datetime.now().year]. *)
Definition score_relevance (current_year : Z) (papers : list PaperMetadata)
    (intent : ResearchIntent) : list PaperMetadata :=
  let keywords := split (lower (keywords intent)) in
  map (fun paper =>
         set_relevance_score (relevance current_year intent keywords paper) paper)
    papers.

(** [search_papers].  [cached_results] is what the cache holds for the
    intent, the empty list when it holds nothing; the write to the cache is
    left out. *)
Definition search_papers (cached_results : list PaperMetadata)
    (client : string -> Z -> py.result (list PaperMetadata)) (current_year : Z)
    (intent : ResearchIntent) (max_results : Z) : py.result (list PaperMetadata) :=
  match cached_results with
  | _ :: _ => Ok cached_results
  | [] =>
      let* papers := search_arxiv client intent max_results in
      let filtered_papers := filter_papers papers intent in
      let scored_papers := score_relevance current_year filtered_papers intent in
      Ok (builtins.sorted_reverse relevance_score scored_papers)
  end.

(** One iteration of the loop of [deduplicate_papers], on the pair of
    [seen_titles] and [unique_papers]. *)
Definition dedup_title (st : gset string * list PaperMetadata) (paper : PaperMetadata)
  : gset string * list PaperMetadata :=
  let title_normalized := strip (lower (title paper)) in
  if bool_decide (title_normalized ∈ fst st) then st
  else ({[title_normalized]} ∪ fst st, (snd st ++ [paper])%list).

(** [deduplicate_papers] *)
Definition deduplicate_papers (papers : list PaperMetadata) : list PaperMetadata :=
  snd (fold_left dedup_title papers (∅, [])).

End literature_discovery.

(** ** workflow.py: the discovery step *)

Module workflow.
Import models literature_discovery.

(** [config.MIN_RELEVANCE_SCORE] *)
Definition MIN_RELEVANCE_SCORE : float := 0.3%float.

(** [ResearchWorkflow.discover_literature]: the list stored in
    [state.papers_metadata], whose length is returned. *)
Definition discover_literature (research_intent : option ResearchIntent)
    (cached_results : list PaperMetadata)
    (client : string -> Z -> py.result (list PaperMetadata)) (current_year : Z)
    (max_results : Z) : py.result (list PaperMetadata) :=
  match research_intent with
  | None => Raise (mk_exn ValueError "Research intent not set")
  | Some intent =>
      let* papers := search_papers cached_results client current_year intent max_results in
      let papers := deduplicate_papers papers in
      Ok (List.filter (fun p => PrimFloat.leb MIN_RELEVANCE_SCORE (relevance_score p))
            papers)
  end.

End workflow.

(** ** modules/multi_source_search.py: the search and the scoring *)

Module multi_source.
Import models pystr pytext literature_discovery multi_source_search.

(** [search_multi_source].  The two searches are given by what they return
    or raise for their arguments; a search that raises counts as having
    found nothing.  The dict is the list of its items in insertion order. *)
Definition search_multi_source
    (arxiv_search : ResearchIntent -> Z -> py.result (list PaperMetadata))
    (s2_search : string -> Z -> option Z -> option Z -> option string
                 -> py.result (list PaperMetadata))
    (s2_api_key : option string)
    (intent : ResearchIntent) (max_results_per_source : Z)
    (sources : option (list string)) : list (string * list PaperMetadata) :=
  let sources := from_option id ["arxiv"; "semantic_scholar"] sources in
  ((if bool_decide ("arxiv" ∈ sources)
    then [("arxiv",
           match arxiv_search intent max_results_per_source with
           | Ok arxiv_papers => arxiv_papers
           | Raise _ => []
           end)]
    else [])
   ++ (if bool_decide ("semantic_scholar" ∈ sources)
       then [("semantic_scholar",
              match s2_search (keywords intent) max_results_per_source
                      (year_start intent) (year_end intent) s2_api_key with
              | Ok s2_papers => s2_papers
              | Raise _ => []
              end)]
       else []))%list.

(** The body of the loop of [calculate_cross_source_relevance]. *)
Definition cross_source_relevance (current_year : Z) (intent : ResearchIntent)
    (keywords : list string) (paper : PaperMetadata) : float :=
  let score := 0.0%float in
  let title_lower := lower (title paper) in
  let abstract_lower := lower (abstract paper) in
  let score := keyword_hits 0.3 keywords title_lower score in
  let score := keyword_hits 0.1 keywords abstract_lower score in
  let score :=
    if negb (String.eqb (PaperType_value (paper_type intent)) "any")
    then match pm_paper_type paper with
         | Some t =>
             if String.eqb (PaperType_value t) (PaperType_value (paper_type intent))
             then (score + 0.2)%float else score
         | None => score
         end
    else score in
  let score :=
    if truthy_str (Some (published paper))
    then recency_bonus 0.15 current_year (published paper) score
    else score in
  let score := if truthy_str (arxiv_id paper) then (score + 0.05)%float else score in
  at_most_one score.

(** [calculate_cross_source_relevance] *)
Definition calculate_cross_source_relevance (current_year : Z)
    (papers : list PaperMetadata) (intent : ResearchIntent) : list PaperMetadata :=
  let keywords := split (lower (keywords intent)) in
  builtins.sorted_reverse relevance_score
    (map (fun paper =>
            set_relevance_score
              (cross_source_relevance current_year intent keywords paper) paper)
       papers).

End multi_source.

(** ** modules/venue_utils.py *)

Module venue_utils.
Import pystr.

(** [VENUE_MAPPING], in the order of the dict. *)
Definition VENUE_MAPPING : list (string * string) :=
  [("cvpr", "CCF-A"); ("iccv", "CCF-A"); ("eccv", "CCF-B");
   ("ieee transactions on pattern analysis and machine intelligence", "CCF-A");
   ("tpami", "CCF-A");
   ("neurips", "CCF-A"); ("nips", "CCF-A"); ("icml", "CCF-A"); ("iclr", "CCF-A");
   ("aaai", "CCF-A"); ("ijcai", "CCF-A");
   ("journal of machine learning research", "CCF-A"); ("jmlr", "CCF-A");
   ("acl", "CCF-A"); ("emnlp", "CCF-B"); ("naacl", "CCF-B"); ("coling", "CCF-B");
   ("computational linguistics", "CCF-A");
   ("nature", "Nature"); ("science", "Science"); ("cell", "Cell"); ("pnas", "Q1");
   ("nature communications", "Q1"); ("science advances", "Q1");
   ("ieee access", "Q2"); ("arxiv", "Preprint"); ("corr", "Preprint")].

(** [VENUE_MAPPING[name]], when [name in VENUE_MAPPING]. *)
Definition exact_match (name : string) : option string :=
  snd <$> List.find (fun kv => String.eqb (fst kv) name) VENUE_MAPPING.

(** The loop over the items: the first key of more than four characters
    that occurs in the name. *)
Definition contained_match (name : string) : option string :=
  snd <$> List.find (fun kv => contains (fst kv) name
                               && (4 <? String.length (fst kv))%nat)
            VENUE_MAPPING.

(** [get_venue_partition] *)
Definition get_venue_partition (venue_name : option string) : option string :=
  match venue_name with
  | Some name =>
      if truthy_str venue_name
      then let normalized_name := strip (lower name) in
           match exact_match normalized_name with
           | Some value => Some value
           | None => contained_match normalized_name
           end
      else None
  | None => None
  end.

End venue_utils.

(** ** utils.py: the text helpers *)

Module utils.
Import models pytext.

(** [truncate_text] *)
Definition truncate_text (text : string) (max_length : Z) : string :=
  if (Z.of_nat (String.length text) <=? max_length)%Z then text
  else slice_to max_length text ++ "...".

End utils.

(** ** backend/monitoring.py: the LLM counters *)

Module monitoring.

(** An entry of [llm_calls]. *)
Record llm_stats := mk_stats {
  count : Z;
  tokens : Z;
  total_cost : float;
  errors : Z
}.

(** The value the [defaultdict] makes for a new key. *)
Definition new_stats : llm_stats := mk_stats 0 0 0%float 0.

(** [MetricsCollector.record_llm_call] on [llm_calls]. *)
Definition record_llm_call (llm_calls : gmap string llm_stats)
    (provider model : string) (input_tokens output_tokens : Z) (cost : float)
    (success : bool) : gmap string llm_stats :=
  let key := provider ++ "/" ++ model in
  let entry := default new_stats (llm_calls !! key) in
  <[key := mk_stats (count entry + 1)
             (tokens entry + (input_tokens + output_tokens))
             (total_cost entry + cost)%float
             (if success then errors entry else errors entry + 1)]> llm_calls.

End monitoring.

(** ** llm/base.py: the factory, and llm/manager.py *)

Module llm_manager.
Import llm_base dyn monitoring.

(** [provider.value] *)
Definition LLMProvider_value (p : LLMProvider) : string :=
  match p with
  | OPENAI => "openai" | DEEPSEEK => "deepseek" | CLAUDE => "claude"
  | GEMINI => "gemini" | QWEN => "qwen" | KIMI => "kimi"
  end.

Definition set_base_url (v : option string) (c : LLMConfig) : LLMConfig :=
  mk_config (provider c) (api_key c) (model c) v (temperature c) (max_tokens c)
    (timeout c) (max_retries c) (max_cost_per_request c) (daily_budget c).

(** The base URL the OpenAI-compatible bindings fill in when none is set. *)
Definition default_base_url (p : LLMProvider) : option string :=
  match p with
  | DEEPSEEK => Some "https://api.deepseek.com/v1"
  | QWEN => Some "https://dashscope.aliyuncs.com/compatible-mode/v1"
  | KIMI => Some "https://api.moonshot.cn/v1"
  | _ => None
  end.

(** A registered instance is given by the configuration it holds and the
    class it was made from. *)
Record BaseLLM := mk_llm { llm_class : LLMProvider; config : LLMConfig }.

(** [obj[key]] for a dict of strings. *)
Definition getitem (msg : list (string * string)) (key : string) : py.result string :=
  match List.find (fun kv => String.eqb (fst kv) key) msg with
  | Some (_, v) => Ok v
  | None => Raise (mk_exn KeyError ("'" ++ key ++ "'"))
  end.

(** [response.name] on an [LLMResponse]; [raw_response] is not modelled. *)
Definition response_getattr (r : LLMResponse) (name : string) : py.result pyval :=
  if String.eqb name "content" then Ok (PStr (resp_content r))
  else if String.eqb name "model" then Ok (PStr (resp_model r))
  else if String.eqb name "provider" then Ok (PStr (LLMProvider_value (resp_provider r)))
  else if String.eqb name "tokens_used"
       then Ok (from_option PInt PNone (tokens_used r))
  else if String.eqb name "cost" then Ok (from_option PFloat PNone (cost r))
  else if String.eqb name "finish_reason"
       then Ok (from_option PStr PNone (finish_reason r))
  else if String.eqb name "raw_response" then Ok PNone
  else Raise (mk_exn AttributeError
                ("'LLMResponse' object has no attribute '" ++ name ++ "'")).

(** The manager: the dict [_llms] in insertion order, and [_default_llm]. *)
Record LLMManager := mk_manager {
  _llms : list (string * BaseLLM);
  _default_llm : option string
}.

(** [LLMManager()] *)
Definition new_manager : LLMManager := mk_manager [] None.

(** [d[name] = llm]: an existing key keeps its place. *)
Fixpoint setitem (name : string) (llm : BaseLLM) (d : list (string * BaseLLM))
  : list (string * BaseLLM) :=
  match d with
  | [] => [(name, llm)]
  | (k, v) :: rest =>
      if String.eqb k name then (k, llm) :: rest else (k, v) :: setitem name llm rest
  end.

(** [d.get(name)] *)
Definition lookup_llm (name : string) (d : list (string * BaseLLM)) : option BaseLLM :=
  snd <$> List.find (fun kv => String.eqb (fst kv) name) d.

Section Manager.

(** What the environment decides: whether the SDK of a binding can be
    loaded and its client made, [repr] of a list of names, and what the
    [chat] method of an instance returns or raises. *)
Variable init_client : LLMConfig -> py.result unit.
Variable repr_names : list string -> string.
Variable llm_chat : BaseLLM -> list LLMMessage -> option float -> option Z -> bool
                    -> list (string * pyval) -> py.result LLMResponse.

(** [LLMFactory.create]: every provider has its class; the constructor
    fills in the base URL and makes the client. *)
Definition create (config : LLMConfig) : py.result BaseLLM :=
  let config :=
    match default_base_url (provider config) with
    | Some url => if truthy_str (base_url config) then config
                  else set_base_url (Some url) config
    | None => config
    end in
  let* _ := init_client config in
  Ok (mk_llm (provider config) config).

(** [LLMManager.register_llm], without extra keyword arguments. *)
Definition register_llm (self : LLMManager) (name : string) (provider : LLMProvider)
    (api_key model : string) (base_url : option string) (temperature : float)
    (max_tokens : option Z) (is_default : bool) : py.result LLMManager :=
  let config := mk_config provider api_key model base_url temperature max_tokens
                  60 3 None None in
  let* llm := create config in
  let llms := setitem name llm (_llms self) in
  Ok (mk_manager llms
        (if (is_default || negb (truthy_str (_default_llm self)))%bool
         then Some name else _default_llm self)).

(** [LLMManager.get_llm] *)
Definition get_llm (self : LLMManager) (name : option string) : py.result BaseLLM :=
  let name := match name with Some n => Some n | None => _default_llm self end in
  match name with
  | Some n =>
      match lookup_llm n (_llms self) with
      | Some llm => Ok llm
      | None =>
          Raise (mk_exn ValueError
                   ("LLM '" ++ n ++ "' not found. Available: "
                    ++ repr_names (map fst (_llms self))))
      end
  | None =>
      Raise (mk_exn ValueError
               ("LLM 'None' not found. Available: "
                ++ repr_names (map fst (_llms self))))
  end.

(** [LLMManager.list_llms] and [get_default_llm_name] *)
Definition list_llms (self : LLMManager) : list string := map fst (_llms self).

Definition get_default_llm_name (self : LLMManager) : option string :=
  _default_llm self.

(** [LLMManager.set_default_llm] *)
Definition set_default_llm (self : LLMManager) (name : string) : py.result LLMManager :=
  match lookup_llm name (_llms self) with
  | Some _ => Ok (mk_manager (_llms self) (Some name))
  | None => Raise (mk_exn ValueError ("LLM '" ++ name ++ "' not found"))
  end.

(** The message list of [chat]: [LLMMessage(role=msg["role"],
    content=msg["content"])] for each dict. *)
Fixpoint llm_messages (messages : list (list (string * string)))
  : py.result (list LLMMessage) :=
  match messages with
  | [] => Ok []
  | msg :: rest =>
      let* role := getitem msg "role" in
      let* content := getitem msg "content" in
      let* tail := llm_messages rest in
      Ok (mk_message role content :: tail)
  end.

(** The number an argument of [record_llm_call] must be. *)
Definition as_int (v : pyval) : py.result Z :=
  match v with
  | PInt n => Ok n
  | _ => Raise (mk_exn TypeError "unsupported operand type(s) for +")
  end.

Definition as_float (v : pyval) : py.result float :=
  match v with
  | PFloat x => Ok x
  | PInt n => Ok (openai_llm.float_of_int n)
  | _ => Raise (mk_exn TypeError "unsupported operand type(s) for +=")
  end.

(** The inner [try] after a successful call: the arguments are read off
    the response and the call is recorded; any exception is passed over. *)
Definition record_success (llm_calls : gmap string llm_stats) (llm : BaseLLM)
    (response : LLMResponse) : gmap string llm_stats :=
  match (let* input_tokens := response_getattr response "input_tokens" in
         let* output_tokens := response_getattr response "output_tokens" in
         let* cost := response_getattr response "cost" in
         let* input_tokens := as_int input_tokens in
         let* output_tokens := as_int output_tokens in
         let* cost := as_float cost in
         Ok (record_llm_call llm_calls (LLMProvider_value (provider (config llm)))
               (model (config llm)) input_tokens output_tokens cost true)) with
  | Ok recorded => recorded
  | Raise _ => llm_calls
  end.

(** [LLMManager.chat]: the outcome and the counters afterwards. *)
Definition chat (self : LLMManager) (llm_calls : gmap string llm_stats)
    (messages : list (list (string * string))) (llm_name : option string)
    (temperature : option float) (max_tokens : option Z) (json_mode : bool)
    (kwargs : list (string * pyval))
  : py.result LLMResponse * gmap string llm_stats :=
  match get_llm self llm_name with
  | Raise e => (Raise e, llm_calls)
  | Ok llm =>
      match llm_messages messages with
      | Raise e => (Raise e, llm_calls)
      | Ok converted =>
          match llm_chat llm converted temperature max_tokens json_mode kwargs with
          | Ok response => (Ok response, record_success llm_calls llm response)
          | Raise e =>
              (Raise e,
               record_llm_call llm_calls (LLMProvider_value (provider (config llm)))
                 (model (config llm)) 0 0 0%float false)
          end
      end
  end.

End Manager.

End llm_manager.

(** ** llm_config.py *)

Module llm_config.
Import llm_base llm_manager.

Section Environment.

(** [os.getenv], and the environment of the manager. *)
Variable getenv : string -> option string.
Variable init_client : LLMConfig -> py.result unit.

(** [os.getenv(name, default)] *)
Definition getenv_or (name default : string) : string :=
  from_option id default (getenv name).

(** [init_llms_from_env] on the global manager. *)
Definition init_llms_from_env (llm_manager : LLMManager) : py.result LLMManager :=
  let* llm_manager :=
    if truthy_str (getenv "DEEPSEEK_API_KEY")
    then register_llm init_client llm_manager "deepseek" DEEPSEEK
           (getenv_or "DEEPSEEK_API_KEY" "") (getenv_or "DEEPSEEK_MODEL" "deepseek-chat")
           None 0.5%float None true
    else Ok llm_manager in
  let* llm_manager :=
    if truthy_str (getenv "QWEN_API_KEY")
    then register_llm init_client llm_manager "qwen" QWEN
           (getenv_or "QWEN_API_KEY" "") (getenv_or "QWEN_MODEL" "qwen-plus")
           None 0.5%float None false
    else Ok llm_manager in
  if truthy_str (getenv "KIMI_API_KEY")
  then register_llm init_client llm_manager "kimi" KIMI
         (getenv_or "KIMI_API_KEY" "") (getenv_or "KIMI_MODEL" "moonshot-v1-32k")
         None 0.5%float None false
  else Ok llm_manager.

(** [get_llm_for_task]: a name, or the [None] that [get_default_llm_name]
    may return. *)
Definition get_llm_for_task (llm_manager : LLMManager) (task : string)
  : py.result (option string) :=
  let default_model :=
    if truthy_str (getenv "DEEPSEEK_API_KEY") then Some "deepseek"
    else if truthy_str (getenv "QWEN_API_KEY") then Some "qwen"
    else if truthy_str (getenv "KIMI_API_KEY") then Some "kimi"
    else None in
  match default_model with
  | None =>
      if truthy_str (getenv "OPENAI_API_KEY") then Ok (Some "openai-smart")
      else Raise (mk_exn ValueError
                    "No supported domestic LLM (DeepSeek/Qwen/Kimi) API key found.")
  | Some default_model =>
      let code_model :=
        if truthy_str (getenv "DEEPSEEK_API_KEY") then "deepseek" else default_model in
      let long_ctx_model :=
        if truthy_str (getenv "KIMI_API_KEY") then "kimi" else default_model in
      let llm_name :=
        if String.eqb task "analysis" then default_model
        else if String.eqb task "generation" then default_model
        else if String.eqb task "fast" then default_model
        else if String.eqb task "code" then code_model
        else if String.eqb task "long_context" then long_ctx_model
        else default_model in
      if bool_decide (llm_name ∈ list_llms llm_manager) then Ok (Some llm_name)
      else Ok (get_default_llm_name llm_manager)
  end.

End Environment.

End llm_config.

(** ** backend/tasks/generation.py: the method and draft tasks *)

Module generation_tasks.
Import db_models tasks_base model_fields dyn stage_env.

(** What the worker does with the outcome of a task body: Celery calls
    [on_success] with the value returned, or [on_failure] with the
    exception raised. *)
Definition finish (outcome : py.result pyval * table) (now : Z) (task_id : string)
  : table :=
  match outcome with
  | (Ok retval, db) => on_success db now retval task_id
  | (Raise exc, db) => on_failure db now exc task_id
  end.

(** [ResearchIdea(id=idea_db.idea_id, ..., hypothesis=idea_db.hypothesis,
    ...)], as both tasks build their idea from the row. *)
Definition idea_of_row (idea_db : pyval) : py.result pyval :=
  let* id := getattr idea_db "idea_id" in
  let* title := getattr idea_db "title" in
  let* motivation := getattr idea_db "motivation" in
  let* hypothesis := getattr idea_db "hypothesis" in
  let* contributions := getattr idea_db "contributions" in
  let* difference := getattr idea_db "difference_from_existing" in
  let* novelty := getattr idea_db "novelty_score" in
  let* feasibility := getattr idea_db "feasibility_score" in
  dataclass_new "ResearchIdea" ResearchIdea_fields ResearchIdea_defaults
    [("id", id); ("title", title); ("motivation", motivation);
     ("hypothesis", hypothesis); ("contributions", contributions);
     ("difference_from_existing", difference); ("novelty_score", novelty);
     ("feasibility_score", feasibility)].

Section Tasks.

(** [int((current_step / total_steps) * 100)] of [ProgressTracker], whose
    [total_steps] is a positive literal in both tasks. *)
Variable percent : Z -> Z -> Z.

(** [ProgressTracker.update], moving to [current_step]. *)
Definition tracker_update (db : table) (now : Z) (task_id : string)
    (total_steps current_step : Z) (message : string) : table :=
  update_task_status db now task_id None (Some (percent current_step total_steps))
    (Some message) None None.

(** [method_design_task]: the outcome of the body and the task table it
    leaves.  [idea_db] is what the query for the idea returns; [save] is
    the rest of the body once the method is designed (the rows it writes
    are in other tables). *)
Definition method_design_task (e : env) (uuid : string) (db : table) (now : Z)
    (task_id idea_id : string) (idea_db : option pyval)
    (save : pyval -> table -> py.result pyval * table)
  : py.result pyval * table :=
  let db := update_task_status db now task_id (Some "running") None None None None in
  let db := tracker_update db now task_id 4 1 "Loading research idea..." in
  match idea_db with
  | None =>
      (Raise (mk_exn ValueError ("Research idea " ++ idea_id ++ " not found")), db)
  | Some row =>
      if truthy row
      then
        let db := tracker_update db now task_id 4 2 "Designing method..." in
        match idea_of_row row with
        | Raise exc => (Raise exc, db)
        | Ok idea =>
            match fst (method_designer.design_method e uuid idea None) with
            | Raise exc => (Raise exc, db)
            | Ok method =>
                save method (tracker_update db now task_id 4 3 "Saving results...")
            end
        end
      else (Raise (mk_exn ValueError ("Research idea " ++ idea_id ++ " not found")), db)
  end.

(** [paper_draft_task], likewise; [draft] is the rest of the body from
    [MethodDesign(...)] on. *)
Definition paper_draft_task (db : table) (now : Z) (task_id idea_id : string)
    (idea_db method_db : option pyval)
    (draft : pyval -> pyval -> table -> py.result pyval * table)
  : py.result pyval * table :=
  let db := update_task_status db now task_id (Some "running") None None None None in
  let db := tracker_update db now task_id 8 1 "Loading research idea and method..." in
  let found (row : option pyval) : option pyval :=
    match row with
    | Some r => if truthy r then Some r else None
    | None => None
    end in
  match found idea_db with
  | None =>
      (Raise (mk_exn ValueError ("Research idea " ++ idea_id ++ " not found")), db)
  | Some idea_row =>
      match found method_db with
      | None =>
          (Raise (mk_exn ValueError
                    "Method design not found. Please run method design first."), db)
      | Some method_row =>
          let db := tracker_update db now task_id 8 2 "Initializing paper generator..." in
          match idea_of_row idea_row with
          | Raise exc => (Raise exc, db)
          | Ok idea => draft idea method_row db
          end
      end
  end.

End Tasks.

End generation_tasks.

(** ** modules/research_intent.py: the validation, and the first step of
    workflow.py *)

Module intent_step.
Import models research_intent.

(** [validate_research_intent]; [current_year] is [datetime.now().year]. *)
Definition validate_research_intent (current_year : Z) (intent : ResearchIntent)
  : bool :=
  if (negb (truthy_str (Some (keywords intent)))
      || (String.length (pystr.strip (keywords intent)) <? 3)%nat)%bool
  then false
  else if (truthy_int (year_start intent)
           && match year_start intent with
              | Some first => (first <? 1900)%Z
              | None => false
              end)%bool
  then false
  else if (truthy_int (year_end intent)
           && match year_end intent with
              | Some last => (current_year + 1 <? last)%Z
              | None => false
              end)%bool
  then false
  else true.

(** [ResearchWorkflow.set_research_intent]: the intent it stores in the
    state and returns. *)
Definition set_research_intent (current_year : Z) (keywords : string)
    (year_start year_end : option Z) (journal_level paper_type field : string)
  : py.result ResearchIntent :=
  let* intent :=
    create_research_intent keywords year_start year_end journal_level paper_type field in
  if negb (validate_research_intent current_year intent)
  then Raise (mk_exn ValueError "Invalid research intent")
  else Ok intent.

End intent_step.

(* ===================================================================== *)
(** * The terms of the statements *)
(* ===================================================================== *)

(** ** The task table *)

Section TaskRecordTerms.
Import db_models tasks_base.

(** The status strings [update_task_status] accepts: the falsy ones are
    skipped, the others must name a member of [TaskStatus]. *)
Definition valid_status (status : option string) : bool :=
  match status with
  | Some (String _ _ as s) => is_ok (TaskStatus_of_value s)
  | _ => true
  end.

Definition progress_in_range (db : table) : Prop :=
  map_Forall (fun _ t => 0 <= progress t <= 100) db.

Definition sample_task : AsyncTask :=
  mk_task 1 (Some 7) (Some 1) "t-1" "literature.discovery" (Some "discovery")
    RUNNING 60 None None (Some 10) None (Some 5).

Definition sample_table : table := {[ "t-1" := sample_task ]}.

End TaskRecordTerms.

(** ** The provider call *)

Section ProviderChatTerms.
Import llm_base openai_llm.

(** The requests and sleeps of a run whose attempts [a .. k-1] fail and
    whose attempt [k] is the last one made. *)
Definition backoff_log (p : params) (a k : Z) : list event :=
  (flat_map (fun i => [Request i p; Sleep (2 ^ i)]) (seqZ a (k - a))
   ++ [Request k p])%list.

Definition fails {A} (r : py.result A) : Prop := is_ok r = false.

Definition config_with_retries (n : Z) : LLMConfig :=
  mk_config OPENAI "sk-test" "gpt-4o" None 0.7%float None 60 n None None.

Definition third_answer : completion := mk_completion "third" None "stop".

(** A client whose first two requests time out and whose later ones answer. *)
Definition fails_twice (attempt : Z) (p : params) : py.result completion :=
  if (attempt <? 2)%Z then Raise (mk_exn APIError "timed out") else Ok third_answer.

Definition hello : list LLMMessage := [mk_message "user" "hello"].

(** The configuration with its cost ceiling replaced. *)
Definition with_ceiling (ceiling : option float) (cfg : LLMConfig) : LLMConfig :=
  mk_config (provider cfg) (api_key cfg) (model cfg) (base_url cfg)
    (temperature cfg) (llm_base.max_tokens cfg) (timeout cfg) (max_retries cfg)
    ceiling (daily_budget cfg).

Definition capped_config : LLMConfig :=
  mk_config OPENAI "sk-test" "gpt-4-turbo" None 0.7%float None 60 3
    (Some 0.001%float) None.

Definition thousand_tokens (attempt : Z) (p : params) : py.result completion :=
  Ok (mk_completion "answer" (Some 1000%Z) "stop").

End ProviderChatTerms.

(** ** Normalised titles *)

Section TitleNormalizationTerms.
Import pystr multi_source_search.

(** Every character of [s] satisfies [P]. *)
Fixpoint all_chars (P : ascii -> bool) (s : string) : bool :=
  match s with
  | EmptyString => true
  | String c s' => P c && all_chars P s'
  end.

Definition kept (c : ascii) : bool := is_word c || is_space c.
Definition lower_fixed (c : ascii) : bool := Ascii.eqb (lower_char c) c.

Definition starts_with_space (s : string) : bool :=
  match s with
  | EmptyString => false
  | String c _ => is_space c
  end.

(** No white space but single SPACE characters. *)
Fixpoint collapsed (s : string) : bool :=
  match s with
  | EmptyString => true
  | String c s' =>
      (if is_space c then Ascii.eqb c " " && negb (starts_with_space s') else true)
      && collapsed s'
  end.

End TitleNormalizationTerms.

(** ** The order of binary64 numbers *)

Section FloatOrderTerms.

(** A float that is not NaN, as a point of the lexicographic order on
    triples of integers: the sign class, then the exponent, then the
    mantissa (both negated for negative numbers).  The two zeros share a
    key, as they compare equal. *)
Definition sf_key (f : spec_float) : Z * Z * Z :=
  match f with
  | S754_zero _ => (0, 0, 0)
  | S754_infinity s => (if s then -2 else 2, 0, 0)
  | S754_nan => (0, 0, 0)
  | S754_finite s m e => if s then (-1, - e, Z.neg m) else (1, e, Z.pos m)
  end%Z.

Definition k1 (a : Z * Z * Z) : Z := fst (fst a).
Definition k2 (a : Z * Z * Z) : Z := snd (fst a).
Definition k3 (a : Z * Z * Z) : Z := snd a.

Definition key_lt (a b : Z * Z * Z) : Prop :=
  (k1 a < k1 b \/ (k1 a = k1 b /\ (k2 a < k2 b \/ (k2 a = k2 b /\ k3 a < k3 b))))%Z.

Definition fkey (x : float) : Z * Z * Z := sf_key (Prim2SF x).

End FloatOrderTerms.

(** ** Descending lists *)

Section SortedReverseTerms.
Context {A : Type} (key : A -> float).

(** [a] may stand before [b] in a descending list: the key of [b] is at
    most the key of [a]. *)
Definition desc (a b : A) : Prop := PrimFloat.leb (key b) (key a) = true.

Definition comparable (a : A) : Prop := is_nan (key a) = false.

End SortedReverseTerms.

(** ** Idea lists *)

Section IdeaRankingTerms.
Import models idea_generation.

Definition idea (name : string) (novelty feasibility : float) : ResearchIdea :=
  mk_idea name name "" "" "" "" feasibility novelty.

Definition three_ideas : list ResearchIdea :=
  [idea "a" 0.5 0.5; idea "b" 0.9 0.1; idea "c" 0.5 0.5]%float.

End IdeaRankingTerms.

(** ** Fusion of the sources *)

Section FusionTerms.
Import models multi_source_search.

Definition has_id (aid : string) (p : PaperMetadata) : bool :=
  bool_decide (arxiv_id p = Some aid).

(** The first record with the arXiv id [aid] among the records traversed. *)
Definition first_with_id (aid : string) (l : list (string * PaperMetadata))
  : option PaperMetadata :=
  List.find (has_id aid) (map snd l).

(** What the loop maintains, [l] being the pairs traversed so far. *)
Record dedup_inv (st : dedup_state) (l : list (string * PaperMetadata)) : Prop := {
  inv_first : forall p aid,
    p ∈ unique_papers st -> arxiv_id p = Some aid -> aid <> "" ->
    first_with_id aid l = Some p;
  inv_once : forall aid,
    aid <> "" -> (length (List.filter (has_id aid) (unique_papers st)) <= 1)%nat;
  inv_seen : forall q aid,
    q ∈ map snd l -> arxiv_id q = Some aid -> aid <> "" ->
    aid ∈ seen_arxiv_ids st
}.

(** The sources of a result mapping are listed by descending priority, as
    [search_multi_source] builds it ("arxiv", then "semantic_scholar"). *)
Definition by_priority (multi_source_results : list (string * list PaperMetadata)) : Prop :=
  StronglySorted
    (fun a b => (source_priority (fst b) <= source_priority (fst a))%Z)
    multi_source_results.

Definition pair_desc (a b : string * PaperMetadata) : Prop :=
  (source_priority (fst b) <= source_priority (fst a))%Z.

Definition paper_from (t : string) (aid : string) (link : string) : PaperMetadata :=
  mk_paper t ["A. Author"] "" link "2023-01-01" None None 0%float (Some aid) None.

Definition indexed_copy : PaperMetadata :=
  paper_from "Graph networks, revisited" "2301.00001" "https://www.semanticscholar.org/paper/1".

Definition preprint : PaperMetadata :=
  paper_from "Graph networks" "2301.00001" "https://arxiv.org/abs/2301.00001".

Definition both_sources : list (string * list PaperMetadata) :=
  [("arxiv", [preprint]); ("semantic_scholar", [indexed_copy])].

End FusionTerms.

(** ** Draft generation *)

Section DraftGenerationTerms.
Import models dyn stage_env paper_draft_generator.

(** A provider that fails on the method section only. *)
Definition method_call_fails : env :=
  mk_env
    (fun req => if String.eqb (prompt_template req) "method"
                then Raise (mk_exn APIError "rate limit exceeded")
                else Ok ("text of " ++ prompt_template req))
    (fun _ => Ok PNone).

Definition an_idea : pyval :=
  ResearchIdea_instance
    (mk_idea "idea_1" "Sparse graph attention" "dense attention is slow"
       "sparsity keeps accuracy" "a faster model" "prunes edges" 0.7 0.8)%float.

Definition a_method : pyval :=
  MethodDesign_instance
    (mk_method "idea_1" "prune then attend" "two-stage model"
       [[("name", "pruner"); ("function", "drops edges")]] ["no pruning"]
       "most edges carry no signal").

(** Objects with the attributes the generator reads. *)
Definition an_idea_as_read : pyval :=
  PInstance "IdeaRow"
    [("id", PStr "idea_1"); ("title", PStr "Sparse graph attention");
     ("motivation", PStr "dense attention is slow");
     ("hypothesis", PStr "sparsity keeps accuracy");
     ("contributions", PList [PStr "a faster model"])].

Definition a_method_as_read : pyval :=
  PInstance "MethodRow"
    [("algorithm_framework", PStr "prune then attend");
     ("key_modules", PList [PStr "pruner"]);
     ("data_requirements", PStr "citation graphs");
     ("evaluation_metrics", PList [PStr "accuracy"; PStr "latency"]);
     ("expected_challenges", PList [PStr "over-pruning"]);
     ("innovation_points", PList [PStr "learned sparsity"])].

Definition content_of (sections : list (string * pyval)) (key : string)
  : option pyval :=
  match assoc key sections with
  | Some section => match getattr section "content" with
                    | Ok v => Some v
                    | Raise _ => None
                    end
  | None => None
  end.

End DraftGenerationTerms.

(** ** The stage processors *)

Section StageProcessorTerms.
Import models dyn stage_env.

(** A provider whose answer is not JSON. *)
Definition answers_in_prose : env :=
  mk_env
    (fun _ => Ok "Here is my analysis: ...")
    (fun _ => Raise (mk_exn JSONDecodeError
                       "Expecting value: line 1 column 1 (char 0)")).

Definition an_analysis : PaperAnalysis :=
  mk_analysis "12" "slow attention" "edge pruning" "prune then attend"
    ["keeps accuracy"] ["small graphs only"] ["a faster model"].

(** A provider that answers with a list of four ideas. *)
Definition four_ideas : env :=
  mk_env
    (fun _ => Ok "[{...}, {...}, {...}, {...}]")
    (fun _ => Ok (PList [PDict [("title", PStr "a")]; PDict [("title", PStr "b")];
                         PDict [("title", PStr "c")]; PDict []])).

(** [float] on the numbers of a JSON document. *)
Definition float_of_number (v : pyval) : py.result float :=
  match v with
  | PFloat x => Ok x
  | PInt n => Ok (openai_llm.float_of_int n)
  | _ => Raise (mk_exn TypeError "float() argument must be a string or a real number")
  end.

Definition uuid_of (n : Z) : string := "uuid-" ++ pretty n.



End StageProcessorTerms.

(** ** Search results *)

Section RelevanceTerms.
Import models pystr literature_discovery.

(** The key under which [deduplicate_papers] remembers a paper. *)
Definition title_key (p : PaperMetadata) : string := strip (lower (title p)).

(** What the loop of [deduplicate_papers] maintains, [l] being the papers
    traversed so far. *)
Record titles_inv (st : gset string * list PaperMetadata) (l : list PaperMetadata)
  : Prop := {
  t_seen : forall k, k ∈ fst st <-> k ∈ map title_key (snd st);
  t_nodup : NoDup (map title_key (snd st));
  t_sub : snd st `sublist_of` l;
  t_all : forall p, p ∈ l -> title_key p ∈ fst st;
  t_first : forall p, p ∈ snd st ->
              List.find (fun q => bool_decide (title_key q = title_key p)) l = Some p
}.

Definition paper_of (t summary date : string) : PaperMetadata :=
  mk_paper t ["A. Author"] summary "https://arxiv.org/abs/1" date None None
    0%float None None.

(** Three results of the arXiv client, two of them under one title. *)
Definition found_papers : list PaperMetadata :=
  [paper_of "Graph pruning" "we prune edges" "2019-03-01";
   paper_of "Sparse Graph Attention" "graph attention, pruned" "2024-06-01";
   paper_of " sparse graph attention " "graph attention again" "2024-07-01"].

Definition three_results (query : string) (max_results : Z)
  : py.result (list PaperMetadata) := Ok found_papers.

Definition graph_attention : ResearchIntent :=
  mk_intent "graph attention" None None JL_ANY PT_ANY RF_ML.

(** What the discovery step stores for them. *)
Definition discovered : list PaperMetadata :=
  match workflow.discover_literature (Some graph_attention) [] three_results 2026 50 with
  | Ok papers => papers
  | Raise _ => []
  end.

End RelevanceTerms.

(** ** The fused search *)

Section FusedSearchTerms.
Import models.

(** The two sources, each returning its record of one preprint. *)
Definition arxiv_returns_preprint (intent : ResearchIntent) (max_results : Z)
  : py.result (list PaperMetadata) := Ok [preprint].

Definition index_returns_copy (query : string) (max_results : Z)
    (year_start year_end : option Z) (api_key : option string)
  : py.result (list PaperMetadata) := Ok [indexed_copy].

End FusedSearchTerms.

(** ** The provider registry *)

Section RegistryTerms.
Import llm_base monitoring llm_manager.

(** The calls that change a manager; a call that raises leaves it as it
    was. *)
Inductive manager_call :=
| Register (name : string) (provider : LLMProvider) (api_key model : string)
    (base_url : option string) (temperature : float) (max_tokens : option Z)
    (is_default : bool)
| SetDefault (name : string).

Definition after_call (init_client : LLMConfig -> py.result unit)
    (self : LLMManager) (call : manager_call) : LLMManager :=
  match call with
  | Register name provider api_key model base_url temperature max_tokens is_default =>
      match register_llm init_client self name provider api_key model base_url
              temperature max_tokens is_default with
      | Ok self' => self'
      | Raise _ => self
      end
  | SetDefault name =>
      match set_default_llm self name with
      | Ok self' => self'
      | Raise _ => self
      end
  end.

(** What holds of every manager that can be reached. *)
Definition default_registered (self : LLMManager) : Prop :=
  (forall n, _default_llm self = Some n -> is_Some (lookup_llm n (_llms self)))
  /\ (_llms self = [] <-> _default_llm self = None).


(** An environment in which every client can be made. *)
Definition any_client (c : LLMConfig) : py.result unit := Ok tt.

Definition plain_repr (names : list string) : string :=
  "[" ++ String.concat ", " names ++ "]".

(** An environment with a Qwen key and an OpenAI key only. *)
Definition qwen_and_openai (name : string) : option string :=
  if String.eqb name "QWEN_API_KEY" then Some "sk-qwen"
  else if String.eqb name "OPENAI_API_KEY" then Some "sk-openai"
  else None.

Definition domestic_key (getenv : string -> option string) : bool :=
  truthy_str (getenv "DEEPSEEK_API_KEY") || truthy_str (getenv "QWEN_API_KEY")
  || truthy_str (getenv "KIMI_API_KEY").

End RegistryTerms.

(** ** The generation tasks *)

Section GenerationTaskTerms.
Import db_models tasks_base.

(** A row of [research_ideas], with the columns of [ResearchIdeaDB]. *)
Definition an_idea_row : pyval :=
  PInstance "ResearchIdeaDB"
    [("id", PInt 3); ("project_id", PInt 7); ("idea_id", PStr "idea_1");
     ("title", PStr "Sparse graph attention");
     ("motivation", PStr "dense attention is slow");
     ("core_hypothesis", PStr "sparsity keeps accuracy");
     ("expected_contribution", PStr "a faster model");
     ("difference_from_existing", PStr "prunes edges");
     ("feasibility_score", PFloat 0.7); ("novelty_score", PFloat 0.8);
     ("is_selected", PBool false)].

(** The percentages of a tracker, as whole numbers. *)
Definition whole_percent (current_step total_steps : Z) : Z :=
  current_step * 100 / total_steps.

(** A task that a failure callback has closed. *)
Definition closed_as_failed (db : table) (task_id : string) (now : Z) (exc : exn)
  : Prop :=
  exists t,
    db !! task_id = Some t
    /\ status t = FAILED /\ progress t = 0
    /\ error_message t = Some (class_name (exn_type exc) ++ ": " ++ exn_str exc)
    /\ completed_at t = Some now.

Definition saves_nothing (method : pyval) (db : table) : py.result pyval * table :=
  (Ok (PDict [("success", PBool true)]), db).

Definition drafts_nothing (idea method : pyval) (db : table)
  : py.result pyval * table :=
  (Ok (PDict [("success", PBool true)]), db).

End GenerationTaskTerms.

(** ** The intent step *)

Section IntentStepTerms.
Import models.

Definition graph_attention_2019_2024 : ResearchIntent :=
  mk_intent "graph attention" (Some 2019) (Some 2024) JL_ANY PT_ANY RF_ML.

End IntentStepTerms.

(* ===================================================================== *)
(** * Properties *)
(* ===================================================================== *)

Section TaskRecord.
Import db_models tasks_base.

Lemma apply_status_progress (t : AsyncTask) (status : option string) t0 :
  apply_status status t = Ok t0 ->
  progress t0 = progress t
  /\ (forall s st, status = Some s -> s <> "" -> TaskStatus_of_value s = Ok st ->
        db_models.status t0 = st).
Proof.
  unfold apply_status. destruct status as [[|a s]|]; cbn [truthy_str].
  - intros [= <-]. split; [reflexivity|]. intros s st [= <-] Hne. done.
  - unfold py.bind.
    destruct (TaskStatus_of_value (String a s)) as [st|] eqn:Hst; [|discriminate].
    intros [= <-]. split; [reflexivity|]. intros s' st' [= <-] _ Hs'.
    rewrite Hst in Hs'. injection Hs' as <-. reflexivity.
  - intros [= <-]. split; [reflexivity|]. intros s st [=].
Qed.

Ltac step_ifs :=
  repeat match goal with
         | |- context [if ?b then _ else _] => destruct b
         | |- context [match ?x with Some _ => _ | None => _ end] => destruct x
         end.

Lemma apply_update_progress now t status progress msg res err t' :
  apply_update now t status progress msg res err = Ok t' ->
  db_models.progress t' =
    match progress with
    | Some p => Z.min 100 (Z.max 0 p)
    | None => db_models.progress t
    end.
Proof.
  unfold apply_update. unfold py.bind at 1.
  destruct (apply_status status t) as [t0|] eqn:Hs; [|discriminate].
  apply apply_status_progress in Hs as [Hp _].
  intros [= <-]. rewrite <- Hp. clear Hp.
  step_ifs; reflexivity.
Qed.

Lemma apply_update_valid now t status progress msg res err :
  valid_status status = true ->
  exists t', apply_update now t status progress msg res err = Ok t'.
Proof.
  unfold valid_status, apply_update, apply_status. unfold py.bind at 1. intros Hv.
  destruct status as [[|a s]|]; [eauto| |eauto].
  cbn [truthy_str]. unfold py.bind at 1.
  destruct (TaskStatus_of_value (String a s)); [eauto | discriminate].
Qed.

Lemma apply_update_failed now t exc_msg t' :
  apply_update now t (Some "failed") (Some 0) None None (Some exc_msg) = Ok t' ->
  truthy_str (Some exc_msg) = true ->
  status t' = FAILED /\ progress t' = 0 /\ error_message t' = Some exc_msg
  /\ completed_at t' = Some now.
Proof.
  intros H Ht. pose proof (apply_update_progress _ _ _ _ _ _ _ _ H) as Hp.
  revert H. unfold apply_update. unfold py.bind at 1.
  destruct (apply_status (Some "failed") t) as [t0|] eqn:Hs; [|discriminate].
  apply apply_status_progress in Hs as [_ Hst].
  specialize (Hst "failed" FAILED eq_refl ltac:(discriminate) eq_refl).
  rewrite Ht. intros [= <-].
  repeat split; try reflexivity. exact Hst.
Qed.

Lemma apply_update_completed now t payload t' :
  apply_update now t (Some "completed") (Some 100) None (Some payload) None = Ok t' ->
  status t' = COMPLETED /\ progress t' = 100 /\ completed_at t' = Some now
  /\ (size payload <> 0%nat ->
      result t' = Some (payload ∪ default ∅ (result t))).
Proof.
  intros H. pose proof (apply_update_progress _ _ _ _ _ _ _ _ H) as Hp.
  revert H. unfold apply_update. unfold py.bind at 1.
  destruct (apply_status (Some "completed") t) as [t0|] eqn:Hs; [|discriminate].
  pose proof Hs as Hres. unfold apply_status in Hres. cbn in Hres. injection Hres as <-.
  intros [= <-]. destruct (Nat.eqb (size payload) 0) eqn:Hsz.
  - repeat split; try reflexivity. intros Hne. by apply Nat.eqb_eq in Hsz.
  - repeat split; reflexivity.
Qed.

Lemma error_msg_truthy exc :
  truthy_str (Some (class_name (exn_type exc) ++ ": " ++ exn_str exc)) = true.
Proof. destruct exc as [[] s]; reflexivity. Qed.

(** C3 (as amended).  When a stage raises, [on_failure] moves the row to
    [failed], stores ["<class>: <message>"] as the error message, stamps
    the completion time, and writes 0 into the progress column. *)
Theorem on_failure_marks_failed_and_zeroes_progress
    (db : table) (now : Z) (exc : exn) (tid : string) (t : AsyncTask) :
  db !! tid = Some t ->
  exists t',
    on_failure db now exc tid !! tid = Some t'
    /\ status t' = FAILED
    /\ error_message t' = Some (class_name (exn_type exc) ++ ": " ++ exn_str exc)
    /\ progress t' = 0
    /\ completed_at t' = Some now.
Proof.
  intros Hdb. unfold on_failure, update_task_status. rewrite Hdb.
  set (msg := class_name (exn_type exc) ++ ": " ++ exn_str exc).
  destruct (apply_update_valid now t (Some "failed") (Some 0) None None (Some msg))
    as [t' Ht']; [reflexivity|].
  rewrite Ht'. exists t'. rewrite lookup_insert_eq.
  destruct (apply_update_failed _ _ _ _ Ht' (error_msg_truthy exc))
    as (? & ? & ? & ?).
  done.
Qed.

Lemma on_failure_marks_failed_witness :
  exists t',
    on_failure sample_table 99 (mk_exn ValueError "boom") "t-1" !! "t-1" = Some t'
    /\ status t' = FAILED
    /\ error_message t' = Some "ValueError: boom"
    /\ progress t' = 0
    /\ completed_at t' = Some 99.
Proof.
  apply (on_failure_marks_failed_and_zeroes_progress
           sample_table 99 (mk_exn ValueError "boom") "t-1" sample_task).
  reflexivity.
Defined.

(** C3 (as stated) fails: a running task whose last recorded progress is
    60 ends with progress 0 after the failure callback. *)
Lemma on_failure_does_not_keep_progress :
  progress sample_task = 60
  /\ status sample_task = RUNNING
  /\ progress <$> (on_failure sample_table 99 (mk_exn ValueError "boom") "t-1" !! "t-1")
     = Some 0
  /\ progress <$> (on_failure sample_table 99 (mk_exn ValueError "boom") "t-1" !! "t-1")
     <> Some (progress sample_task).
Proof. vm_compute. repeat split; congruence. Qed.

(** X1.  On success the row is moved to [completed], its progress is forced
    to 100, the completion time is stamped, and a non-empty result dict is
    merged over the payload the row already had. *)
Theorem on_success_completes_with_full_progress
    (db : table) (now : Z) (members : list (string * pyval)) (tid : string)
    (t : AsyncTask) :
  db !! tid = Some t ->
  exists t',
    on_success db now (PDict members) tid !! tid = Some t'
    /\ status t' = COMPLETED
    /\ progress t' = 100
    /\ completed_at t' = Some now
    /\ (members <> [] ->
        result t' = Some (list_to_map members ∪ default ∅ (result t))).
Proof.
  intros Hdb. unfold on_success, update_task_status. rewrite Hdb.
  destruct (apply_update_valid now t (Some "completed") (Some 100) None
              (Some (list_to_map members)) None) as [t' Ht']; [reflexivity|].
  rewrite Ht'. exists t'. rewrite lookup_insert_eq.
  destruct (apply_update_completed _ _ _ _ Ht') as (? & ? & ? & Hres).
  repeat split; try done. intros Hne. apply Hres.
  destruct members as [|[k v] rest]; [done|]. cbn.
  intros Hsize. apply map_size_empty_iff in Hsize.
  by apply insert_non_empty in Hsize.
Qed.

Lemma on_success_completes_witness :
  exists t',
    on_success sample_table 120 (PDict [("success", PBool true)]) "t-1" !! "t-1" = Some t'
    /\ status t' = COMPLETED
    /\ progress t' = 100
    /\ completed_at t' = Some 120
    /\ ([("success", PBool true)] <> [] ->
        result t' = Some (list_to_map [("success", PBool true)]
                            ∪ default ∅ (result sample_task))).
Proof.
  apply (on_success_completes_with_full_progress sample_table 120
           [("success", PBool true)] "t-1" sample_task).
  reflexivity.
Defined.

(** C10.  Whatever integer [update_task_status] is given, the progress it
    stores is [min 100 (max 0 p)], and a table whose rows all have their
    progress within 0..100 keeps that property under every call. *)
Theorem update_task_status_clamps_progress
    (db : table) (now : Z) (tid : string) (status : option string)
    (progress : option Z) (msg : option string)
    (res : option (gmap string pyval)) (err : option string) :
  let db' := update_task_status db now tid status progress msg res err in
  (forall t p, db !! tid = Some t -> progress = Some p ->
     valid_status status = true ->
     exists t', db' !! tid = Some t'
                /\ db_models.progress t' = Z.min 100 (Z.max 0 p)
                /\ 0 <= db_models.progress t' <= 100)
  /\ (progress_in_range db -> progress_in_range db').
Proof.
  cbv zeta. unfold update_task_status. split.
  - intros t p Hdb -> Hv. rewrite Hdb.
    destruct (apply_update_valid now t status (Some p) msg res err Hv) as [t' Ht'].
    rewrite Ht'. exists t'. rewrite lookup_insert_eq.
    apply apply_update_progress in Ht'. rewrite Ht'. split; [done|lia].
  - intros Hinv. destruct (db !! tid) as [t|] eqn:Hdb; [|done].
    destruct (apply_update now t status progress msg res err) as [t'|] eqn:Ht'; [|done].
    apply map_Forall_insert_2; [|done].
    apply apply_update_progress in Ht'. rewrite Ht'.
    destruct progress; [lia|]. by apply (Hinv tid).
Qed.

Lemma update_task_status_clamps_progress_witness :
  (exists t', update_task_status sample_table 99 "t-1" (Some "running") (Some 250)
                (Some "step") None None !! "t-1" = Some t'
              /\ progress t' = 100 /\ 0 <= progress t' <= 100)
  /\ progress_in_range
       (update_task_status sample_table 99 "t-1" (Some "running") (Some (-5))
          None None None).
Proof.
  split.
  - apply (proj1 (update_task_status_clamps_progress sample_table 99 "t-1"
                    (Some "running") (Some 250) (Some "step") None None)
             sample_task 250); reflexivity.
  - apply (proj2 (update_task_status_clamps_progress sample_table 99 "t-1"
                    (Some "running") (Some (-5)) None None None)).
    unfold progress_in_range, sample_table.
    apply map_Forall_singleton. simpl. lia.
Defined.

End TaskRecord.

Section ProviderChat.
Import llm_base openai_llm.

Lemma backoff_log_last p k : backoff_log p k k = [Request k p].
Proof. unfold backoff_log. rewrite seqZ_nil by lia. reflexivity. Qed.

Lemma backoff_log_step p a k :
  (a < k)%Z ->
  backoff_log p a k = (Request a p :: Sleep (2 ^ a) :: backoff_log p (Z.succ a) k)%list.
Proof.
  intros Hak. unfold backoff_log. rewrite (seqZ_cons a) by lia. simpl.
  replace (Z.pred (k - a)) with (k - Z.succ a)%Z by lia. reflexivity.
Qed.

Lemma retry_loop_succeeds cfg create p r (d : nat) :
  forall a k last log,
    k = (a + Z.of_nat d)%Z -> (k < max_retries cfg)%Z ->
    (forall i, (a <= i < k)%Z -> fails (create i p)) ->
    create k p = Ok r ->
    retry_loop cfg create p (seqZ a (max_retries cfg - a)) last log
    = (inl (response_of cfg r), (log ++ backoff_log p a k)%list).
Proof.
  induction d as [|d IH]; intros a k last log Hk Hn Hfail Hok.
  - assert (k = a) as -> by lia.
    rewrite seqZ_cons by lia. simpl. rewrite Hok, backoff_log_last. reflexivity.
  - rewrite seqZ_cons by lia. simpl.
    specialize (Hfail a ltac:(lia)) as Ha. unfold fails in Ha.
    destruct (create a p) as [?|e]; [discriminate|].
    destruct (Z.ltb_spec a (max_retries cfg - 1)); [|lia].
    replace (Z.pred (max_retries cfg - a)) with (max_retries cfg - Z.succ a)%Z by lia.
    rewrite (IH (Z.succ a) k) by (try done; try lia; intros; apply Hfail; lia).
    rewrite (backoff_log_step p a k) by lia.
    rewrite <- !app_assoc. reflexivity.
Qed.

Lemma retry_loop_exhausted cfg create p e (d : nat) :
  forall a last log,
    (max_retries cfg - 1 = a + Z.of_nat d)%Z ->
    (forall i, (a <= i < max_retries cfg)%Z -> fails (create i p)) ->
    create (max_retries cfg - 1)%Z p = Raise e ->
    retry_loop cfg create p (seqZ a (max_retries cfg - a)) last log
    = (inr (Some e), (log ++ backoff_log p a (max_retries cfg - 1))%list).
Proof.
  induction d as [|d IH]; intros a last log Hn Hfail Hlast.
  - assert (a = max_retries cfg - 1)%Z as -> by lia.
    rewrite seqZ_cons by lia. simpl. rewrite Hlast.
    rewrite Z.ltb_irrefl, backoff_log_last. reflexivity.
  - rewrite seqZ_cons by lia. simpl.
    specialize (Hfail a ltac:(lia)) as Ha. unfold fails in Ha.
    destruct (create a p) as [?|e']; [discriminate|].
    destruct (Z.ltb_spec a (max_retries cfg - 1)); [|lia].
    replace (Z.pred (max_retries cfg - a)) with (max_retries cfg - Z.succ a)%Z by lia.
    rewrite (IH (Z.succ a)) by (try done; try lia; intros; apply Hfail; lia).
    rewrite (backoff_log_step p a (max_retries cfg - 1)) by lia.
    rewrite <- !app_assoc. reflexivity.
Qed.

(** C1 (as amended).  [max_retries] is the number of attempts.  If the
    attempts before the [k]-th fail and the [k]-th (counted from 0, with
    [k < max_retries]) succeeds, [chat] returns that response and has slept
    [2^i] seconds after each failed attempt [i].  If all [max_retries]
    attempts fail, [chat] raises [Exception] with the last error in its
    message, after [max_retries] requests and a sleep of [2^i] seconds
    after each failed attempt but the last. *)
Theorem chat_retries_with_exponential_backoff
    (cfg : LLMConfig) (create : Z -> params -> py.result completion)
    (messages : list LLMMessage) (temperature : option float)
    (max_tokens : option Z) (json_mode : bool) (kwargs : list (string * pyval)) :
  let p := build_params cfg messages temperature max_tokens json_mode kwargs in
  let run := chat cfg create messages temperature max_tokens json_mode kwargs in
  (forall k r, (0 <= k < max_retries cfg)%Z ->
     (forall i, (0 <= i < k)%Z -> fails (create i p)) ->
     create k p = Ok r ->
     run = (Ok (response_of cfg r), backoff_log p 0 k))
  /\ (forall e, (0 < max_retries cfg)%Z ->
        (forall i, (0 <= i < max_retries cfg)%Z -> fails (create i p)) ->
        create (max_retries cfg - 1)%Z p = Raise e ->
        run = (Raise (mk_exn Exception
                        ("OpenAI API call failed after " ++ pretty (max_retries cfg)
                         ++ " retries: " ++ exn_str e)),
               backoff_log p 0 (max_retries cfg - 1))).
Proof.
  cbv zeta. unfold chat. split.
  - intros k r Hk Hfail Hok.
    replace (max_retries cfg) with (max_retries cfg - 0)%Z at 1 by lia.
    rewrite (retry_loop_succeeds cfg create _ r (Z.to_nat k) 0 k) by (try done; lia).
    reflexivity.
  - intros e Hn Hfail Hlast.
    replace (max_retries cfg) with (max_retries cfg - 0)%Z at 1 by lia.
    rewrite (retry_loop_exhausted cfg create _ e (Z.to_nat (max_retries cfg - 1)) 0)
      by (try done; lia).
    reflexivity.
Qed.

Lemma chat_three_attempts_witness :
  let p := build_params (config_with_retries 3) hello None None false [] in
  chat (config_with_retries 3) fails_twice hello None None false []
  = (Ok (response_of (config_with_retries 3) third_answer),
     [Request 0 p; Sleep 1; Request 1 p; Sleep 2; Request 2 p]).
Proof.
  cbv zeta.
  refine (proj1 (chat_retries_with_exponential_backoff
                   (config_with_retries 3) fails_twice hello None None false [])
            2%Z third_answer _ _ _).
  - simpl. lia.
  - intros i Hi. unfold fails, fails_twice.
    destruct (Z.ltb_spec i 2); [reflexivity | lia].
  - reflexivity.
Defined.

(** C1 (as stated) fails: with [max_retries = 2] the two failures use up
    the loop; the third request, which would succeed, is never made and the
    error is raised. *)
Lemma chat_two_retries_makes_no_third_attempt :
  let p := build_params (config_with_retries 2) hello None None false [] in
  fails_twice 2 p = Ok third_answer
  /\ chat (config_with_retries 2) fails_twice hello None None false []
     = (Raise (mk_exn Exception
                 "OpenAI API call failed after 2 retries: timed out"),
        [Request 0 p; Sleep 1; Request 1 p]).
Proof. cbv zeta. split; vm_compute; reflexivity. Qed.

(** The retry loop never reads the cost ceiling. *)
Lemma retry_loop_ignores_ceiling ceiling cfg create p attempts :
  forall last log,
    retry_loop (with_ceiling ceiling cfg) create p attempts last log
    = retry_loop cfg create p attempts last log.
Proof.
  induction attempts as [|a rest IH]; intros last log; simpl; [reflexivity|].
  destruct (create a p); [reflexivity|].
  rewrite IH. reflexivity.
Qed.

(** X2.  [chat] does the same whatever [max_cost_per_request] is. *)
Lemma chat_ignores_ceiling ceiling cfg create messages temperature max_tokens json_mode kwargs :
  chat (with_ceiling ceiling cfg) create messages temperature max_tokens json_mode kwargs
  = chat cfg create messages temperature max_tokens json_mode kwargs.
Proof.
  unfold chat. simpl. unfold build_params. simpl.
  rewrite retry_loop_ignores_ceiling. reflexivity.
Qed.

(** C2 (the code at the failing input).  The ceiling is 0.001 dollars, the
    request costs 0.01 dollars by the provider's own table, the validator
    rejects that cost, and [chat] still sends the request and returns its
    response. *)
Theorem chat_dispatches_over_the_cost_ceiling :
  exists resp c,
    chat capped_config thousand_tokens hello None None false []
    = (Ok resp, [Request 0 (build_params capped_config hello None None false [])])
    /\ cost resp = Some c
    /\ _validate_budget capped_config c = false.
Proof.
  eexists. eexists. split; [vm_compute; reflexivity|].
  split; [reflexivity|]. vm_compute. reflexivity.
Qed.

End ProviderChat.

Section Intent.
Import models research_intent.

Lemma truthy_int_nonzero (n : Z) : n <> 0%Z -> truthy_int (Some n) = true.
Proof. intros Hn. unfold truthy_int. destruct (Z.eqb_spec n 0); [done|reflexivity]. Qed.

(** C6 (as amended).  When both years are given and are not zero, a start
    year above the end year makes [create_research_intent] raise
    [ValueError]; and every intent it returns has its start year at or
    below its end year whenever both are present and not zero. *)
Theorem create_research_intent_checks_year_range
    (keywords : string) (ys ye : Z) (journal_level paper_type field : string) :
  ys <> 0%Z -> ye <> 0%Z ->
  ((ys > ye)%Z ->
     exists msg,
       create_research_intent keywords (Some ys) (Some ye)
         journal_level paper_type field = Raise (mk_exn ValueError msg))
  /\ (forall intent,
        create_research_intent keywords (Some ys) (Some ye)
          journal_level paper_type field = Ok intent ->
        year_start intent = Some ys /\ year_end intent = Some ye /\ (ys <= ye)%Z).
Proof.
  intros Hs He. unfold create_research_intent.
  rewrite (truthy_int_nonzero ys Hs), (truthy_int_nonzero ye He).
  destruct (negb _ || negb _)%bool.
  { split; [eauto | discriminate]. }
  destruct (convert_enums journal_level paper_type field) as [[[j p] f]|e];
    cbn [py.bind].
  2: { split; [eauto | discriminate]. }
  cbn [andb]. destruct (Z.ltb_spec ye ys).
  - split; [eauto | discriminate].
  - split; [lia|]. intros intent [= <-]. cbn. repeat split; lia.
Qed.

Lemma create_research_intent_year_range_witness :
  ((2023 > 2022)%Z ->
     exists msg,
       create_research_intent "graph neural networks" (Some 2023%Z) (Some 2022%Z)
         "any" "any" "any" = Raise (mk_exn ValueError msg))
  /\ (forall intent,
        create_research_intent "graph neural networks" (Some 2023%Z) (Some 2022%Z)
          "any" "any" "any" = Ok intent ->
        year_start intent = Some 2023%Z /\ year_end intent = Some 2022%Z
        /\ (2023 <= 2022)%Z).
Proof.
  apply (create_research_intent_checks_year_range
           "graph neural networks" 2023 2022 "any" "any" "any"); lia.
Defined.

(** C6 (as stated) fails.  The range check reads the years by truthiness,
    so an end year of 0 is taken as absent and the intent is built with a
    start year above its end year; and the dataclass constructor, which the
    discovery task calls directly, checks nothing. *)
Lemma intent_with_start_year_above_end_year :
  create_research_intent "graph neural networks" (Some 2023%Z) (Some 0%Z)
    "any" "any" "any"
  = Ok (mk_intent "graph neural networks" (Some 2023%Z) (Some 0%Z)
          JL_ANY PT_ANY RF_ANY)
  /\ (2023 > 0)%Z
  /\ year_start (mk_intent "graph neural networks" (Some 2024%Z) (Some 2020%Z)
                   JL_ANY PT_ANY RF_ANY) = Some 2024%Z
  /\ year_end (mk_intent "graph neural networks" (Some 2024%Z) (Some 2020%Z)
                 JL_ANY PT_ANY RF_ANY) = Some 2020%Z.
Proof. repeat split; try reflexivity. Qed.

End Intent.

Section TitleNormalization.
Import pystr multi_source_search.

Lemma lower_char_idempotent c : lower_fixed (lower_char c) = true.
Proof. destruct c as [[] [] [] [] [] [] [] []]; reflexivity. Qed.

Section Preservation.

Variable P : ascii -> bool.

Lemma all_chars_remove s : all_chars P s = true -> all_chars P (remove_non_word s) = true.
Proof.
  induction s as [|c s IH]; [done|]. cbn. intros [Hc Hs]%andb_prop.
  destruct (is_word c || is_space c); cbn; [rewrite Hc|]; auto.
Qed.

Lemma all_chars_collapse s :
  P " "%char = true ->
  forall b, all_chars P s = true -> all_chars P (collapse_from b s) = true.
Proof.
  intros Hsp. induction s as [|c s IH]; [done|]. cbn. intros b [Hc Hs]%andb_prop.
  destruct (is_space c); [destruct b|]; cbn; rewrite ?Hsp, ?Hc; apply IH, Hs.
Qed.

Lemma all_chars_lstrip s : all_chars P s = true -> all_chars P (lstrip s) = true.
Proof.
  induction s as [|c s IH]; [done|]. cbn. intros H.
  destruct (is_space c); [|exact H]. apply andb_prop in H as [_ Hs]. auto.
Qed.

Lemma all_chars_rstrip s : all_chars P s = true -> all_chars P (rstrip s) = true.
Proof.
  induction s as [|c s IH]; [done|]. cbn. intros [Hc Hs]%andb_prop.
  specialize (IH Hs). destruct (rstrip s) as [|d r].
  - destruct (is_space c); cbn; [done|]. rewrite Hc. done.
  - cbn in *. rewrite Hc. exact IH.
Qed.

End Preservation.

Lemma all_kept_remove s : all_chars kept (remove_non_word s) = true.
Proof.
  induction s as [|c s IH]; [done|]. cbn.
  destruct (is_word c || is_space c) eqn:Hc; [|exact IH].
  cbn. unfold kept at 1. rewrite Hc. exact IH.
Qed.

Lemma all_lower_fixed_lower s : all_chars lower_fixed (lower s) = true.
Proof.
  induction s as [|c s IH]; [done|]. cbn. rewrite lower_char_idempotent. exact IH.
Qed.

Lemma remove_kept s : all_chars kept s = true -> remove_non_word s = s.
Proof.
  induction s as [|c s IH]; [done|]. cbn. intros [Hc Hs]%andb_prop.
  unfold kept in Hc. rewrite Hc, IH; done.
Qed.

Lemma lower_fixed_id s : all_chars lower_fixed s = true -> lower s = s.
Proof.
  induction s as [|c s IH]; [done|]. cbn. intros [Hc Hs]%andb_prop.
  apply Ascii.eqb_eq in Hc. rewrite Hc, IH; done.
Qed.

Lemma collapse_true_starts s : starts_with_space (collapse_from true s) = false.
Proof.
  induction s as [|c s IH]; [done|]. cbn.
  destruct (is_space c) eqn:Hc; [exact IH|]. cbn. exact Hc.
Qed.

Lemma collapsed_collapse s : forall b, collapsed (collapse_from b s) = true.
Proof.
  induction s as [|c s IH]; [done|]. intros b. cbn.
  destruct (is_space c) eqn:Hc.
  - destruct b; [apply IH|]. cbn -[is_space].
    change (is_space " ") with true. cbn.
    rewrite collapse_true_starts. cbn. apply IH.
  - cbn. rewrite Hc. apply IH.
Qed.

Lemma collapse_collapsed s :
  collapsed s = true ->
  collapse_from false s = s
  /\ (starts_with_space s = false -> collapse_from true s = s).
Proof.
  induction s as [|c s IH]; [done|]. cbn. intros [Hc Hs]%andb_prop.
  destruct (IH Hs) as [IH1 IH2]. destruct (is_space c) eqn:Hsp.
  - apply andb_prop in Hc as [Heq Hst]. apply Ascii.eqb_eq in Heq.
    apply negb_true_iff in Hst. rewrite (IH2 Hst). subst c. split; [done|discriminate].
  - rewrite IH1. done.
Qed.

Lemma collapsed_lstrip s : collapsed s = true -> collapsed (lstrip s) = true.
Proof.
  induction s as [|c s IH]; [done|]. intros H. cbn.
  destruct (is_space c); [|exact H]. cbn in H. apply andb_prop in H as [_ Hs]. auto.
Qed.

Lemma rstrip_starts s : starts_with_space (rstrip s) = true -> starts_with_space s = true.
Proof.
  destruct s as [|c s]; [done|]. cbn. destruct (rstrip s); [|done].
  destruct (is_space c) eqn:Hc; cbn; [done | rewrite Hc; done].
Qed.

Lemma collapsed_rstrip s : collapsed s = true -> collapsed (rstrip s) = true.
Proof.
  induction s as [|c s IH]; [done|]. cbn. intros [Hc Hs]%andb_prop.
  specialize (IH Hs). destruct (rstrip s) as [|d r] eqn:Hr.
  - destruct (is_space c) eqn:Hsp; [done|]. cbn. rewrite Hsp. done.
  - cbn -[collapsed]. change (collapsed (String c (String d r)))
      with ((if is_space c then Ascii.eqb c " " && negb (is_space d) else true)
            && collapsed (String d r)).
    rewrite IH, andb_true_r. destruct (is_space c); [|done].
    apply andb_prop in Hc as [-> Hst]. cbn.
    destruct (is_space d) eqn:Hd; [|done].
    assert (starts_with_space (rstrip s) = true) as Hx by (rewrite Hr; exact Hd).
    apply rstrip_starts in Hx. rewrite Hx in Hst. discriminate.
Qed.

Lemma lstrip_starts s : starts_with_space (lstrip s) = false.
Proof.
  induction s as [|c s IH]; [done|]. cbn.
  destruct (is_space c) eqn:Hc; [exact IH|]. cbn. exact Hc.
Qed.

Lemma lstrip_id s : starts_with_space s = false -> lstrip s = s.
Proof. destruct s as [|c s]; [done|]. cbn. intros ->. done. Qed.

Lemma rstrip_idempotent s : rstrip (rstrip s) = rstrip s.
Proof.
  induction s as [|c s IH]; [done|]. cbn.
  destruct (rstrip s) as [|d r] eqn:Hr.
  - destruct (is_space c) eqn:Hc; [done|]. cbn. rewrite Hc. done.
  - cbn -[rstrip]. change (rstrip (String c (String d r)))
      with (match rstrip (String d r) with
            | EmptyString => if is_space c then EmptyString else String c EmptyString
            | x => String c x
            end).
    rewrite IH. done.
Qed.

Lemma strip_idempotent s : strip (strip s) = strip s.
Proof.
  unfold strip. rewrite (lstrip_id (rstrip (lstrip s))).
  - apply rstrip_idempotent.
  - destruct (starts_with_space (rstrip (lstrip s))) eqn:H; [|done].
    apply rstrip_starts in H. rewrite lstrip_starts in H. discriminate.
Qed.

(** C8.  Normalising a normalised title changes nothing. *)
Theorem normalize_title_idempotent (t : string) :
  normalize_title (normalize_title t) = normalize_title t.
Proof.
  unfold normalize_title at 1.
  assert (all_chars lower_fixed (normalize_title t) = true) as Hlow.
  { unfold normalize_title, strip, collapse_spaces.
    apply all_chars_rstrip, all_chars_lstrip, all_chars_collapse; [done|].
    apply all_chars_remove, all_lower_fixed_lower. }
  assert (all_chars kept (normalize_title t) = true) as Hkept.
  { unfold normalize_title, strip, collapse_spaces.
    apply all_chars_rstrip, all_chars_lstrip, all_chars_collapse; [done|].
    apply all_kept_remove. }
  assert (collapsed (normalize_title t) = true) as Hcol.
  { unfold normalize_title, strip, collapse_spaces.
    apply collapsed_rstrip, collapsed_lstrip, collapsed_collapse. }
  rewrite (lower_fixed_id _ Hlow), (remove_kept _ Hkept).
  unfold collapse_spaces. rewrite (proj1 (collapse_collapsed _ Hcol)).
  unfold normalize_title. apply strip_idempotent.
Qed.

Example normalize_title_sample :
  normalize_title "  Graph-Neural   Networks: A Survey! " = "graphneural networks a survey".
Proof. vm_compute. reflexivity. Qed.

End TitleNormalization.

Section FloatOrder.

Lemma key_lt_irrefl a : ~ key_lt a a.
Proof. unfold key_lt. lia. Qed.

Lemma key_eq a b : k1 a = k1 b -> k2 a = k2 b -> k3 a = k3 b -> a = b.
Proof. destruct a as [[??]?], b as [[??]?]. unfold k1, k2, k3. cbn. congruence. Qed.

Lemma key_trichotomy a b : key_lt a b \/ a = b \/ key_lt b a.
Proof.
  destruct (Z.lt_total (k1 a) (k1 b)) as [?|[?|?]];
    destruct (Z.lt_total (k2 a) (k2 b)) as [?|[?|?]];
    destruct (Z.lt_total (k3 a) (k3 b)) as [?|[?|?]];
    unfold key_lt; try (left; lia); try (right; right; lia).
  right; left. by apply key_eq.
Qed.

Lemma key_ge_trans a b c : ~ key_lt a b -> ~ key_lt b c -> ~ key_lt a c.
Proof. unfold key_lt. lia. Qed.

Lemma SFcompare_key x y :
  x <> S754_nan -> y <> S754_nan ->
  match SFcompare x y with
  | Some Lt => key_lt (sf_key x) (sf_key y)
  | Some Eq => sf_key x = sf_key y
  | Some Gt => key_lt (sf_key y) (sf_key x)
  | None => False
  end.
Proof.
  intros Hx Hy.
  destruct x as [[]|[]| |[] mx ex], y as [[]|[]| |[] my ey]; try congruence; cbn;
    try reflexivity; try (unfold key_lt, k1, k2, k3; cbn; lia).
  all: destruct (Z.compare_spec ex ey); cbn; try (unfold key_lt, k1, k2, k3; cbn; lia).
  all: change (Pos.compare_cont Eq mx my) with (Pos.compare mx my);
    destruct (Pos.compare_spec mx my); cbn; subst; try reflexivity;
    unfold key_lt, k1, k2, k3; cbn; lia.
Qed.

Lemma Prim2SF_not_nan x : is_nan x = false -> Prim2SF x <> S754_nan.
Proof.
  intros H. unfold Prim2SF. rewrite H. repeat case_match; discriminate.
Qed.

Lemma ltb_key x y :
  is_nan x = false -> is_nan y = false ->
  PrimFloat.ltb x y = true <-> key_lt (fkey x) (fkey y).
Proof.
  intros Hx%Prim2SF_not_nan Hy%Prim2SF_not_nan. rewrite FloatAxioms.ltb_spec. unfold SFltb, fkey.
  pose proof (SFcompare_key _ _ Hx Hy) as H.
  destruct (SFcompare (Prim2SF x) (Prim2SF y)) as [[]|]; try done.
  - rewrite H. split; [done|]. intros ?%key_lt_irrefl. done.
  - split; [done|]. intros H'. exfalso. revert H H'. unfold key_lt. lia.
Qed.

Lemma leb_key x y :
  is_nan x = false -> is_nan y = false ->
  PrimFloat.leb x y = true <-> ~ key_lt (fkey y) (fkey x).
Proof.
  intros Hx%Prim2SF_not_nan Hy%Prim2SF_not_nan. rewrite FloatAxioms.leb_spec. unfold SFleb, fkey.
  pose proof (SFcompare_key _ _ Hx Hy) as H.
  destruct (SFcompare (Prim2SF x) (Prim2SF y)) as [[]|]; try done.
  - rewrite H. split; [|done]. intros _. apply key_lt_irrefl.
  - split; [|done]. intros _. revert H. unfold key_lt. lia.
Qed.

Lemma eqb_key x y :
  PrimFloat.eqb x y = true ->
  is_nan x = false /\ is_nan y = false /\ fkey x = fkey y.
Proof.
  rewrite FloatAxioms.eqb_spec. unfold SFeqb, fkey. intros H.
  assert (Prim2SF x <> S754_nan /\ Prim2SF y <> S754_nan) as [Hx Hy].
  { split; intros E; rewrite E in H; [|destruct (Prim2SF x)]; discriminate. }
  assert (forall z, Prim2SF z <> S754_nan -> is_nan z = false) as Hnan.
  { intros z Hz. unfold is_nan. rewrite FloatAxioms.eqb_spec. unfold SFeqb.
    pose proof (SFcompare_key _ _ Hz Hz) as Hc.
    destruct (SFcompare (Prim2SF z) (Prim2SF z)) as [[]|]; try done;
      by apply key_lt_irrefl in Hc. }
  pose proof (SFcompare_key _ _ Hx Hy) as Hc.
  destruct (SFcompare (Prim2SF x) (Prim2SF y)) as [[]|]; try done.
  auto.
Qed.

End FloatOrder.

Section SortedReverse.
Import builtins.
Context {A : Type} (key : A -> float).

Lemma insert_desc_perm x l : Permutation (insert_desc key x l) (x :: l).
Proof.
  induction l as [|y l IH]; cbn; [done|].
  destruct (PrimFloat.ltb (key x) (key y)); [|done].
  rewrite IH. apply perm_swap.
Qed.

Lemma sorted_reverse_perm l : Permutation (sorted_reverse key l) l.
Proof.
  induction l as [|x l IH]; [done|].
  change (sorted_reverse key (x :: l)) with (insert_desc key x (sorted_reverse key l)).
  rewrite insert_desc_perm. by apply perm_skip.
Qed.

Lemma insert_desc_sorted x l :
  (comparable key) x -> Forall (comparable key) l ->
  StronglySorted (desc key) l -> StronglySorted (desc key) (insert_desc key x l).
Proof.
  intros Hx. induction l as [|y l IH]; intros Hl Hs; cbn.
  - repeat constructor.
  - apply Forall_cons_1 in Hl as [Hy Hl].
    apply StronglySorted_inv in Hs as [Hs Hall].
    destruct (PrimFloat.ltb (key x) (key y)) eqn:Hlt.
    + constructor; [by apply IH|].
      rewrite insert_desc_perm. constructor; [|done].
      unfold desc. apply leb_key; [done..|].
      apply (ltb_key _ _ Hx Hy) in Hlt. revert Hlt. unfold key_lt. lia.
    + assert (~ key_lt (fkey (key x)) (fkey (key y))) as Hxy.
      { intros H%(ltb_key _ _ Hx Hy). congruence. }
      constructor; [by constructor|]. constructor.
      * unfold desc. by apply leb_key.
      * rewrite Forall_forall in Hall, Hl |- *. intros z Hz. unfold desc.
        apply leb_key; [by apply Hl|done|].
        specialize (Hall z Hz). unfold desc in Hall.
        apply leb_key in Hall; [|by apply Hl|done].
        by apply (key_ge_trans _ (fkey (key y))).
Qed.

Lemma sorted_reverse_sorted l :
  Forall (comparable key) l -> StronglySorted (desc key) (sorted_reverse key l).
Proof.
  induction l as [|x l IH]; intros Hl; [constructor|].
  apply Forall_cons_1 in Hl as [Hx Hl].
  change (sorted_reverse key (x :: l)) with (insert_desc key x (sorted_reverse key l)).
  apply insert_desc_sorted; [done| |by apply IH].
  by rewrite sorted_reverse_perm.
Qed.

(** Inserting [x] does not move it behind an element with the same key. *)
Lemma insert_desc_filter v x l :
  List.filter (fun a => PrimFloat.eqb (key a) v) (insert_desc key x l)
  = List.filter (fun a => PrimFloat.eqb (key a) v) (x :: l).
Proof.
  induction l as [|y l IH]; [done|]. cbn [insert_desc].
  destruct (PrimFloat.ltb (key x) (key y)) eqn:Hlt; [|done].
  cbn [List.filter] in *. rewrite IH.
  destruct (PrimFloat.eqb (key x) v) eqn:Hx; [|done].
  destruct (PrimFloat.eqb (key y) v) eqn:Hy; [|done].
  exfalso. apply eqb_key in Hx as (Hnx & _ & Hkx). apply eqb_key in Hy as (Hny & _ & Hky).
  apply (ltb_key _ _ Hnx Hny) in Hlt. rewrite Hkx, Hky in Hlt.
  by apply key_lt_irrefl in Hlt.
Qed.

Lemma sorted_reverse_stable v l :
  List.filter (fun a => PrimFloat.eqb (key a) v) (sorted_reverse key l)
  = List.filter (fun a => PrimFloat.eqb (key a) v) l.
Proof.
  induction l as [|x l IH]; [done|].
  change (sorted_reverse key (x :: l)) with (insert_desc key x (sorted_reverse key l)).
  rewrite insert_desc_filter. cbn [List.filter]. rewrite IH. done.
Qed.

End SortedReverse.

Section IdeaRanking.
Import models idea_generation.

(** C7.  For ideas whose composite scores are numbers (not NaN),
    [rank_ideas] returns the same ideas, in descending order of
    [0.6 * novelty_score + 0.4 * feasibility_score], and for every score
    value the ideas with that score come out in their input order. *)
Theorem rank_ideas_descending_and_stable (ideas : list ResearchIdea) :
  Forall (fun idea => is_nan (score idea) = false) ideas ->
  Permutation (rank_ideas ideas) ideas
  /\ StronglySorted
       (fun a b => PrimFloat.leb (score b) (score a) = true) (rank_ideas ideas)
  /\ (forall v : float,
        List.filter (fun idea => PrimFloat.eqb (score idea) v) (rank_ideas ideas)
        = List.filter (fun idea => PrimFloat.eqb (score idea) v) ideas).
Proof.
  intros Hnan. unfold rank_ideas. split; [apply sorted_reverse_perm|].
  split; [by apply sorted_reverse_sorted|].
  intros v. apply sorted_reverse_stable.
Qed.

Example rank_three_ideas :
  map idea_id (rank_ideas three_ideas) = ["b"; "a"; "c"].
Proof. vm_compute. reflexivity. Qed.

Lemma rank_ideas_descending_and_stable_witness :
  Permutation (rank_ideas three_ideas) three_ideas
  /\ StronglySorted
       (fun a b => PrimFloat.leb (score b) (score a) = true) (rank_ideas three_ideas)
  /\ (forall v : float,
        List.filter (fun idea => PrimFloat.eqb (score idea) v) (rank_ideas three_ideas)
        = List.filter (fun idea => PrimFloat.eqb (score idea) v) three_ideas).
Proof.
  apply (rank_ideas_descending_and_stable three_ideas).
  repeat constructor.
Defined.

End IdeaRanking.

Section Fusion.
Import models multi_source_search.

Lemma truthy_str_nonempty s : truthy_str (Some s) = true <-> s <> "".
Proof. destruct s; cbn; split; congruence. Qed.

Lemma first_with_id_app_l aid l x p :
  first_with_id aid l = Some p -> first_with_id aid (l ++ [x]) = Some p.
Proof.
  unfold first_with_id. rewrite map_app.
  induction (map snd l) as [|q qs IH]; cbn; [discriminate|].
  destruct (has_id aid q); auto.
Qed.

Lemma first_with_id_elem aid l p :
  first_with_id aid l = Some p -> p ∈ map snd l /\ arxiv_id p = Some aid.
Proof.
  unfold first_with_id. intros H. apply find_some in H as [Hin Hid].
  split; [by apply list_elem_of_In|]. unfold has_id in Hid. by apply bool_decide_eq_true in Hid.
Qed.

Lemma first_with_id_new aid l src paper :
  (forall q, q ∈ map snd l -> arxiv_id q <> Some aid) ->
  arxiv_id paper = Some aid ->
  first_with_id aid (l ++ [(src, paper)]) = Some paper.
Proof.
  unfold first_with_id. rewrite map_app. intros Hnone Hid.
  induction (map snd l) as [|q qs IH]; cbn.
  - unfold has_id. rewrite bool_decide_eq_true_2; done.
  - unfold has_id at 1. rewrite bool_decide_eq_false_2.
    + apply IH. intros q' Hq'. apply Hnone. by right.
    + apply Hnone. by left.
Qed.

Lemma filter_length_le {B} (f g : B -> bool) (l : list B) :
  (length (List.filter f (List.filter g l)) <= length (List.filter f l))%nat.
Proof.
  induction l as [|x l IH]; cbn; [lia|].
  destruct (g x), (f x) eqn:Hf; cbn; rewrite ?Hf; cbn; lia.
Qed.

(** What [check_title] can do to the list: leave it, or append the paper to
    a sublist of it. *)
Lemma check_title_cases seen st src paper :
  seen_arxiv_ids (check_title seen st src paper) = seen
  /\ (unique_papers (check_title seen st src paper) = unique_papers st
      \/ exists g, unique_papers (check_title seen st src paper)
                   = (List.filter g (unique_papers st) ++ [paper])%list).
Proof.
  unfold check_title.
  destruct (seen_titles st !! normalize_title (title paper)) as [[es ep]|].
  - destruct (source_priority es <? source_priority src)%Z; cbn; eauto.
  - cbn. split; [done|]. right. exists (fun _ => true).
    f_equal. induction (unique_papers st) as [|x l IH]; cbn; congruence.
Qed.

Lemma filter_none {B} (f : B -> bool) (l : list B) :
  (forall x, x ∈ l -> f x = false) -> List.filter f l = [].
Proof.
  induction l as [|x l IH]; intros H; cbn; [done|].
  rewrite (H x) by by left. apply IH. intros y Hy. apply H. by right.
Qed.

Lemma filter_elem {B} (g : B -> bool) (l : list B) x :
  x ∈ List.filter g l -> x ∈ l.
Proof. rewrite !list_elem_of_In, filter_In. tauto. Qed.

Lemma check_title_inv seen st l src paper :
  dedup_inv st l ->
  seen_arxiv_ids st ⊆ seen ->
  (forall aid, arxiv_id paper = Some aid -> aid <> "" ->
     aid ∈ seen /\ aid ∉ seen_arxiv_ids st) ->
  dedup_inv (check_title seen st src paper) (l ++ [(src, paper)]).
Proof.
  intros [Hfirst Honce Hseen] Hsub Hnew.
  destruct (check_title_cases seen st src paper) as [Hs Hu].
  assert (forall aid, aid <> "" -> arxiv_id paper = Some aid ->
            forall q, q ∈ map snd l -> arxiv_id q <> Some aid) as Hfresh.
  { intros aid Hne Hid q Hq Hqid. destruct (Hnew aid Hid Hne) as [_ Hout].
    apply Hout. by apply (Hseen q). }
  split.
  - intros p aid Hp Hid Hne. destruct Hu as [Hu|[g Hu]]; rewrite Hu in Hp.
    + by apply first_with_id_app_l, Hfirst.
    + apply elem_of_app in Hp as [Hp|Hp].
      * apply first_with_id_app_l, Hfirst; [by eapply filter_elem|done..].
      * apply list_elem_of_singleton in Hp as ->. by apply first_with_id_new; [apply Hfresh|].
  - intros aid Hne. destruct Hu as [Hu|[g Hu]]; rewrite Hu; [by apply Honce|].
    rewrite List.filter_app, length_app. cbn.
    destruct (has_id aid paper) eqn:Hid; cbn.
    + apply bool_decide_eq_true in Hid.
      assert (List.filter (has_id aid) (List.filter g (unique_papers st)) = []) as ->; [|cbn; lia].
      apply filter_none. intros p Hp%filter_elem.
      destruct (has_id aid p) eqn:Hpid; [|done]. exfalso.
      apply bool_decide_eq_true in Hpid.
      destruct (first_with_id_elem aid l p (Hfirst p aid Hp Hpid Hne)) as [Hin _].
      by apply (Hfresh aid Hne Hid p Hin).
    + pose proof (filter_length_le (has_id aid) g (unique_papers st)).
      specialize (Honce aid Hne). lia.
  - intros q aid Hq Hid Hne. rewrite Hs. rewrite map_app in Hq.
    apply elem_of_app in Hq as [Hq|Hq].
    + apply Hsub. by apply (Hseen q).
    + apply list_elem_of_singleton in Hq as ->. by apply Hnew.
Qed.

Lemma dedup_step_inv st l sp :
  dedup_inv st l -> dedup_inv (dedup_step st sp) (l ++ [sp]).
Proof.
  intros Hinv. destruct sp as [src paper]. unfold dedup_step.
  destruct (arxiv_id paper) as [aid|] eqn:Hid.
  - destruct (truthy_str (Some aid)) eqn:Htr.
    + case_bool_decide as Hin.
      * destruct Hinv as [Hfirst Honce Hseen]. split; [|done|].
        -- intros p a Hp Hpa Hne. by apply first_with_id_app_l, Hfirst.
        -- intros q a Hq Hqa Hne. rewrite map_app in Hq.
           apply elem_of_app in Hq as [Hq|Hq]; [by apply (Hseen q)|].
           apply list_elem_of_singleton in Hq as ->. cbn in Hqa. congruence.
      * apply check_title_inv; [done|set_solver|].
        intros a Ha Hne. assert (a = aid) as -> by congruence. set_solver.
    + apply check_title_inv; [done..|].
      intros a Ha Hne. assert (a = aid) as -> by congruence.
      apply truthy_str_nonempty in Hne. congruence.
  - apply check_title_inv; [done..|]. intros a Ha. congruence.
Qed.

Lemma fold_dedup_inv l' : forall st l,
  dedup_inv st l -> dedup_inv (fold_left dedup_step l' st) (l ++ l').
Proof.
  induction l' as [|sp l' IH]; intros st l Hinv; cbn.
  - by rewrite app_nil_r.
  - replace (l ++ sp :: l')%list with ((l ++ [sp]) ++ l')%list
      by (rewrite <- app_assoc; done).
    apply IH. by apply dedup_step_inv.
Qed.

Lemma dedup_inv_init : dedup_inv (mk_state ∅ ∅ []) [].
Proof.
  split; cbn.
  - intros p aid Hp. by apply elem_of_nil in Hp.
  - intros; lia.
  - intros q aid Hq. by apply elem_of_nil in Hq.
Qed.

Lemma all_papers_by_priority results :
  by_priority results -> StronglySorted pair_desc (all_papers results).
Proof.
  unfold by_priority, all_papers. induction 1 as [|[src papers] rest Hs IH Hall]; cbn.
  - constructor.
  - apply StronglySorted_app_2; [| |done].
    + intros [s1 q1] [s2 q2] H1 H2.
      apply list_elem_of_fmap in H1 as (x & [= -> ->] & _).
      apply list_elem_of_In in H2. apply in_flat_map in H2 as [[s3 ps] [Hin3 Hin2]].
      apply in_map_iff in Hin2 as (y & Hy & _). cbn in Hy. injection Hy as <- <-.
      rewrite Forall_forall in Hall. unfold pair_desc. cbn.
      apply (Hall (s3, ps)). by apply list_elem_of_In.
    + clear Hall. induction papers as [|q qs IHq]; cbn; constructor; [done|].
      apply Forall_forall. intros [s' q'] Hin.
      apply list_elem_of_fmap in Hin as (x & [= -> ->] & _). unfold pair_desc. cbn. lia.
Qed.

Lemma first_with_id_source aid l p :
  first_with_id aid l = Some p ->
  exists src, List.find (fun sp => has_id aid (snd sp)) l = Some (src, p).
Proof.
  unfold first_with_id. induction l as [|[s q] l IH]; cbn; [discriminate|].
  destruct (has_id aid q); [intros [= ->]; eauto | exact IH].
Qed.

Lemma find_by_priority (f : string * PaperMetadata -> bool) l x :
  StronglySorted pair_desc l -> List.find f l = Some x ->
  forall y, y ∈ l -> f y = true -> pair_desc x y.
Proof.
  induction 1 as [|a l Hs IH Hall]; cbn; [discriminate|].
  destruct (f a) eqn:Hfa.
  - intros [= <-] y Hy _. apply elem_of_cons in Hy as [->|Hy].
    + unfold pair_desc. lia.
    + rewrite Forall_forall in Hall. by apply Hall.
  - intros Hx y Hy Hfy. apply elem_of_cons in Hy as [->|Hy]; [congruence|].
    by apply IH.
Qed.

(** C4 (as amended).  For every arXiv id (a non-empty string) the fused
    list holds at most one record with that id, and a record with that id
    that is in the list is the first record with the id in the order of
    traversal.  When the mapping lists its sources by descending priority,
    that record comes from a source whose priority is the highest among
    the sources that returned the id. *)
Theorem merge_keeps_first_record_per_arxiv_id
    (multi_source_results : list (string * list PaperMetadata)) (aid : string) :
  aid <> "" ->
  (length (List.filter (has_id aid) (merge_and_deduplicate multi_source_results)) <= 1)%nat
  /\ (forall p,
        p ∈ merge_and_deduplicate multi_source_results ->
        arxiv_id p = Some aid ->
        first_with_id aid (all_papers multi_source_results) = Some p)
  /\ (by_priority multi_source_results ->
      forall p,
        p ∈ merge_and_deduplicate multi_source_results ->
        arxiv_id p = Some aid ->
        exists src,
          (src, p) ∈ all_papers multi_source_results
          /\ forall src' q,
               (src', q) ∈ all_papers multi_source_results ->
               arxiv_id q = Some aid ->
               (source_priority src' <= source_priority src)%Z).
Proof.
  intros Hne. unfold merge_and_deduplicate.
  destruct (fold_dedup_inv (all_papers multi_source_results) _ [] dedup_inv_init)
    as [Hfirst Honce _].
  split; [by apply Honce|]. split; [intros p Hp Hid; by apply (Hfirst p aid)|].
  intros Hsorted p Hp Hid.
  destruct (first_with_id_source aid _ p (Hfirst p aid Hp Hid Hne)) as [src Hfind].
  exists src. split.
  - apply find_some in Hfind as [Hin _]. by apply list_elem_of_In.
  - intros src' q Hin Hq.
    apply (find_by_priority _ _ _ (all_papers_by_priority _ Hsorted) Hfind (src', q) Hin).
    unfold has_id. cbn. by apply bool_decide_eq_true_2.
Qed.

Lemma merge_keeps_first_record_witness :
  (length (List.filter (has_id "2301.00001") (merge_and_deduplicate both_sources)) <= 1)%nat
  /\ (forall p,
        p ∈ merge_and_deduplicate both_sources ->
        arxiv_id p = Some "2301.00001" ->
        first_with_id "2301.00001" (all_papers both_sources) = Some p)
  /\ (by_priority both_sources ->
      forall p,
        p ∈ merge_and_deduplicate both_sources ->
        arxiv_id p = Some "2301.00001" ->
        exists src,
          (src, p) ∈ all_papers both_sources
          /\ forall src' q,
               (src', q) ∈ all_papers both_sources ->
               arxiv_id q = Some "2301.00001" ->
               (source_priority src' <= source_priority src)%Z).
Proof.
  apply (merge_keeps_first_record_per_arxiv_id both_sources "2301.00001").
  discriminate.
Defined.

Example both_sources_by_priority : by_priority both_sources.
Proof. repeat constructor. cbn. lia. Qed.

(** C4 (as stated) fails.  When the dict lists the secondary index first,
    its record is the one kept for the shared arXiv id and the preprint
    source's record is dropped; with the sources in the other order the
    preprint source's record is kept. *)
Lemma merge_keeps_lower_priority_record :
  merge_and_deduplicate [("semantic_scholar", [indexed_copy]); ("arxiv", [preprint])]
  = [indexed_copy]
  /\ merge_and_deduplicate [("arxiv", [preprint]); ("semantic_scholar", [indexed_copy])]
     = [preprint]
  /\ arxiv_id indexed_copy = arxiv_id preprint
  /\ (source_priority "semantic_scholar" < source_priority "arxiv")%Z
  /\ indexed_copy <> preprint.
Proof.
  split; [vm_compute; reflexivity|]. split; [vm_compute; reflexivity|].
  split; [reflexivity|]. split; [reflexivity|]. discriminate.
Qed.

End Fusion.

Section LandscapeStage.
Import models stage_env.

(** C9.  With no analyses both landscape entry points raise [ValueError]
    and the list of provider requests they made is empty, whatever the
    provider would have answered. *)
Theorem landscape_stage_rejects_empty_analyses
    (e : env) (llm_name : option string) (api_key : string) :
  landscape_analyzer.analyze_landscape e [] llm_name
  = (Raise (mk_exn ValueError "No paper analyses provided"), [])
  /\ landscape_analysis.analyze_research_landscape e [] api_key
     = (Raise (mk_exn ValueError "not enough paper analyses"), []).
Proof. split; reflexivity. Qed.

(** With at least one analysis exactly one request is made. *)
Lemma landscape_stage_calls_provider_once e a analyses llm_name :
  snd (landscape_analyzer.analyze_landscape e (a :: analyses) llm_name)
  = [landscape_analyzer.landscape_request (a :: analyses) llm_name].
Proof. reflexivity. Qed.

End LandscapeStage.

Section DraftGeneration.
Import models dyn stage_env paper_draft_generator.

Lemma PaperDraft_rejects_generator_keywords a b c d :
  dataclass_new "PaperDraft" PaperDraft_fields []
    [("id", a); ("idea_id", b); ("title", c); ("sections", d)]
  = Raise (mk_exn TypeError
             "PaperDraft.__init__() got an unexpected keyword argument 'id'").
Proof. reflexivity. Qed.

(** X3.  Whatever it is given, [generate_draft] ends in an exception: the
    keywords it passes to [PaperDraft] are not fields of the dataclass. *)
Lemma generate_draft_never_returns e uuid idea method callback llm_name :
  is_ok (fst (generate_draft e uuid idea method callback llm_name)) = false.
Proof.
  unfold generate_draft.
  destruct (generate_sections _ _ _ _ _ _ _ _ _) as [[sections|ex] log]; [|done].
  cbn [fst py.bind]. destruct (getattr idea "id"); [|done].
  cbn [py.bind]. destruct (getattr idea "title"); [|done].
  cbn [py.bind]. rewrite PaperDraft_rejects_generator_keywords. done.
Qed.

(** C5 (the code at the failing input).  With the method section's call
    failing, a [ResearchIdea] and a [MethodDesign] make [generate_draft]
    raise [AttributeError] before any request; objects that have the
    attributes it reads take it through the six sections, the method
    section getting the placeholder and the others the provider's text,
    and then [PaperDraft(...)] raises [TypeError]. *)
Theorem generate_draft_raises_when_method_call_fails :
  generate_draft method_call_fails "u-1" an_idea a_method None None
  = (Raise (mk_exn AttributeError
              "'ResearchIdea' object has no attribute 'hypothesis'"), [])
  /\ (exists sections log,
        generate_sections method_call_fails an_idea_as_read a_method_as_read
          None None 0 section_order [] [] = (Ok sections, log)
        /\ map fst sections = map fst section_order
        /\ length log = 6%nat
        /\ content_of sections "method"
           = Some (PStr "[Section generation failed: rate limit exceeded]")
        /\ content_of sections "abstract" = Some (PStr "text of abstract")
        /\ content_of sections "conclusion" = Some (PStr "text of conclusion"))
  /\ fst (generate_draft method_call_fails "u-1" an_idea_as_read a_method_as_read
            None None)
     = Raise (mk_exn TypeError
                "PaperDraft.__init__() got an unexpected keyword argument 'id'").
Proof.
  split; [vm_compute; reflexivity|]. split.
  - eexists. eexists. split; [vm_compute; reflexivity|].
    repeat split; vm_compute; reflexivity.
  - vm_compute. reflexivity.
Qed.

End DraftGeneration.

Section TaskTable.
Import db_models tasks_base api_tasks.

Lemma apply_status_frame (t : AsyncTask) (status : option string) t0 :
  apply_status status t = Ok t0 ->
  exists st, t0 = set_status st t.
Proof.
  unfold apply_status. destruct status as [[|a s]|]; cbn [truthy_str].
  - intros [= <-]. exists (db_models.status t). by destruct t.
  - unfold py.bind.
    destruct (TaskStatus_of_value (String a s)) as [st|]; [|discriminate].
    intros [= <-]. by exists st.
  - intros [= <-]. exists (db_models.status t). by destruct t.
Qed.

Ltac split_ifs :=
  repeat match goal with
         | |- context [if ?b then _ else _] => destruct b
         | |- context [match ?x with Some _ => _ | None => _ end] => destruct x
         end.

Lemma apply_update_frame now t status progress msg res err t' :
  apply_update now t status progress msg res err = Ok t' ->
  id t' = id t /\ project_id t' = project_id t /\ user_id t' = user_id t
  /\ task_id t' = task_id t /\ task_name t' = task_name t
  /\ task_type t' = task_type t /\ created_at t' = created_at t.
Proof.
  unfold apply_update. unfold py.bind at 1.
  destruct (apply_status status t) as [t0|] eqn:Hs; [|discriminate].
  apply apply_status_frame in Hs as [st ->].
  intros [= <-]. split_ifs; repeat split; reflexivity.
Qed.

Lemma apply_update_started_at now t status progress msg res err t' t0 :
  apply_update now t status progress msg res err = Ok t' ->
  started_at t = Some t0 -> started_at t' = Some t0.
Proof.
  unfold apply_update. unfold py.bind at 1.
  destruct (apply_status status t) as [t1|] eqn:Hs; [|discriminate].
  apply apply_status_frame in Hs as [st ->].
  intros [= <-] Hstart.
  repeat match goal with
         | |- context [bool_decide (started_at ?x = None)] =>
             replace (bool_decide (started_at x = None)) with false
               by (symmetry; apply bool_decide_eq_false; cbn;
                   split_ifs; cbn; congruence)
         end.
  rewrite andb_false_r. split_ifs; exact Hstart.
Qed.

(** X4.  A call of [update_task_status] creates and deletes no row, leaves
    every other row as it is, and never changes the identity columns of
    the row it updates: the ids, the owner, the project, the name, the type
    and the creation time. *)
Theorem update_task_status_touches_one_row
    (db : table) (now : Z) (tid : string) (status : option string)
    (progress : option Z) (msg : option string)
    (res : option (gmap string pyval)) (err : option string) :
  let db' := update_task_status db now tid status progress msg res err in
  (dom db' : gset string) = dom db
  /\ (forall other, other <> tid -> db' !! other = db !! other)
  /\ (forall t', db' !! tid = Some t' ->
        exists t, db !! tid = Some t
                  /\ id t' = id t /\ project_id t' = project_id t
                  /\ user_id t' = user_id t /\ task_id t' = task_id t
                  /\ task_name t' = task_name t /\ task_type t' = task_type t
                  /\ created_at t' = created_at t).
Proof.
  cbv zeta. unfold update_task_status.
  destruct (db !! tid) as [t|] eqn:Hdb.
  - destruct (apply_update now t status progress msg res err) as [t'|] eqn:Ht'.
    + split; [|split].
      * rewrite dom_insert_L. apply subseteq_union_1_L, singleton_subseteq_l.
        by apply elem_of_dom_2 in Hdb.
      * intros other Hne. by rewrite lookup_insert_ne.
      * intros t'' Hl. rewrite lookup_insert_eq in Hl. injection Hl as <-.
        exists t. split; [done|]. by apply apply_update_frame in Ht'.
    + split; [done|]. split; [done|]. intros t' Hl. exists t.
      rewrite Hdb in Hl. injection Hl as <-. done.
  - split; [done|]. split; [done|]. intros t' Hl. congruence.
Qed.

(** X5.  A status string that names no member of [TaskStatus] makes the
    whole call a no-op: the progress, message, result and error passed
    with it are dropped as well, and nothing is raised to the caller. *)
Theorem update_task_status_drops_update_with_unknown_status
    (db : table) (now : Z) (tid s : string)
    (progress : option Z) (msg : option string)
    (res : option (gmap string pyval)) (err : option string) :
  s <> "" ->
  is_ok (TaskStatus_of_value s) = false ->
  update_task_status db now tid (Some s) progress msg res err = db.
Proof.
  intros Hne Hbad. unfold update_task_status.
  destruct (db !! tid) as [t|]; [|done].
  unfold apply_update, apply_status. destruct s as [|a s]; [done|].
  cbn [truthy_str]. unfold py.bind at 1 2.
  destruct (TaskStatus_of_value (String a s)); [discriminate|done].
Qed.

Lemma update_task_status_drops_update_witness :
  update_task_status sample_table 99 "t-1" (Some "RUNNING") (Some 80)
    (Some "step 4") None None = sample_table.
Proof.
  apply (update_task_status_drops_update_with_unknown_status
           sample_table 99 "t-1" "RUNNING" (Some 80) (Some "step 4") None None).
  - discriminate.
  - reflexivity.
Defined.

(** X6.  The start time is written once: when the row has a start time,
    no call of [update_task_status] changes it, whatever its arguments. *)
Theorem started_at_is_written_once
    (db : table) (now : Z) (tid : string) (t : AsyncTask) (t0 : Z)
    (status : option string) (progress : option Z) (msg : option string)
    (res : option (gmap string pyval)) (err : option string) :
  db !! tid = Some t ->
  started_at t = Some t0 ->
  exists t', update_task_status db now tid status progress msg res err !! tid = Some t'
             /\ started_at t' = Some t0.
Proof.
  intros Hdb Hstart. unfold update_task_status. rewrite Hdb.
  destruct (apply_update now t status progress msg res err) as [t'|] eqn:Ht'.
  - exists t'. rewrite lookup_insert_eq. split; [done|].
    by eapply apply_update_started_at.
  - exists t. done.
Qed.

Lemma started_at_is_written_once_witness :
  exists t', update_task_status sample_table 99 "t-1" (Some "running") None None
               None None !! "t-1" = Some t'
             /\ started_at t' = Some 10.
Proof.
  apply (started_at_is_written_once sample_table 99 "t-1" sample_task 10
           (Some "running") None None None None); reflexivity.
Defined.

(** X7.  The task routes answer 404 for a task of another user, and
    [cancel_task] then leaves the table as it is. *)
Theorem task_routes_hide_other_users_tasks
    (db : table) (tid : string) (t : AsyncTask) (current_user : Z) :
  db !! tid = Some t ->
  user_id t <> Some current_user ->
  get_task_status db tid current_user = HTTPException 404 "Task not found"
  /\ cancel_task db tid current_user = (HTTPException 404 "Task not found", db).
Proof.
  intros Hdb Hne. unfold get_task_status, cancel_task, query_task. rewrite Hdb.
  by rewrite bool_decide_eq_false_2.
Qed.

Lemma task_routes_hide_other_users_tasks_witness :
  get_task_status sample_table "t-1" 2 = HTTPException 404 "Task not found"
  /\ cancel_task sample_table "t-1" 2
     = (HTTPException 404 "Task not found", sample_table).
Proof.
  apply (task_routes_hide_other_users_tasks sample_table "t-1" sample_task 2).
  - reflexivity.
  - discriminate.
Defined.

(** X8.  Cancelling does not stop the task: the owner's [cancel_task] on an
    unfinished task marks the row [cancelled], the success callback of the
    worker then marks the same row [completed] with progress 100, and a
    second [cancel_task] is refused with 400 and changes nothing. *)
Theorem cancelled_task_is_completed_by_on_success
    (db : table) (now : Z) (retval : pyval) (tid : string) (t : AsyncTask)
    (current_user : Z) :
  db !! tid = Some t ->
  user_id t = Some current_user ->
  status t <> COMPLETED -> status t <> FAILED ->
  let db1 := snd (cancel_task db tid current_user) in
  let db2 := on_success db1 now retval tid in
  fst (cancel_task db tid current_user) = Respond "Task cancelled successfully"
  /\ status <$> db1 !! tid = Some CANCELLED
  /\ status <$> db2 !! tid = Some COMPLETED
  /\ db_models.progress <$> db2 !! tid = Some 100
  /\ cancel_task db2 tid current_user
     = (HTTPException 400 "Cannot cancel completed or failed task", db2).
Proof.
  intros Hdb Huser Hc Hf. cbv zeta.
  assert (cancel_task db tid current_user
          = (Respond "Task cancelled successfully",
             <[tid := set_status CANCELLED t]> db)) as ->.
  { unfold cancel_task, query_task. rewrite Hdb, bool_decide_eq_true_2 by done.
    by destruct (status t). }
  cbn [fst snd]. split; [done|]. split; [by rewrite lookup_insert_eq|].
  unfold on_success, update_task_status. rewrite lookup_insert_eq.
  set (payload := match retval with
                  | PDict members => list_to_map members
                  | _ => {[ "result" := retval ]}
                  end : gmap string pyval).
  destruct (apply_update_valid now (set_status CANCELLED t) (Some "completed")
              (Some 100) None (Some payload) None) as [t' Ht']; [reflexivity|].
  rewrite Ht'.
  destruct (apply_update_completed _ _ _ _ Ht') as (Hst & Hp & _ & _).
  apply apply_update_frame in Ht' as (_ & _ & Hu & _).
  rewrite !lookup_insert_eq. cbn. rewrite Hst, Hp. repeat split.
  unfold cancel_task, query_task. rewrite lookup_insert_eq.
  rewrite bool_decide_eq_true_2 by (by rewrite Hu). by rewrite Hst.
Qed.

Lemma cancelled_task_is_completed_witness :
  fst (cancel_task sample_table "t-1" 1) = Respond "Task cancelled successfully"
  /\ status <$> snd (cancel_task sample_table "t-1" 1) !! "t-1" = Some CANCELLED
  /\ status <$> on_success (snd (cancel_task sample_table "t-1" 1)) 120
                  (PDict [("success", PBool true)]) "t-1" !! "t-1"
     = Some COMPLETED
  /\ db_models.progress
       <$> on_success (snd (cancel_task sample_table "t-1" 1)) 120
             (PDict [("success", PBool true)]) "t-1" !! "t-1"
     = Some 100
  /\ cancel_task
       (on_success (snd (cancel_task sample_table "t-1" 1)) 120
          (PDict [("success", PBool true)]) "t-1") "t-1" 1
     = (HTTPException 400 "Cannot cancel completed or failed task",
        on_success (snd (cancel_task sample_table "t-1" 1)) 120
          (PDict [("success", PBool true)]) "t-1").
Proof.
  apply (cancelled_task_is_completed_by_on_success sample_table 120
           (PDict [("success", PBool true)]) "t-1" sample_task 1);
    [reflexivity | reflexivity | discriminate | discriminate].
Defined.

End TaskTable.

Section StageProcessors.
Import models model_fields dyn stage_env.

(** X9.  When the provider's answer is not valid JSON, [analyze_landscape]
    does not return its fallback landscape: the handler passes keywords
    that are not fields of [ResearchLandscape], so the call raises
    [TypeError]. *)
Theorem analyze_landscape_raises_on_invalid_json
    (e : env) (a : PaperAnalysis) (analyses : list PaperAnalysis)
    (llm_name : option string) (text : string) (ex : exn) :
  chat e (landscape_analyzer.landscape_request (a :: analyses) llm_name) = Ok text ->
  json_loads e text = Raise ex ->
  exn_type ex = JSONDecodeError ->
  fst (landscape_analyzer.analyze_landscape e (a :: analyses) llm_name)
  = Raise (mk_exn TypeError
             ("ResearchLandscape.__init__() got an unexpected keyword argument "
              ++ "'partially_solved_problems'")).
Proof.
  intros Hchat Hjson Hcls.
  unfold landscape_analyzer.analyze_landscape, landscape_analyzer.parse_landscape.
  cbn [fst]. rewrite Hchat. cbn [py.bind]. rewrite Hjson. cbn [py.bind].
  unfold on_decode_error. rewrite Hcls. reflexivity.
Qed.

Lemma analyze_landscape_raises_on_invalid_json_witness :
  fst (landscape_analyzer.analyze_landscape answers_in_prose [an_analysis] None)
  = Raise (mk_exn TypeError
             ("ResearchLandscape.__init__() got an unexpected keyword argument "
              ++ "'partially_solved_problems'")).
Proof.
  apply (analyze_landscape_raises_on_invalid_json answers_in_prose an_analysis []
           None "Here is my analysis: ..."
           (mk_exn JSONDecodeError "Expecting value: line 1 column 1 (char 0)"));
    reflexivity.
Defined.

(** X10.  When the provider's answer is not valid JSON, [analyze_paper]
    does not return its fallback analysis either: the handler passes
    [technical_route] and [experiment_result], which are not fields of
    [PaperAnalysis], so the call raises [TypeError]. *)
Theorem analyze_paper_raises_on_invalid_json
    (e : env) (title abstract full_text : string) (llm_name : option string)
    (text : string) (ex : exn) :
  chat e (paper_reading_engine.analysis_request title abstract full_text llm_name)
  = Ok text ->
  json_loads e text = Raise ex ->
  exn_type ex = JSONDecodeError ->
  fst (paper_reading_engine.analyze_paper e title abstract full_text llm_name)
  = Raise (mk_exn TypeError
             ("PaperAnalysis.__init__() got an unexpected keyword argument "
              ++ "'technical_route'")).
Proof.
  intros Hchat Hjson Hcls.
  unfold paper_reading_engine.analyze_paper, paper_reading_engine.parse_analysis.
  cbn [fst]. rewrite Hchat. cbn [py.bind]. rewrite Hjson. cbn [py.bind].
  unfold on_decode_error. rewrite Hcls. reflexivity.
Qed.

Lemma analyze_paper_raises_on_invalid_json_witness :
  fst (paper_reading_engine.analyze_paper answers_in_prose "Sparse attention"
         "We prune edges." "" None)
  = Raise (mk_exn TypeError
             ("PaperAnalysis.__init__() got an unexpected keyword argument "
              ++ "'technical_route'")).
Proof.
  apply (analyze_paper_raises_on_invalid_json answers_in_prose "Sparse attention"
           "We prune edges." "" None "Here is my analysis: ..."
           (mk_exn JSONDecodeError "Expecting value: line 1 column 1 (char 0)"));
    reflexivity.
Defined.

Lemma MethodDesign_rejects_designer_keywords a b c d f g h i :
  dataclass_new "MethodDesign" MethodDesign_fields []
    [("id", a); ("idea_id", b); ("algorithm_framework", c); ("key_modules", d);
     ("data_requirements", f); ("evaluation_metrics", g);
     ("expected_challenges", h); ("innovation_points", i)]
  = Raise (mk_exn TypeError
             "MethodDesign.__init__() got an unexpected keyword argument 'id'").
Proof. reflexivity. Qed.

Lemma raise_bind {A B} (r : py.result A) (k : A -> py.result B) :
  (forall a, is_ok (k a) = false) -> is_ok (py.bind r k) = false.
Proof. intros Hk. destruct r; [apply Hk | reflexivity]. Qed.

(** X11.  [design_method] returns for no input: the success path and the
    JSON fallback both pass keywords that are not fields of [MethodDesign].
    For an instance of [ResearchIdea] it raises [AttributeError] while it
    builds the prompt, before any request is made. *)
Theorem design_method_never_returns
    (e : env) (uuid : string) (llm_name : option string) :
  (forall idea : pyval,
     is_ok (fst (method_designer.design_method e uuid idea llm_name)) = false)
  /\ (forall idea : ResearchIdea,
        method_designer.design_method e uuid (ResearchIdea_instance idea) llm_name
        = (Raise (mk_exn AttributeError
                    "'ResearchIdea' object has no attribute 'hypothesis'"), [])).
Proof.
  split; [|reflexivity].
  intros idea. unfold method_designer.design_method.
  destruct (method_designer.design_prompt idea) as [values|]; [|reflexivity].
  cbn [fst].
  assert (is_ok (method_designer.fallback_method uuid idea) = false) as Hfb.
  { unfold method_designer.fallback_method. apply raise_bind. intros idea_id.
    by rewrite MethodDesign_rejects_designer_keywords. }
  assert (is_ok (method_designer.parse_method e uuid idea
                   (method_designer.design_request values llm_name)) = false) as Hbody.
  { unfold method_designer.parse_method.
    do 9 (apply raise_bind; intros ?).
    by rewrite MethodDesign_rejects_designer_keywords. }
  unfold on_decode_error.
  destruct (method_designer.parse_method _ _ _ _) as [|ex]; [discriminate|].
  destruct (exn_type ex); try reflexivity. exact Hfb.
Qed.






(** X13.  A landscape whose first five clusters hold a [ResearchCluster]
    object, as the dataclass declares them, cannot be sent: [json.dumps]
    raises [TypeError] while the prompt is built, and no request is made. *)
Theorem generate_ideas_rejects_cluster_objects
    (to_float : pyval -> py.result float) (uuid : Z -> string) (e : env)
    (attrs cluster : list (string * pyval)) (unsolved : list string)
    (clusters : list pyval) (num_ideas : Z) (llm_name : option string) :
  assoc "unsolved_problems" attrs = Some (PList (map PStr unsolved)) ->
  assoc "clusters" attrs = Some (PList (PInstance "ResearchCluster" cluster :: clusters)) ->
  idea_generator.generate_ideas to_float uuid e
    (PInstance "ResearchLandscape" attrs) num_ideas llm_name
  = (Raise (mk_exn TypeError
              "Object of type ResearchCluster is not JSON serializable"), []).
Proof.
  intros Hu Hc. unfold idea_generator.generate_ideas, idea_generator.idea_prompt.
  cbn [getattr]. rewrite Hu, Hc. cbn [py.bind idea_generator.slice_to].
  unfold idea_generator.json_dumps.
  assert (idea_generator.unserializable
            (PDict [("unsolved_problems", PList (map PStr unsolved));
                    ("clusters",
                     PList (pytext.list_slice_to 5
                              (PInstance "ResearchCluster" cluster :: clusters)))])
          = Some "ResearchCluster") as ->; [|reflexivity].
  cbn.
  assert ((fix go (l : list pyval) : option string :=
             match l with
             | [] => None
             | x :: rest =>
                 match idea_generator.unserializable x with
                 | Some c => Some c
                 | None => go rest
                 end
             end) (map PStr unsolved) = None) as ->.
  { clear Hu. induction unsolved as [|s rest IH]; [reflexivity|]. cbn. exact IH. }
  reflexivity.
Qed.

Lemma generate_ideas_rejects_cluster_objects_witness :
  idea_generator.generate_ideas float_of_number uuid_of four_ideas
    (PInstance "ResearchLandscape"
       [("clusters",
         PList [PInstance "ResearchCluster" [("cluster_name", PStr "pruning")]]);
        ("unsolved_problems", PList (map PStr ["large graphs"]))]) 3 None
  = (Raise (mk_exn TypeError
              "Object of type ResearchCluster is not JSON serializable"), []).
Proof.
  apply (generate_ideas_rejects_cluster_objects float_of_number uuid_of four_ideas
           [("clusters",
             PList [PInstance "ResearchCluster" [("cluster_name", PStr "pruning")]]);
            ("unsolved_problems", PList (map PStr ["large graphs"]))]
           [("cluster_name", PStr "pruning")] ["large graphs"] [] 3 None);
    reflexivity.
Defined.

End StageProcessors.

Section Relevance.
Import models pystr pytext literature_discovery builtins.

Lemma ltb_not_nan x y : PrimFloat.ltb x y = true -> is_nan x = false.
Proof.
  rewrite FloatAxioms.ltb_spec. unfold SFltb. intros H.
  assert (Prim2SF x <> S754_nan) as Hx.
  { intros E. rewrite E in H. discriminate. }
  unfold is_nan. rewrite FloatAxioms.eqb_spec. unfold SFeqb.
  pose proof (SFcompare_key _ _ Hx Hx) as Hc.
  destruct (SFcompare (Prim2SF x) (Prim2SF x)) as [[]|]; try done;
    by apply key_lt_irrefl in Hc.
Qed.

Lemma at_most_one_bound score :
  PrimFloat.leb (at_most_one score) 1 = true /\ is_nan (at_most_one score) = false.
Proof.
  unfold at_most_one. destruct (PrimFloat.ltb score 1) eqn:Hlt; [|done].
  pose proof (ltb_not_nan _ _ Hlt) as Hnan. split; [|done].
  apply leb_key; [done..|]. apply ltb_key in Hlt; [|done..].
  revert Hlt. unfold key_lt. lia.
Qed.

Lemma StronglySorted_sublist {B} (R : B -> B -> Prop) (l k : list B) :
  k `sublist_of` l -> StronglySorted R l -> StronglySorted R k.
Proof.
  induction 1 as [|x k l Hs IH|x k l Hs IH]; intros Hl.
  - constructor.
  - apply StronglySorted_inv in Hl as [Hl Hall]. constructor; [by apply IH|].
    rewrite Forall_forall in Hall |- *. intros y Hy. apply Hall.
    by eapply elem_of_sublist.
  - apply StronglySorted_inv in Hl as [Hl _]. by apply IH.
Qed.

Lemma List_filter_sublist {B} (f : B -> bool) (l : list B) :
  List.filter f l `sublist_of` l.
Proof.
  induction l as [|x l IH]; cbn; [constructor|].
  destruct (f x); by constructor.
Qed.

Lemma score_relevance_comparable current_year papers intent :
  Forall (comparable relevance_score) (score_relevance current_year papers intent)
  /\ Forall (fun p => PrimFloat.leb (relevance_score p) 1 = true)
       (score_relevance current_year papers intent).
Proof.
  unfold score_relevance. split; apply Forall_fmap, Forall_forall; intros p _; cbn;
    apply at_most_one_bound.
Qed.

(** X14.  When the cache holds nothing and the arXiv search returns,
    [search_papers] returns the papers that pass the filter, each with its
    relevance score, in descending order of that score; no score exceeds
    1.0. *)
Theorem search_papers_sorts_by_relevance
    (client : string -> Z -> py.result (list PaperMetadata)) (current_year : Z)
    (intent : ResearchIntent) (max_results : Z) (found : list PaperMetadata) :
  client (build_arxiv_query intent) max_results = Ok found ->
  exists papers,
    search_papers [] client current_year intent max_results = Ok papers
    /\ Permutation papers
         (score_relevance current_year (filter_papers found intent) intent)
    /\ StronglySorted (desc relevance_score) papers
    /\ Forall (fun p => PrimFloat.leb (relevance_score p) 1 = true) papers.
Proof.
  intros Hfound. unfold search_papers, search_arxiv. rewrite Hfound. cbn [py.bind].
  eexists. split; [reflexivity|].
  destruct (score_relevance_comparable current_year (filter_papers found intent) intent)
    as [Hcmp Hle].
  split; [apply sorted_reverse_perm|]. split; [by apply sorted_reverse_sorted|].
  by rewrite sorted_reverse_perm.
Qed.

Lemma search_papers_sorts_by_relevance_witness :
  exists papers,
    search_papers [] three_results 2026 graph_attention 50 = Ok papers
    /\ Permutation papers
         (score_relevance 2026 (filter_papers found_papers graph_attention)
            graph_attention)
    /\ StronglySorted (desc relevance_score) papers
    /\ Forall (fun p => PrimFloat.leb (relevance_score p) 1 = true) papers.
Proof.
  apply (search_papers_sorts_by_relevance three_results 2026 graph_attention 50
           found_papers).
  reflexivity.
Defined.

Lemma filter_paper_fixed intent p q :
  filter_paper intent p = Some q -> filter_paper intent q = Some q.
Proof.
  unfold filter_paper.
  destruct (outside_years intent p) eqn:Hy; [discriminate|].
  destruct (bool_decide (paper_type intent <> PT_ANY)) eqn:Hany.
  - destruct (bool_decide (detect_paper_type p <> paper_type intent)) eqn:Ht;
      [discriminate|].
    cbn [andb]. intros [= <-].
    change (outside_years intent (set_paper_type (Some (detect_paper_type p)) p))
      with (outside_years intent p).
    change (detect_paper_type (set_paper_type (Some (detect_paper_type p)) p))
      with (detect_paper_type p).
    by rewrite Hy, Ht.
  - intros [= <-]. by rewrite Hy.
Qed.

(** X15.  Filtering is idempotent, although it writes the detected type
    into the papers it keeps; with no year bound and the paper type [any]
    it keeps every paper as it is. *)
Theorem filter_papers_idempotent
    (papers : list PaperMetadata) (intent : ResearchIntent) :
  filter_papers (filter_papers papers intent) intent = filter_papers papers intent
  /\ (truthy_int (year_start intent) = false ->
      truthy_int (year_end intent) = false ->
      paper_type intent = PT_ANY ->
      filter_papers papers intent = papers).
Proof.
  unfold filter_papers. split.
  - induction papers as [|p papers IH]; [done|]. cbn.
    destruct (filter_paper intent p) as [q|] eqn:Hp; [|done].
    cbn. by rewrite (filter_paper_fixed _ _ _ Hp), IH.
  - intros Hs He Ht. induction papers as [|p papers IH]; [done|]. cbn.
    unfold filter_paper at 1, outside_years. rewrite Hs, He, Ht. cbn. by rewrite IH.
Qed.

Lemma find_app_l {B} (f : B -> bool) l1 l2 x :
  List.find f l1 = Some x -> List.find f (l1 ++ l2) = Some x.
Proof.
  induction l1 as [|y l1 IH]; cbn; [discriminate|]. destruct (f y); [done|exact IH].
Qed.

Lemma find_app_r {B} (f : B -> bool) l1 l2 :
  (forall y, y ∈ l1 -> f y = false) -> List.find f (l1 ++ l2) = List.find f l2.
Proof.
  induction l1 as [|y l1 IH]; cbn; [done|]. intros H.
  rewrite (H y) by left. apply IH. intros z Hz. apply H. by right.
Qed.

Lemma dedup_title_inv st l p :
  titles_inv st l -> titles_inv (dedup_title st p) (l ++ [p]).
Proof.
  intros [Hseen Hnd Hsub Hall Hfirst]. unfold dedup_title.
  fold (title_key p). destruct (bool_decide (title_key p ∈ fst st)) eqn:Hin.
  - apply bool_decide_eq_true in Hin. split; try done.
    + by apply sublist_inserts_r.
    + intros q Hq. apply elem_of_app in Hq as [Hq|Hq]; [by apply Hall|].
      apply list_elem_of_singleton in Hq as ->. done.
    + intros q Hq. by apply find_app_l, Hfirst.
  - apply bool_decide_eq_false in Hin. split; cbn [fst snd].
    + intros k. rewrite map_app, elem_of_app, elem_of_union, elem_of_singleton.
      cbn. rewrite list_elem_of_singleton, Hseen. tauto.
    + rewrite map_app. apply NoDup_app. split; [done|]. split.
      * intros k Hk ->%list_elem_of_singleton. by apply Hin, Hseen.
      * apply NoDup_singleton.
    + by apply sublist_app.
    + intros q Hq. apply elem_of_app in Hq as [Hq|Hq].
      * apply elem_of_union_r. by apply Hall.
      * apply list_elem_of_singleton in Hq as ->. by apply elem_of_union_l, elem_of_singleton.
    + intros q Hq. apply elem_of_app in Hq as [Hq|Hq].
      * by apply find_app_l, Hfirst.
      * apply list_elem_of_singleton in Hq as ->. rewrite find_app_r.
        -- cbn. by rewrite bool_decide_eq_true_2.
        -- intros y Hy. apply bool_decide_eq_false_2. intros E.
           apply Hin. rewrite <- E. by apply Hall.
Qed.

Lemma fold_dedup_title_inv rest : forall st l,
  titles_inv st l -> titles_inv (fold_left dedup_title rest st) (l ++ rest).
Proof.
  induction rest as [|p rest IH]; intros st l Hinv; cbn.
  - by rewrite app_nil_r.
  - replace (l ++ p :: rest)%list with ((l ++ [p]) ++ rest)%list
      by (by rewrite <- app_assoc).
    by apply IH, dedup_title_inv.
Qed.

Lemma titles_inv_init : titles_inv (∅, []) [].
Proof.
  split; cbn; try done.
  - intros k. split; [set_solver|]. intros H. inversion H.
  - constructor.
  - intros p H. inversion H.
  - intros p H. inversion H.
Qed.

Lemma deduplicate_papers_inv papers :
  titles_inv (fold_left dedup_title papers (∅, [])) papers.
Proof. apply (fold_dedup_title_inv papers _ [] titles_inv_init). Qed.

Lemma fold_dedup_title_fresh rest : forall st,
  NoDup (map title_key rest) ->
  (forall p, p ∈ rest -> title_key p ∉ fst st) ->
  snd (fold_left dedup_title rest st) = (snd st ++ rest)%list.
Proof.
  induction rest as [|p rest IH]; intros st Hnd Hfresh; cbn.
  - by rewrite app_nil_r.
  - cbn in Hnd. apply NoDup_cons in Hnd as [Hp Hnd].
    unfold dedup_title at 2. fold (title_key p).
    rewrite bool_decide_eq_false_2 by (apply Hfresh; left).
    rewrite IH; cbn [fst snd]; [by rewrite <- app_assoc|done|].
    intros q Hq. rewrite elem_of_union, elem_of_singleton. intros [E|Hin].
    + apply Hp. rewrite <- E. by apply list_elem_of_fmap_2.
    + by apply (Hfresh q); [right|].
Qed.

(** X16.  [deduplicate_papers] returns a subsequence of its input in which
    no two papers have the same title up to case and surrounding white
    space; every title of the input is still represented, by the first
    paper that carries it; and a second pass changes nothing. *)
Theorem deduplicate_papers_keeps_first_of_each_title (papers : list PaperMetadata) :
  let unique_papers := deduplicate_papers papers in
  NoDup (map (fun p => strip (lower (title p))) unique_papers)
  /\ unique_papers `sublist_of` papers
  /\ (forall p, p ∈ papers ->
        exists q, q ∈ unique_papers
                  /\ strip (lower (title q)) = strip (lower (title p))
                  /\ List.find (fun r => bool_decide (strip (lower (title r))
                                                      = strip (lower (title p))))
                       papers = Some q)
  /\ deduplicate_papers unique_papers = unique_papers.
Proof.
  cbv zeta. unfold deduplicate_papers.
  destruct (deduplicate_papers_inv papers) as [Hseen Hnd Hsub Hall Hfirst].
  split; [exact Hnd|]. split; [exact Hsub|]. split.
  - intros p Hp. apply Hall, Hseen in Hp.
    apply list_elem_of_fmap in Hp as (q & Hk & Hq). exists q.
    split; [done|]. split; [done|].
    unfold title_key in Hk. rewrite Hk. by apply Hfirst.
  - rewrite fold_dedup_title_fresh; [done|done|]. intros p _. cbn. set_solver.
Qed.

(** X17.  The discovery step of the workflow, on a cache miss: the papers
    it stores are in descending order of relevance, no two of them share a
    title up to case and surrounding white space, and every relevance score
    lies between the threshold 0.3 and 1.0. *)
Theorem discover_literature_result
    (client : string -> Z -> py.result (list PaperMetadata)) (current_year : Z)
    (intent : ResearchIntent) (max_results : Z) (papers : list PaperMetadata) :
  workflow.discover_literature (Some intent) [] client current_year max_results
  = Ok papers ->
  StronglySorted (desc relevance_score) papers
  /\ NoDup (map (fun p => strip (lower (title p))) papers)
  /\ Forall (fun p => PrimFloat.leb 0.3 (relevance_score p) = true
                      /\ PrimFloat.leb (relevance_score p) 1 = true) papers.
Proof.
  unfold workflow.discover_literature, search_papers, search_arxiv.
  destruct (client (build_arxiv_query intent) max_results) as [found|] eqn:Hfound;
    cbn [py.bind]; [|discriminate].
  intros [= <-].
  set (scored := score_relevance current_year (filter_papers found intent) intent).
  destruct (score_relevance_comparable current_year (filter_papers found intent) intent)
    as [Hcmp Hle]. fold scored in Hcmp, Hle.
  pose proof (sorted_reverse_sorted relevance_score scored Hcmp) as Hsorted.
  set (ranked := sorted_reverse relevance_score scored) in *.
  destruct (deduplicate_papers_inv ranked) as [_ Hnd Hsub _ _].
  fold (deduplicate_papers ranked) in Hnd, Hsub.
  pose proof (List_filter_sublist
                (fun p => PrimFloat.leb workflow.MIN_RELEVANCE_SCORE (relevance_score p))
                (deduplicate_papers ranked)) as Hsub'.
  split; [|split].
  - eapply StronglySorted_sublist; [exact Hsub'|].
    eapply StronglySorted_sublist; [exact Hsub|exact Hsorted].
  - eapply sublist_NoDup; [exact Hnd|]. by apply fmap_sublist.
  - apply Forall_forall. intros p Hp. apply list_elem_of_In, filter_In in Hp as [Hp Hmin].
    split; [exact Hmin|].
    assert (p ∈ scored) as Hps.
    { rewrite <- (sorted_reverse_perm relevance_score scored).
      eapply elem_of_sublist; [|exact Hsub]. by apply list_elem_of_In. }
    rewrite Forall_forall in Hle. by apply Hle.
Qed.

Lemma discover_literature_result_witness :
  StronglySorted (desc relevance_score) discovered
  /\ NoDup (map (fun p => strip (lower (title p))) discovered)
  /\ Forall (fun p => PrimFloat.leb 0.3 (relevance_score p) = true
                      /\ PrimFloat.leb (relevance_score p) 1 = true) discovered.
Proof.
  apply (discover_literature_result three_results 2026 graph_attention 50 discovered).
  vm_compute. reflexivity.
Defined.

Example discovered_titles :
  map title discovered = ["Sparse Graph Attention"; "Graph pruning"].
Proof. vm_compute. reflexivity. Qed.

End Relevance.

Section FusedSearch.
Import models pystr pytext literature_discovery multi_source_search multi_source builtins.

(** X18.  [calculate_cross_source_relevance] returns the papers it was
    given, each with its new score and nothing else changed, in descending
    order of that score; no score exceeds 1.0. *)
Theorem cross_source_relevance_sorts_and_bounds
    (current_year : Z) (papers : list PaperMetadata) (intent : ResearchIntent) :
  let scored := calculate_cross_source_relevance current_year papers intent in
  Permutation scored
    (map (fun paper =>
            set_relevance_score
              (cross_source_relevance current_year intent
                 (split (lower (keywords intent))) paper) paper) papers)
  /\ StronglySorted (desc relevance_score) scored
  /\ Forall (fun p => PrimFloat.leb (relevance_score p) 1 = true) scored.
Proof.
  cbv zeta. unfold calculate_cross_source_relevance.
  set (scored := map _ papers).
  assert (Forall (fun p => PrimFloat.leb (relevance_score p) 1 = true
                           /\ is_nan (relevance_score p) = false) scored) as Hb.
  { apply Forall_fmap, Forall_forall. intros p _. cbn. apply at_most_one_bound. }
  split; [apply sorted_reverse_perm|]. split.
  - apply sorted_reverse_sorted. eapply Forall_impl; [exact Hb|]. by intros p [_ ?].
  - rewrite sorted_reverse_perm. eapply Forall_impl; [exact Hb|]. by intros p [? _].
Qed.

Lemma search_multi_source_shape arxiv_search s2_search key intent n sources :
  exists arxiv_part s2_part,
    search_multi_source arxiv_search s2_search key intent n sources
    = (arxiv_part ++ s2_part)%list
    /\ (arxiv_part = []
        \/ arxiv_part = [("arxiv", match arxiv_search intent n with
                                   | Ok l => l
                                   | Raise _ => []
                                   end)])
    /\ (s2_part = [] \/ exists l, s2_part = [("semantic_scholar", l)]).
Proof.
  unfold search_multi_source. eexists. eexists. split; [reflexivity|]. split.
  - destruct (bool_decide _); eauto.
  - destruct (bool_decide ("semantic_scholar" ∈ _)); eauto.
Qed.

(** X19.  The mapping that [search_multi_source] builds lists its sources
    by descending priority, whatever sources are asked for.  So in the
    fusion of its results the record kept for an arXiv id that the arXiv
    search returned is the arXiv search's first record with that id. *)
Theorem fused_search_keeps_the_arxiv_record
    (arxiv_search : ResearchIntent -> Z -> py.result (list PaperMetadata))
    (s2_search : string -> Z -> option Z -> option Z -> option string
                 -> py.result (list PaperMetadata))
    (s2_api_key : option string) (intent : ResearchIntent) (n : Z)
    (sources : option (list string)) :
  let results := search_multi_source arxiv_search s2_search s2_api_key intent n sources in
  by_priority results
  /\ (forall arxiv_papers aid q p,
        arxiv_search intent n = Ok arxiv_papers ->
        "arxiv" ∈ from_option id ["arxiv"; "semantic_scholar"] sources ->
        aid <> "" -> q ∈ arxiv_papers -> arxiv_id q = Some aid ->
        p ∈ merge_and_deduplicate results -> arxiv_id p = Some aid ->
        List.find (has_id aid) arxiv_papers = Some p).
Proof.
  cbv zeta. split.
  - destruct (search_multi_source_shape arxiv_search s2_search s2_api_key intent n sources)
      as (a & s & -> & [->| ->] & [->|[l ->]]); unfold by_priority; cbn;
      repeat constructor. cbn. lia.
  - intros arxiv_papers aid q p Hsearch Hsrc Hne Hq Hqid Hp Hpid.
    unfold merge_and_deduplicate in Hp.
    destruct (fold_dedup_inv
                (all_papers (search_multi_source arxiv_search s2_search s2_api_key
                               intent n sources)) _ [] dedup_inv_init)
      as [Hfirst _ _].
    specialize (Hfirst p aid Hp Hpid Hne). cbn [app] in Hfirst.
    revert Hfirst. unfold search_multi_source.
    rewrite bool_decide_eq_true_2 by done. rewrite Hsearch.
    unfold first_with_id, all_papers. cbn [app flat_map fst snd].
    rewrite map_app, map_map. cbn [snd]. rewrite map_id.
    destruct (List.find (has_id aid) arxiv_papers) as [r|] eqn:Hfind.
    + rewrite (find_app_l _ _ _ _ Hfind). done.
    + exfalso. assert (has_id aid q = false) as Hf.
      { apply (find_none _ _ Hfind q). by apply list_elem_of_In. }
      unfold has_id in Hf. by rewrite bool_decide_eq_true_2 in Hf.
Qed.

Lemma fused_search_keeps_the_arxiv_record_witness :
  List.find (has_id "2301.00001") [preprint] = Some preprint.
Proof.
  apply (proj2 (fused_search_keeps_the_arxiv_record arxiv_returns_preprint
                  index_returns_copy None graph_attention 25 None)
           [preprint] "2301.00001" preprint preprint).
  - reflexivity.
  - cbn. left.
  - discriminate.
  - left.
  - reflexivity.
  - vm_compute. left.
  - reflexivity.
Defined.

End FusedSearch.

Section Venues.
Import pystr venue_utils.

Lemma strip_lower_normal s : strip (lower (strip (lower s))) = strip (lower s).
Proof.
  rewrite (lower_fixed_id (strip (lower s))); [apply strip_idempotent|].
  unfold strip. apply all_chars_rstrip, all_chars_lstrip, all_lower_fixed_lower.
Qed.

(** X20.  The lookup does not depend on the case of the name or on white
    space around it: a name and its lower-cased, stripped form get the
    same partition. *)
Theorem get_venue_partition_ignores_case_and_padding (name : string) :
  get_venue_partition (Some name) = get_venue_partition (Some (strip (lower name))).
Proof.
  unfold get_venue_partition.
  destruct name as [|c name]; [reflexivity|]. cbn [truthy_str].
  set (normalized := strip (lower (String c name))).
  destruct normalized as [|d rest] eqn:Hn; [reflexivity|]. cbn [truthy_str].
  rewrite <- Hn. unfold normalized. by rewrite strip_lower_normal.
Qed.

Lemma startswith_app p q s : startswith (p ++ q) s = true -> startswith p s = true.
Proof.
  revert s. induction p as [|a p IH]; intros s; [by destruct s|].
  destruct s as [|b s]; cbn; [done|].
  intros [-> H]%andb_prop. cbn. by apply IH.
Qed.

Lemma contains_app p q s : contains (p ++ q) s = true -> contains p s = true.
Proof.
  induction s as [|b s IH]; cbn [contains].
  - intros [H|H]%orb_prop; [|done]. by rewrite (startswith_app _ _ _ H).
  - intros [H|H]%orb_prop.
    + by rewrite (startswith_app _ _ _ H).
    + rewrite (IH H). apply orb_true_r.
Qed.

Lemma find_both {B} (f g : B -> bool) (l : list B) :
  List.find (fun x => f x && g x) l = List.find f (List.filter g l).
Proof.
  induction l as [|x l IH]; [done|]. cbn.
  destruct (g x); cbn; [|by rewrite andb_false_r].
  rewrite andb_true_r. by destruct (f x).
Qed.

(** X21.  The partition Q1 is given to exact names only: a name that
    merely contains "nature communications" or "science advances" falls
    to the earlier keys "nature" and "science". *)
Theorem venue_q1_needs_exact_name (name : string) :
  get_venue_partition (Some name) = Some "Q1" ->
  strip (lower name) ∈ ["pnas"; "nature communications"; "science advances"].
Proof.
  unfold get_venue_partition. destruct (truthy_str (Some name)); [|discriminate].
  set (normalized := strip (lower name)).
  pose proof (contains_app "nature" " communications" normalized) as Hnature.
  pose proof (contains_app "science" " advances" normalized) as Hscience.
  cbn [append] in Hnature, Hscience.
  destruct (exact_match normalized) as [value|] eqn:Hexact.
  - intros [= ->]. revert Hexact. unfold exact_match, VENUE_MAPPING.
    cbn [List.find fst snd].
    repeat match goal with
           | |- context [String.eqb ?k normalized] =>
               destruct (String.eqb k normalized) eqn:?; [cbn; intros [=]|]
           end;
      try match goal with
          | H : String.eqb _ normalized = true |- _ =>
              apply String.eqb_eq in H; rewrite <- H; set_solver
          end.
    cbn. discriminate.
  - unfold contained_match. rewrite find_both.
    set (long_keys := List.filter _ VENUE_MAPPING). vm_compute in long_keys.
    subst long_keys. cbn [List.find fst snd].
    repeat lazymatch goal with
           | |- (snd <$> (if contains ?k normalized then _ else _)) = _ -> _ =>
               destruct (contains k normalized) eqn:?; [cbn; try discriminate|]
           end.
    + intros _.
      match goal with
      | H : contains "nature communications" normalized = true |- _ =>
          apply Hnature in H; discriminate
      end.
    + intros _.
      match goal with
      | H : contains "science advances" normalized = true |- _ =>
          apply Hscience in H; discriminate
      end.
    + cbn. discriminate.
Qed.

Lemma venue_q1_needs_exact_name_witness :
  strip (lower " Nature Communications ")
  ∈ ["pnas"; "nature communications"; "science advances"].
Proof.
  apply (venue_q1_needs_exact_name " Nature Communications "). reflexivity.
Defined.

End Venues.

Section TextHelpers.
Import pytext utils.

Lemma string_length_app s t :
  String.length (s ++ t) = (String.length s + String.length t)%nat.
Proof. induction s as [|c s IH]; simpl; [done|]. f_equal. exact IH. Qed.

Lemma string_length_of_list l :
  String.length (string_of_list_ascii l) = length l.
Proof. induction l as [|c l IH]; simpl; [done|]. f_equal. exact IH. Qed.

Lemma list_length_of_string s :
  length (list_ascii_of_string s) = String.length s.
Proof. induction s as [|c s IH]; simpl; [done|]. f_equal. exact IH. Qed.

(** X22.  For a non-negative [max_length], a text that fits comes back
    unchanged, and a longer one comes back as its first [max_length]
    characters followed by three dots: [max_length + 3] characters, which
    is more than [max_length], and more than the text had when it was one
    or two characters over. *)
Theorem truncate_text_length (text : string) (max_length : Z) :
  0 <= max_length ->
  (Z.of_nat (String.length text) <= max_length -> truncate_text text max_length = text)
  /\ (max_length < Z.of_nat (String.length text) ->
      truncate_text text max_length = slice_to max_length text ++ "..."
      /\ Z.of_nat (String.length (truncate_text text max_length)) = max_length + 3)
  /\ Z.of_nat (String.length (truncate_text text max_length))
     <= Z.max (Z.of_nat (String.length text)) (max_length + 3).
Proof.
  intros Hn. unfold truncate_text.
  destruct (Z.of_nat (String.length text) <=? max_length)%Z eqn:Hle.
  - apply Z.leb_le in Hle. split; [done|]. split; [lia|lia].
  - apply Z.leb_gt in Hle.
    assert (Z.of_nat (String.length (slice_to max_length text ++ "..."))
            = max_length + 3) as Hlen.
    { rewrite string_length_app. unfold slice_to, list_slice_to.
      destruct (max_length <? 0)%Z eqn:Hneg; [lia|].
      rewrite string_length_of_list, length_take, list_length_of_string. cbn. lia. }
    split; [lia|]. split; [done|]. lia.
Qed.

Lemma truncate_text_length_witness :
  (Z.of_nat (String.length "hello world") <= 10 -> truncate_text "hello world" 10 = "hello world")
  /\ (10 < Z.of_nat (String.length "hello world") ->
      truncate_text "hello world" 10 = slice_to 10 "hello world" ++ "..."
      /\ Z.of_nat (String.length (truncate_text "hello world" 10)) = 10 + 3)
  /\ Z.of_nat (String.length (truncate_text "hello world" 10))
     <= Z.max (Z.of_nat (String.length "hello world")) (10 + 3).
Proof. apply (truncate_text_length "hello world" 10). lia. Defined.

End TextHelpers.

Section Reranking.
Import models idea_generation builtins.

Lemma sorted_reverse_fixed {A} (key : A -> float) (l : list A) :
  Forall (comparable key) l -> StronglySorted (desc key) l ->
  sorted_reverse key l = l.
Proof.
  induction l as [|x l IH]; intros Hc Hs; [done|].
  apply Forall_cons_1 in Hc as [Hx Hc]. apply StronglySorted_inv in Hs as [Hs Hall].
  change (sorted_reverse key (x :: l)) with (insert_desc key x (sorted_reverse key l)).
  rewrite IH by done. destruct l as [|y l]; [done|]. cbn.
  apply Forall_cons_1 in Hall as [Hxy _]. apply Forall_cons_1 in Hc as [Hy _].
  destruct (PrimFloat.ltb (key x) (key y)) eqn:Hlt; [|done].
  exfalso. apply (ltb_key _ _ Hx Hy) in Hlt.
  unfold desc in Hxy. apply (leb_key _ _ Hy Hx) in Hxy. done.
Qed.

(** X23.  Ranking is idempotent: for ideas whose composite scores are
    numbers, ranking a ranked list returns it unchanged. *)
Theorem rank_ideas_idempotent (ideas : list ResearchIdea) :
  Forall (fun idea => is_nan (score idea) = false) ideas ->
  rank_ideas (rank_ideas ideas) = rank_ideas ideas.
Proof.
  intros Hnan. unfold rank_ideas. apply sorted_reverse_fixed.
  - by rewrite sorted_reverse_perm.
  - by apply sorted_reverse_sorted.
Qed.

Lemma rank_ideas_idempotent_witness :
  rank_ideas (rank_ideas three_ideas) = rank_ideas three_ideas.
Proof. apply (rank_ideas_idempotent three_ideas). repeat constructor. Defined.

End Reranking.

Section Registry.
Import llm_base monitoring llm_manager llm_config.

Lemma lookup_setitem name llm d : lookup_llm name (setitem name llm d) = Some llm.
Proof.
  unfold lookup_llm. induction d as [|[k v] d IH]; cbn.
  - by rewrite String.eqb_refl.
  - destruct (String.eqb k name) eqn:Hk; cbn; rewrite Hk; [done|exact IH].
Qed.

Lemma lookup_setitem_other name other llm d :
  is_Some (lookup_llm other d) -> is_Some (lookup_llm other (setitem name llm d)).
Proof.
  unfold lookup_llm. induction d as [|[k v] d IH]; cbn.
  - intros [? [=]].
  - destruct (String.eqb k name) eqn:Hk; cbn;
      destruct (String.eqb k other) eqn:Ho; cbn; eauto.
Qed.

Lemma setitem_not_nil name llm d : setitem name llm d <> [].
Proof. destruct d as [|[k v] d]; cbn; [done|]. by destruct (String.eqb k name). Qed.

Lemma register_llm_ok init_client self name p key m url t mt is_default self' :
  register_llm init_client self name p key m url t mt is_default = Ok self' ->
  exists llm,
    _llms self' = setitem name llm (_llms self)
    /\ _default_llm self'
       = if (is_default || negb (truthy_str (_default_llm self)))%bool
         then Some name else _default_llm self.
Proof.
  unfold register_llm. destruct (create init_client _) as [llm|]; cbn [py.bind];
    [|discriminate].
  intros [= <-]. by exists llm.
Qed.

Lemma after_call_default_registered init_client self call :
  default_registered self -> default_registered (after_call init_client self call).
Proof.
  intros [Hdef Hnil]. destruct call as [name p key m url t mt is_default|name];
    unfold after_call.
  - destruct (register_llm _ _ _ _ _ _ _ _ _ _) as [self'|] eqn:Hreg; [|done].
    apply register_llm_ok in Hreg as (llm & Hl & Hd). split.
    + intros n Hn. rewrite Hl. rewrite Hd in Hn.
      destruct (is_default || negb (truthy_str (_default_llm self)))%bool.
      * injection Hn as <-. rewrite lookup_setitem. eauto.
      * by apply lookup_setitem_other, Hdef.
    + rewrite Hl, Hd. split; [by intros ?%setitem_not_nil|].
      destruct (is_default || negb (truthy_str (_default_llm self)))%bool eqn:Hb;
        [done|].
      intros Hn. rewrite Hn in Hb. by rewrite orb_true_r in Hb.
  - unfold set_default_llm. destruct (lookup_llm name (_llms self)) eqn:Hl; [|done].
    split; cbn [_llms _default_llm].
    + intros n [= <-]. rewrite Hl. eauto.
    + split; [|done]. intros Hn. rewrite Hn in Hl. discriminate.
Qed.

(** X24.  In every manager reached from a new one by calls of
    [register_llm] and [set_default_llm], failed or not, the default name
    is registered, and it is unset only while nothing is registered: once
    an LLM is registered, [get_llm()] without a name returns an instance. *)
Theorem manager_default_is_registered
    (init_client : LLMConfig -> py.result unit)
    (repr_names : list string -> string) (calls : list manager_call) :
  let self := fold_left (after_call init_client) calls new_manager in
  default_registered self
  /\ (_llms self <> [] -> is_ok (get_llm repr_names self None) = true).
Proof.
  cbv zeta.
  assert (default_registered (fold_left (after_call init_client) calls new_manager))
    as Hinv.
  { assert (default_registered new_manager) as H0 by (split; [intros n [=]|done]).
    revert H0. generalize new_manager.
    induction calls as [|call calls IH]; intros self Hself; [done|].
    cbn. by apply IH, after_call_default_registered. }
  split; [exact Hinv|]. destruct Hinv as [Hdef Hnil]. intros Hne. unfold get_llm.
  set (self := fold_left (after_call init_client) calls new_manager) in *.
  destruct (_default_llm self) as [n|] eqn:Hn.
  - destruct (Hdef n eq_refl) as [llm ->]. done.
  - exfalso. apply Hne. by apply Hnil.
Qed.



Ltac by_cases_on_keys getenv :=
  destruct (truthy_str (getenv "DEEPSEEK_API_KEY")) eqn:?;
  destruct (truthy_str (getenv "QWEN_API_KEY")) eqn:?;
  destruct (truthy_str (getenv "KIMI_API_KEY")) eqn:?.

(** X26.  With clients that can be made, [init_llms_from_env] registers
    one LLM per domestic key that is set.  When there is such a key,
    [get_llm_for_task] names a registered LLM for every task and the
    default exists; when there is none, nothing is registered, so
    [get_llm()] raises for the stage processors, and with an OpenAI key
    [get_llm_for_task] answers "openai-smart", which is not registered. *)
Theorem init_llms_from_env_serves_tasks
    (getenv : string -> option string) (init_client : LLMConfig -> py.result unit)
    (repr_names : list string -> string) :
  (forall c, init_client c = Ok tt) ->
  exists llm_manager,
    init_llms_from_env getenv init_client new_manager = Ok llm_manager
    /\ (domestic_key getenv = true ->
        is_ok (get_llm repr_names llm_manager None) = true
        /\ forall task, exists name,
             get_llm_for_task getenv llm_manager task = Ok (Some name)
             /\ is_ok (get_llm repr_names llm_manager (Some name)) = true)
    /\ (domestic_key getenv = false ->
        llm_manager = new_manager
        /\ is_ok (get_llm repr_names llm_manager None) = false
        /\ (truthy_str (getenv "OPENAI_API_KEY") = true ->
            forall task,
              get_llm_for_task getenv llm_manager task = Ok (Some "openai-smart")
              /\ is_ok (get_llm repr_names llm_manager (Some "openai-smart")) = false)).
Proof.
  intros Hclient. unfold init_llms_from_env, get_llm_for_task, domestic_key.
  unfold register_llm, create. cbn [default_base_url provider truthy_str base_url].
  rewrite !Hclient.
  by_cases_on_keys getenv; cbn [py.bind]; rewrite ?Hclient; cbn [py.bind];
    eexists; (split; [reflexivity|]); cbn [orb]; (split; [|try discriminate]);
    try discriminate.
  all: try (intros _; split; [reflexivity|]; intros task;
            destruct (String.eqb task "analysis"); [eexists; split; reflexivity|];
            destruct (String.eqb task "generation"); [eexists; split; reflexivity|];
            destruct (String.eqb task "fast"); [eexists; split; reflexivity|];
            destruct (String.eqb task "code"); [eexists; split; reflexivity|];
            destruct (String.eqb task "long_context"); eexists; split; reflexivity).
  intros _. split; [reflexivity|]. split; [reflexivity|].
  intros ->. intros task. split; reflexivity.
Qed.

Lemma init_llms_from_env_serves_tasks_witness :
  exists llm_manager,
    init_llms_from_env qwen_and_openai any_client new_manager = Ok llm_manager
    /\ (domestic_key qwen_and_openai = true ->
        is_ok (get_llm plain_repr llm_manager None) = true
        /\ forall task, exists name,
             get_llm_for_task qwen_and_openai llm_manager task = Ok (Some name)
             /\ is_ok (get_llm plain_repr llm_manager (Some name)) = true)
    /\ (domestic_key qwen_and_openai = false ->
        llm_manager = new_manager
        /\ is_ok (get_llm plain_repr llm_manager None) = false
        /\ (truthy_str (qwen_and_openai "OPENAI_API_KEY") = true ->
            forall task,
              get_llm_for_task qwen_and_openai llm_manager task
              = Ok (Some "openai-smart")
              /\ is_ok (get_llm plain_repr llm_manager (Some "openai-smart")) = false)).
Proof.
  apply (init_llms_from_env_serves_tasks qwen_and_openai any_client plain_repr).
  reflexivity.
Defined.

End Registry.

Section GenerationTasks.
Import db_models tasks_base model_fields dyn stage_env generation_tasks.

Lemma update_task_status_keeps_row db now tid status progress msg res err t :
  db !! tid = Some t ->
  exists t', update_task_status db now tid status progress msg res err !! tid = Some t'.
Proof.
  intros Hdb. unfold update_task_status. rewrite Hdb.
  destruct (apply_update now t status progress msg res err) as [t'|].
  - exists t'. by rewrite lookup_insert_eq.
  - by exists t.
Qed.

Lemma on_failure_closes db now exc tid t :
  db !! tid = Some t -> closed_as_failed (on_failure db now exc tid) tid now exc.
Proof.
  intros Hdb. unfold closed_as_failed, on_failure, update_task_status. rewrite Hdb.
  set (msg := class_name (exn_type exc) ++ ": " ++ exn_str exc).
  destruct (apply_update_valid now t (Some "failed") (Some 0) None None (Some msg))
    as [t' Ht']; [reflexivity|].
  rewrite Ht'. exists t'. rewrite lookup_insert_eq.
  destruct (apply_update_failed _ _ _ _ Ht' (error_msg_truthy exc)) as (? & ? & ? & ?).
  done.
Qed.

Lemma idea_of_row_raises row :
  exists exc, idea_of_row row = Raise exc
              /\ (exn_type exc = AttributeError \/ exn_type exc = TypeError).
Proof.
  unfold idea_of_row.
  repeat match goal with
         | |- context [py.bind (getattr row ?name) _] =>
             let H := fresh "H" in
             destruct (getattr row name) as [?|exc] eqn:H; cbn [py.bind];
             [|exists exc; split; [reflexivity|];
               left; destruct row; cbn in H;
               repeat case_match; by simplify_eq/=]
         end.
  eexists. split; [reflexivity|]. by right.
Qed.

(** X27.  [method_design_task] completes for no input.  Without the idea's
    row it raises [ValueError]; with it, building the [ResearchIdea] raises
    [AttributeError] or [TypeError], since the row has no attribute
    [hypothesis] and the dataclass no field [id].  The failure callback
    then closes the task's row as failed, with progress 0. *)
Theorem method_design_task_always_fails
    (percent : Z -> Z -> Z) (e : env) (uuid : string) (db : table) (now later : Z)
    (task_id idea_id : string) (idea_db : option pyval)
    (save : pyval -> table -> py.result pyval * table) (t : AsyncTask) :
  db !! task_id = Some t ->
  let outcome := method_design_task percent e uuid db now task_id idea_id idea_db save in
  exists exc,
    fst outcome = Raise exc
    /\ (exn_type exc = ValueError \/ exn_type exc = AttributeError
        \/ exn_type exc = TypeError)
    /\ closed_as_failed (finish outcome later task_id) task_id later exc.
Proof.
  intros Hdb. cbv zeta. unfold method_design_task, tracker_update.
  destruct (update_task_status_keeps_row db now task_id (Some "running") None None
              None None t Hdb) as [t1 H1].
  set (db1 := update_task_status db now task_id (Some "running") None None None None) in *.
  destruct (update_task_status_keeps_row db1 now task_id None (Some (percent 1 4))
              (Some "Loading research idea...") None None t1 H1) as [t2 H2].
  set (db2 := update_task_status db1 _ _ _ _ _ _ _) in *.
  destruct (update_task_status_keeps_row db2 now task_id None (Some (percent 2 4))
              (Some "Designing method...") None None t2 H2) as [t3 H3].
  set (db3 := update_task_status db2 _ _ _ _ _ _ _) in *.
  destruct idea_db as [row|].
  - destruct (truthy row).
    + destruct (idea_of_row_raises row) as (exc & -> & Hcls). exists exc.
      split; [reflexivity|]. split; [tauto|]. cbn. by eapply on_failure_closes.
    + eexists. split; [reflexivity|]. split; [by left|]. cbn.
      by eapply on_failure_closes.
  - eexists. split; [reflexivity|]. split; [by left|]. cbn.
    by eapply on_failure_closes.
Qed.

Lemma method_design_task_always_fails_witness :
  exists exc,
    fst (method_design_task whole_percent answers_in_prose "u-1" sample_table 100 "t-1"
           "idea_1" (Some an_idea_row) saves_nothing) = Raise exc
    /\ (exn_type exc = ValueError \/ exn_type exc = AttributeError
        \/ exn_type exc = TypeError)
    /\ closed_as_failed
         (finish (method_design_task whole_percent answers_in_prose "u-1" sample_table
                    100 "t-1" "idea_1" (Some an_idea_row) saves_nothing) 160 "t-1")
         "t-1" 160 exc.
Proof.
  apply (method_design_task_always_fails whole_percent answers_in_prose "u-1"
           sample_table 100 160 "t-1" "idea_1" (Some an_idea_row) saves_nothing
           sample_task).
  reflexivity.
Defined.

Example method_design_task_on_a_row :
  fst (method_design_task whole_percent answers_in_prose "u-1" sample_table 100 "t-1"
         "idea_1" (Some an_idea_row) saves_nothing)
  = Raise (mk_exn AttributeError
             "'ResearchIdeaDB' object has no attribute 'hypothesis'").
Proof. vm_compute. reflexivity. Qed.

(** X28.  [paper_draft_task] completes for no input either: it raises
    [ValueError] when the idea or the method is missing and, when both are
    there, [AttributeError] or [TypeError] while it builds the
    [ResearchIdea], before the draft generator is called; the failure
    callback closes the task's row as failed. *)
Theorem paper_draft_task_always_fails
    (percent : Z -> Z -> Z) (db : table) (now later : Z)
    (task_id idea_id : string) (idea_db method_db : option pyval)
    (draft : pyval -> pyval -> table -> py.result pyval * table) (t : AsyncTask) :
  db !! task_id = Some t ->
  let outcome := paper_draft_task percent db now task_id idea_id idea_db method_db draft in
  exists exc,
    fst outcome = Raise exc
    /\ (exn_type exc = ValueError \/ exn_type exc = AttributeError
        \/ exn_type exc = TypeError)
    /\ closed_as_failed (finish outcome later task_id) task_id later exc.
Proof.
  intros Hdb. cbv zeta. unfold paper_draft_task, tracker_update.
  destruct (update_task_status_keeps_row db now task_id (Some "running") None None
              None None t Hdb) as [t1 H1].
  set (db1 := update_task_status db now task_id (Some "running") None None None None) in *.
  destruct (update_task_status_keeps_row db1 now task_id None (Some (percent 1 8))
              (Some "Loading research idea and method...") None None t1 H1) as [t2 H2].
  set (db2 := update_task_status db1 _ _ _ _ _ _ _) in *.
  destruct (update_task_status_keeps_row db2 now task_id None (Some (percent 2 8))
              (Some "Initializing paper generator...") None None t2 H2) as [t3 H3].
  set (db3 := update_task_status db2 _ _ _ _ _ _ _) in *.
  assert (forall exc db', db' !! task_id = Some t2 \/ db' !! task_id = Some t3 ->
            closed_as_failed (finish (Raise exc, db') later task_id) task_id later exc)
    as Hclose.
  { intros exc db' [H|H]; cbn; by eapply on_failure_closes. }
  destruct idea_db as [idea_row|]; [destruct (truthy idea_row)|];
    try (eexists; split; [reflexivity|]; split; [by left|]; apply Hclose; by left).
  destruct method_db as [method_row|]; [destruct (truthy method_row)|];
    try (eexists; split; [reflexivity|]; split; [by left|]; apply Hclose; by left).
  destruct (idea_of_row_raises idea_row) as (exc & -> & Hcls). exists exc.
  split; [reflexivity|]. split; [tauto|]. apply Hclose. by right.
Qed.

Lemma paper_draft_task_always_fails_witness :
  exists exc,
    fst (paper_draft_task whole_percent sample_table 100 "t-1" "idea_1"
           (Some an_idea_row) (Some a_method_as_read) drafts_nothing) = Raise exc
    /\ (exn_type exc = ValueError \/ exn_type exc = AttributeError
        \/ exn_type exc = TypeError)
    /\ closed_as_failed
         (finish (paper_draft_task whole_percent sample_table 100 "t-1" "idea_1"
                    (Some an_idea_row) (Some a_method_as_read) drafts_nothing)
            160 "t-1")
         "t-1" 160 exc.
Proof.
  apply (paper_draft_task_always_fails whole_percent sample_table 100 160 "t-1"
           "idea_1" (Some an_idea_row) (Some a_method_as_read) drafts_nothing
           sample_task).
  reflexivity.
Defined.

End GenerationTasks.

Section IntentStep.
Import models research_intent intent_step.

Lemma create_research_intent_fields kw ys ye jl pt fd intent :
  create_research_intent kw ys ye jl pt fd = Ok intent ->
  keywords intent = pystr.strip kw /\ year_start intent = ys /\ year_end intent = ye
  /\ (truthy_int ys = true -> truthy_int ye = true ->
      forall first last, ys = Some first -> ye = Some last -> first <= last).
Proof.
  unfold create_research_intent.
  destruct (negb (truthy_str (Some kw)) || negb (truthy_str (Some (pystr.strip kw))))%bool;
    [discriminate|].
  destruct (convert_enums jl pt fd) as [[[j p] f]|]; cbn [py.bind]; [|discriminate].
  destruct (truthy_int ys && truthy_int ye
            && match ys, ye with
               | Some s, Some e => (e <? s)%Z
               | _, _ => false
               end)%bool eqn:Hy; [discriminate|].
  intros [= <-]. cbn. repeat split.
  intros Hs He first last -> ->. rewrite Hs, He in Hy. cbn in Hy.
  apply Z.ltb_ge in Hy. lia.
Qed.

(** X29.  An intent that the workflow accepts is a checked one: its
    keywords are the stripped input and have at least three characters, a
    start year that is set and not 0 is 1900 or later, an end year that is
    set and not 0 is at most next year, and when both are set and not 0
    the start year is not after the end year. *)
Theorem set_research_intent_accepts_checked_intents
    (current_year : Z) (kw : string) (ys ye : option Z) (jl pt fd : string)
    (intent : ResearchIntent) :
  set_research_intent current_year kw ys ye jl pt fd = Ok intent ->
  keywords intent = pystr.strip kw
  /\ (3 <= String.length (keywords intent))%nat
  /\ year_start intent = ys /\ year_end intent = ye
  /\ (forall first, ys = Some first -> first <> 0 -> 1900 <= first)
  /\ (forall last, ye = Some last -> last <> 0 -> last <= current_year + 1)
  /\ (forall first last, ys = Some first -> ye = Some last ->
        first <> 0 -> last <> 0 -> first <= last).
Proof.
  unfold set_research_intent.
  destruct (create_research_intent kw ys ye jl pt fd) as [created|] eqn:Hc;
    cbn [py.bind]; [|discriminate].
  destruct (validate_research_intent current_year created) eqn:Hv; [|discriminate].
  intros [= <-].
  apply create_research_intent_fields in Hc as (Hk & Hs & He & Horder).
  revert Hv. unfold validate_research_intent. rewrite Hk, Hs, He, strip_idempotent.
  destruct (negb (truthy_str (Some (pystr.strip kw)))
            || (String.length (pystr.strip kw) <? 3)%nat)%bool eqn:Hlen; [discriminate|].
  apply orb_false_elim in Hlen as [_ Hlen]. apply Nat.ltb_ge in Hlen.
  destruct (truthy_int ys && _)%bool eqn:H1; [discriminate|].
  destruct (truthy_int ye && _)%bool eqn:H2; [discriminate|]. intros _.
  split; [done|]. split; [done|]. split; [done|]. split; [done|].
  split; [|split].
  - intros first -> Hne. rewrite (truthy_int_nonzero first Hne) in H1. cbn in H1.
    apply Z.ltb_ge in H1. lia.
  - intros last -> Hne. rewrite (truthy_int_nonzero last Hne) in H2. cbn in H2.
    apply Z.ltb_ge in H2. lia.
  - intros first last -> -> Hf Hl.
    apply (Horder (truthy_int_nonzero first Hf) (truthy_int_nonzero last Hl)
             first last eq_refl eq_refl).
Qed.

Lemma set_research_intent_accepts_witness :
  keywords graph_attention_2019_2024 = pystr.strip " graph attention "
  /\ (3 <= String.length (keywords graph_attention_2019_2024))%nat
  /\ year_start graph_attention_2019_2024 = Some 2019
  /\ year_end graph_attention_2019_2024 = Some 2024
  /\ (forall first, Some 2019 = Some first -> first <> 0 -> 1900 <= first)
  /\ (forall last, Some 2024 = Some last -> last <> 0 -> last <= 2026 + 1)
  /\ (forall first last, Some 2019 = Some first -> Some 2024 = Some last ->
        first <> 0 -> last <> 0 -> first <= last).
Proof.
  apply (set_research_intent_accepts_checked_intents 2026 " graph attention "
           (Some 2019) (Some 2024) "any" "any" "ml" graph_attention_2019_2024).
  vm_compute. reflexivity.
Defined.

End IntentStep.
